(** * Mirage: the emotion-aware adaptation engine

    A shallow embedding of [agent/emotion/emotion_config.py],
    [agent/emotion/detector.py], [agent/emotion/personality_adapter.py],
    [agent/emotion/session_handler.py] and the speech hook of
    [agent/worker.py], and the properties of the engine stated over it.

    Modelling conventions.
    - A Python [str] is the [string] of its code points, one [ascii] per
      code point (not per byte of an encoding): the model holds the strs
      whose code points are all below 256.  [len], [strip], [lower],
      [split], [join] and [startswith] are those of Python on these strs.
    - A Python [float] is a binary64 number, [float] of the kernel: the
      confidence and the intensity of a result, with NaN, the infinities
      and the rounding of the arithmetic.  [x < y] on floats is
      [(x <? y)%float].
    - The readings of the clock and the constants of the valence and
      arousal table are rationals ([Q]); [x < y] on them is [Qltb x y].
    - A method that mutates [self] takes the object and returns the new one;
      the detector, which reads the clock, calls a remote service and may
      raise, lives in the small state-and-exception monad [Py.M].
    - What the interpreter and third-party libraries provide ([hash],
      [json.loads], [float] on a [str], [time.time], [datetime.utcnow]) is
      gathered in the record [Runtime]. *)

From Stdlib Require Import QArith Qabs ZArith List String Ascii Bool Lia DecimalString.
From Stdlib Require Import Floats.
From stdpp Require Import base option list strings gmap.

Local Open Scope string_scope.
Local Open Scope list_scope.

#[local] Set Warnings "-inexact-float".

(* ===================================================================== *)
(** ** Python strings *)
(* ===================================================================== *)

Module PyStr.

(** The double-quote character, and [s] between double quotes. *)
Definition dquote : string := String (ascii_of_nat 34) EmptyString.
Definition quoted (s : string) : string := dquote +:+ s +:+ dquote.

Definition newline : ascii := ascii_of_nat 10.
Definition nl : string := String newline EmptyString.

(** [c.isspace()] for a code point below 256: tab, line feed, vertical
    tab, form feed, carriage return, the four separators 28-31, space,
    next line (133) and no-break space (160). *)
Definition isspace (c : ascii) : bool :=
  let n := nat_of_ascii c in
  ((9 <=? n)%nat && (n <=? 13)%nat) || ((28 <=? n)%nat && (n <=? 32)%nat)
  || (n =? 133)%nat || (n =? 160)%nat.

(** The lower-case form of a code point below 256: the letters A-Z and
    the capital letters 192-222 (all but the multiplication sign, 215) are
    32 below their lower-case form. *)
Definition lower_char (c : ascii) : ascii :=
  let n := nat_of_ascii c in
  if ((65 <=? n)%nat && (n <=? 90)%nat)
     || ((192 <=? n)%nat && (n <=? 222)%nat && negb (n =? 215)%nat)
  then ascii_of_nat (n + 32) else c.

(** The upper-case form, where it is one code point below 256: the
    letters a-z and the small letters 224-254 (all but the division sign,
    247).  The micro sign (181), the sharp s (223) and y with diaeresis
    (255), whose upper-case forms are not, are left as they are. *)
Definition upper_char (c : ascii) : ascii :=
  let n := nat_of_ascii c in
  if ((97 <=? n)%nat && (n <=? 122)%nat)
     || ((224 <=? n)%nat && (n <=? 254)%nat && negb (n =? 247)%nat)
  then ascii_of_nat (n - 32) else c.

Fixpoint map_chars (f : ascii -> ascii) (s : string) : string :=
  match s with
  | EmptyString => EmptyString
  | String c s' => String (f c) (map_chars f s')
  end.

(** [s.lower()], and [s.upper()] for [s] without the three characters
    above ([adapt_instructions] applies it to labels of the table). *)
Definition lower : string -> string := map_chars lower_char.
Definition upper : string -> string := map_chars upper_char.

Fixpoint lstrip (s : string) : string :=
  match s with
  | EmptyString => EmptyString
  | String c s' => if isspace c then lstrip s' else s
  end.

(** [rstrip] keeps a character when it, or something after it, is not
    white space. *)
Fixpoint rstrip (s : string) : string :=
  match s with
  | EmptyString => EmptyString
  | String c s' =>
      match rstrip s' with
      | EmptyString => if isspace c then EmptyString else String c EmptyString
      | r => String c r
      end
  end.

(** [s.strip()]. *)
Definition strip (s : string) : string := rstrip (lstrip s).

(** [s.startswith(p)]. *)
Definition startswith (p s : string) : bool := String.prefix p s.

(** [s.split(sep)] for a one-character separator: always at least one
    piece. *)
Fixpoint split (sep : ascii) (s : string) : list string :=
  match s with
  | EmptyString => [EmptyString]
  | String c s' =>
      if Ascii.eqb c sep then EmptyString :: split sep s'
      else match split sep s' with
           | [] => [String c EmptyString]
           | piece :: rest => String c piece :: rest
           end
  end.

(** [sep.join(pieces)]. *)
Definition join (sep : string) (pieces : list string) : string :=
  String.concat sep pieces.

(** [l[-n:]] for [n > 0]: the last [n] elements, all of [l] when it is
    shorter. *)
Definition last_n {A} (n : nat) (l : list A) : list A :=
  drop (length l - n) l.

(** [l[1:-1]]: without the first and the last element. *)
Definition slice_1_m1 {A} (l : list A) : list A :=
  take (length l - 2) (drop 1 l).

(** [str(n)] for an [int]. *)
Definition str_of_int (n : Z) : string := NilZero.string_of_int (Z.to_int n).

(** Whether every character of [s] is white space. *)
Fixpoint all_space (s : string) : bool :=
  match s with
  | EmptyString => true
  | String c s' => isspace c && all_space s'
  end.

End PyStr.

(* ===================================================================== *)
(** ** Floats *)
(* ===================================================================== *)

(** [x < y] on readings of the clock. *)
Definition Qltb (x y : Q) : bool := negb (Qle_bool y x).

(** [float(n)] for an [int]: the nearest binary64 number, ties to even;
    [None] stands for the [OverflowError] of an [int] too large to
    convert. *)
Definition float_of_int (n : Z) : option float :=
  match binary_normalize prec emax n 0 false with
  | S754_infinity _ => None
  | x => Some (SF2Prim x)
  end.

(** The magnitude [m * 2 ^ e] of a finite binary64 number. *)
Definition magnitude (m : positive) (e : Z) : Q :=
  match e with
  | Z0 => inject_Z (Z.pos m)
  | Z.pos p => inject_Z (Z.pos m * 2 ^ Z.pos p)
  | Z.neg p => Z.pos m # 2 ^ p
  end.

(** The integer nearest to [x], the even one of the two when [x] is half
    way. *)
Definition round_half_even (x : Q) : Z :=
  let n := Qnum x in
  let d := Z.pos (Qden x) in
  let fl := (n / d)%Z in
  let r2 := (2 * (n mod d))%Z in
  if (r2 <? d)%Z then fl
  else if (d <? r2)%Z then (fl + 1)%Z
  else if Z.even fl then fl else (fl + 1)%Z.

Definition minus_sign (s : bool) : string :=
  if s then "-" else EmptyString.

(** [f"{x:.0%}"]: [x] is multiplied by one hundred as a float; the
    product is written with no digit after the point, rounded to the
    nearest integer (ties to even) with the sign of the product, and
    followed by a percent sign. *)
Definition format_percent0 (x : float) : string :=
  match Prim2SF (x * 100)%float with
  | S754_nan => "nan%"
  | S754_infinity s => minus_sign s +:+ "inf%"
  | S754_zero s => minus_sign s +:+ "0%"
  | S754_finite s m e =>
      minus_sign s +:+ PyStr.str_of_int (round_half_even (magnitude m e))
      +:+ "%"
  end.

(* ===================================================================== *)
(** ** emotion_config.py *)
(* ===================================================================== *)

Definition EMOTION_CATEGORIES : list string :=
  ["happy"; "sad"; "angry"; "anxious"; "neutral"; "excited"; "confused";
   "frustrated"].

Record ValenceArousal := { va_valence : Q; va_arousal : Q }.

Definition EMOTION_VALENCE_AROUSAL : gmap string ValenceArousal :=
  list_to_map
    [ ("happy",      {| va_valence := 8 # 10;    va_arousal := 6 # 10 |});
      ("excited",    {| va_valence := 9 # 10;    va_arousal := 9 # 10 |});
      ("sad",        {| va_valence := - (7 # 10); va_arousal := 3 # 10 |});
      ("anxious",    {| va_valence := - (5 # 10); va_arousal := 8 # 10 |});
      ("angry",      {| va_valence := - (8 # 10); va_arousal := 9 # 10 |});
      ("frustrated", {| va_valence := - (6 # 10); va_arousal := 7 # 10 |});
      ("confused",   {| va_valence := - (3 # 10); va_arousal := 5 # 10 |});
      ("neutral",    {| va_valence := 0;          va_arousal := 5 # 10 |}) ].

Definition RATE_LIMIT_CALLS : Z := 10.
Definition RATE_LIMIT_WINDOW : Z := 60.
Definition EMOTION_CACHE_TTL : Z := 30.
Definition MIN_ANALYSIS_INTERVAL : Z := 5.
Definition CONFIDENCE_THRESHOLD : float := 0.6.

(** The backend, when the environment names none. *)
Definition BACKEND_URL : string := "http://localhost:8000".

Definition get_valence_arousal (emotion : string) : ValenceArousal :=
  default {| va_valence := 0; va_arousal := 5 # 10 |}
          (EMOTION_VALENCE_AROUSAL !! emotion).

Definition is_valid_emotion (emotion : string) : bool :=
  bool_decide (emotion ∈ EMOTION_CATEGORIES).

Definition get_emotion_categories_str : string :=
  PyStr.join ", " EMOTION_CATEGORIES.


(* ===================================================================== *)
(** ** personality_adapter.py *)
(* ===================================================================== *)

(** Emotion-specific instruction modifiers for each agent type. *)
Definition teacher_adaptations : list (string * string) :=
  [ ("happy",
"
The user seems happy and engaged! Match their positive energy:
- Celebrate their enthusiasm
- Build on their momentum
- Use encouraging language
- Keep the pace upbeat
");
    ("excited",
"
The user is very excited! Channel that energy:
- Share in their excitement
- Keep explanations dynamic and engaging
- Use vivid examples
- Maintain high energy in your responses
");
    ("confused",
"
The user seems confused. Adjust your teaching approach:
- Slow down and break concepts into smaller steps
- Use simpler language and more examples
- Check for understanding frequently
- Be patient and reassuring
- Offer to explain in a different way
");
    ("frustrated",
"
The user appears frustrated. Provide extra support:
- Acknowledge that this is challenging
- Break the problem down into manageable pieces
- Offer encouragement and remind them of progress
- Suggest taking a different approach
- Be patient and supportive
");
    ("anxious",
"
The user seems anxious. Create a calm, supportive environment:
- Use reassuring language
- Emphasize that mistakes are part of learning
- Go at a comfortable pace
- Provide clear, structured guidance
- Celebrate small wins
");
    ("sad",
"
The user seems down. Be empathetic and supportive:
- Show understanding and compassion
- Keep tone gentle and encouraging
- Focus on achievable goals
- Remind them of their capabilities
- Offer positive reinforcement
");
    ("angry",
"
The user seems upset. Stay calm and professional:
- Remain patient and understanding
- Acknowledge their feelings
- Focus on problem-solving
- Keep responses clear and helpful
- Don't take it personally
");
    ("neutral",
"
The user has a neutral emotional state. Maintain your standard approach:
- Be clear and informative
- Stay engaged and helpful
- Adapt as their emotional state changes
") ].

Definition consultant_adaptations : list (string * string) :=
  [ ("happy",
"The client is positive. Leverage this momentum to explore opportunities and make progress.");
    ("excited",
"The client is enthusiastic. Channel this energy into actionable next steps.");
    ("confused",
"The client needs clarity. Slow down, simplify your points, and ensure understanding before proceeding.");
    ("frustrated",
"The client is frustrated. Acknowledge the challenge, break it down, and focus on practical solutions.");
    ("anxious",
"The client is concerned. Provide reassurance, clear frameworks, and reduce uncertainty.");
    ("sad",
"The client seems discouraged. Be empathetic, focus on wins, and rebuild confidence.");
    ("angry",
"The client is upset. Stay professional, listen carefully, and focus on resolving the issue.");
    ("neutral",
"Maintain professional, strategic guidance.") ].

Definition coach_adaptations : list (string * string) :=
  [ ("happy",
"The person is in a positive state! Amplify this energy and help them set ambitious goals.");
    ("excited",
"They're fired up! Help them channel this excitement into concrete action plans.");
    ("confused",
"They're uncertain. Help them gain clarity through powerful questions and reflection.");
    ("frustrated",
"They're struggling. Acknowledge their effort, reframe the challenge, and find a new angle.");
    ("anxious",
"They're worried. Create safety, validate their feelings, and help them find their center.");
    ("sad",
"They're feeling low. Hold space for their emotions, remind them of their strength, and find small steps forward.");
    ("angry",
"They're upset. Let them express it, validate the emotion, then guide toward constructive action.");
    ("neutral",
"Meet them where they are and help them explore what's next.") ].

Definition friend_adaptations : list (string * string) :=
  [ ("happy",
"They're happy! Share in their joy and keep the good vibes going.");
    ("excited",
"They're pumped! Match their energy and have fun with it.");
    ("confused",
"They're not sure about something. Help them think it through in a relaxed way.");
    ("frustrated",
"They're annoyed. Be understanding and help them vent or find a solution.");
    ("anxious",
"They're stressed. Be a calming presence and supportive friend.");
    ("sad",
"They're down. Be there for them, listen, and offer comfort.");
    ("angry",
"They're mad. Let them express it and be supportive without judgment.");
    ("neutral",
"Just have a good, natural conversation.") ].

Definition EMOTION_ADAPTATIONS : gmap string (gmap string string) :=
  list_to_map
    [ ("teacher",    list_to_map teacher_adaptations);
      ("consultant", list_to_map consultant_adaptations);
      ("coach",      list_to_map coach_adaptations);
      ("friend",     list_to_map friend_adaptations) ].

(** One entry of [emotion_history]. *)
Record HistoryEntry := {
  h_emotion : string;
  h_confidence : float;
  h_timestamp : option string
}.

(** The keys of [emotion_data] that the adapter reads with [dict.get];
    [None] is an absent key. *)
Record EmotionData := {
  ed_emotion : option string;
  ed_confidence : option float;
  ed_detected_at : option string
}.

Module PersonalityAdapter.

Record t := {
  agent_type : string;
  current_emotion : string;
  emotion_history : list HistoryEntry
}.

(** [PersonalityAdapter.__init__]. *)
Definition init (agent_type : string) : t :=
  {| agent_type := agent_type;
     current_emotion := "neutral";
     emotion_history := [] |}.

(** [_get_adaptation]. *)
Definition _get_adaptation (self : t) (emotion : string)
  : option string :=
  default ∅ (EMOTION_ADAPTATIONS !! agent_type self) !! emotion.

(** The f-string that combines the base instructions with the
    adaptation. *)
Definition adapted_text (base_instructions emotion : string)
    (confidence : float) (adaptation : string) : string :=
  base_instructions +:+ "

CURRENT USER EMOTIONAL STATE: " +:+ PyStr.upper emotion
  +:+ " (confidence: " +:+ format_percent0 confidence +:+ ")

ADAPT YOUR RESPONSE ACCORDINGLY:
" +:+ adaptation +:+ "

Remember to maintain your core personality while being sensitive to the user's emotional state.
".

(** The "Track emotion" block of [adapt_instructions]: set
    [current_emotion], append to the history, keep the last ten. *)
Definition track (self : t) (emotion : string)
    (confidence : float) (timestamp : option string) : t :=
  let history :=
    emotion_history self ++
      [ {| h_emotion := emotion;
           h_confidence := confidence;
           h_timestamp := timestamp |} ] in
  {| agent_type := agent_type self;
     current_emotion := emotion;
     emotion_history :=
       if (10 <? length history)%nat then PyStr.last_n 10 history
       else history |}.

(** [adapt_instructions]: the returned instructions and the adapter
    afterwards. *)
Definition adapt_instructions (self : t)
    (base_instructions : string) (emotion_data : EmotionData)
    (confidence_threshold : float) : string * t :=
  let emotion := default "neutral" (ed_emotion emotion_data) in
  let confidence := default 0%float (ed_confidence emotion_data) in
  if (confidence <? confidence_threshold)%float then (base_instructions, self)
  else
    let self := track self emotion confidence (ed_detected_at emotion_data) in
    match _get_adaptation self emotion with
    | None => (base_instructions, self)
    | Some adaptation =>
        if String.eqb adaptation EmptyString then (base_instructions, self)
        else (adapted_text base_instructions emotion confidence adaptation,
              self)
    end.

(** The dict [emotion_counts], in insertion order: [d[k] = d.get(k, 0) + 1]
    keeps the place of a key that is present and puts a new key last. *)
Fixpoint count_incr (k : string) (d : list (string * nat))
  : list (string * nat) :=
  match d with
  | [] => [(k, 1%nat)]
  | (k', v) :: d' =>
      if String.eqb k k' then (k', (v + 1)%nat) :: d'
      else (k', v) :: count_incr k d'
  end.

Definition count_emotions (labels : list string) : list (string * nat) :=
  fold_left (fun d e => count_incr e d) labels [].

(** [max(d, key=d.get)] continued from the best key so far: a later key
    takes over only when its count is strictly greater. *)
Fixpoint max_from (best : string) (best_count : nat)
    (d : list (string * nat)) : string :=
  match d with
  | [] => best
  | (k, v) :: d' =>
      if (best_count <? v)%nat then max_from k v d'
      else max_from best best_count d'
  end.

(** [max(d, key=d.get)]; [None] stands for the [ValueError] on an empty
    dict. *)
Definition max_by_count (d : list (string * nat)) : option string :=
  match d with
  | [] => None
  | (k, v) :: d' => Some (max_from k v d')
  end.

(** The labels of the five most recent entries. *)
Definition recent_labels (self : t) : list string :=
  h_emotion <$> PyStr.last_n 5 (emotion_history self).

(** [get_dominant_emotion].  The [ValueError] of [max] on an empty dict
    cannot happen: past the first test the window, and so the dict, is
    not empty (see [recent_labels_nonempty] and [vote_winner]). *)
Definition get_dominant_emotion (self : t) : string :=
  match emotion_history self with
  | [] => "neutral"
  | _ :: _ =>
      default "neutral" (max_by_count (count_emotions (recent_labels self)))
  end.

Definition negative_emotions : list string :=
  ["sad"; "frustrated"; "angry"; "anxious"].

(** [should_check_in]. *)
Definition should_check_in (self : t) : bool :=
  if (length (emotion_history self) <? 3)%nat then false
  else
    let recent := h_emotion <$> PyStr.last_n 3 (emotion_history self) in
    forallb (fun e => bool_decide (e ∈ negative_emotions)) recent.

(** One call of [adapt_instructions], and a conversation: the adapter
    after a sequence of calls. *)
Record call := {
  call_base : string;
  call_data : EmotionData;
  call_threshold : float
}.

Definition call_emotion (c : call) : string :=
  default "neutral" (ed_emotion (call_data c)).

Definition call_confidence (c : call) : float :=
  default 0%float (ed_confidence (call_data c)).

(** The call's confidence is not below its threshold. *)
Definition passes (c : call) : bool :=
  negb (call_confidence c <? call_threshold c)%float.

(** The history entry that a call which passes appends. *)
Definition entry_of (c : call) : HistoryEntry :=
  {| h_emotion := call_emotion c;
     h_confidence := call_confidence c;
     h_timestamp := ed_detected_at (call_data c) |}.

Definition after_calls (self : t) (calls : list call) : t :=
  fold_left
    (fun a c =>
       snd (adapt_instructions a (call_base c) (call_data c)
                               (call_threshold c)))
    calls self.

(** The dictionary that [get_stats] returns. *)
Record stats := {
  stats_agent_type : string;
  stats_current_emotion : string;
  stats_dominant_emotion : string;
  stats_should_check_in : bool;
  stats_emotion_history_length : nat;
  stats_recent_emotions : list string
}.

Definition get_stats (self : t) : stats :=
  {| stats_agent_type := agent_type self;
     stats_current_emotion := current_emotion self;
     stats_dominant_emotion := get_dominant_emotion self;
     stats_should_check_in := should_check_in self;
     stats_emotion_history_length := length (emotion_history self);
     stats_recent_emotions := recent_labels self |}.

(** The label of the most recent history entry, neutral when there is
    none. *)
Definition last_label (self : t) : string :=
  default "neutral" (last (h_emotion <$> emotion_history self)).

(** What [__init__] sets up and [adapt_instructions] keeps: at most ten
    history entries, and [current_emotion] is the label of the most recent
    one. *)
Definition consistent (self : t) : Prop :=
  (length (emotion_history self) <= 10)%nat /\
  current_emotion self = last_label self.

End PersonalityAdapter.

(** How often a label occurs in a window, and the labels of a window in
    the order of their first occurrence. *)
Definition occurrences (e : string) (labels : list string) : nat :=
  count_occ string_dec labels e.

Definition first_seen (labels : list string) : list string :=
  fold_left (fun ks e => if decide (e ∈ ks) then ks else ks ++ [e]) labels [].

(* ===================================================================== *)
(** ** The interpreter, the libraries and the remote classifier *)
(* ===================================================================== *)

#[local] Set Warnings "-register-all".

(** A value returned by [json.loads]: a number without fraction or
    exponent is an [int], any other number a [float] ([NaN], [Infinity]
    and a number beyond the range of the floats included). *)
Inductive json :=
| JNull
| JBool (b : bool)
| JInt (n : Z)
| JFloat (x : float)
| JStr (s : string)
| JArr (items : list json)
| JObj (members : list (string * json)).

(** What the detector takes from outside.  The two clocks are read by a
    shared counter: [time_at n] and [utcnow_at n] are what [time.time()]
    and [datetime.utcnow().isoformat()] return at the [n]-th reading. *)
Record Runtime := {
  py_hash : string -> Z;
  json_loads : string -> option json;
  float_of_str : string -> option float;
  time_at : nat -> Q;
  utcnow_at : nat -> string
}.

(** What [client.models.generate_content] does with a prompt: it raises,
    or it answers with a text. *)
Inductive RemoteOutcome :=
| RemoteRaises
| RemoteText (text : string).

Inductive PyExn :=
| ValueError
| RemoteError.

(** State, clock and exceptions.  A computation starts from an object and
    a clock position and ends with a value or an exception, the object as
    it is then, and the new clock position. *)
Module Py.

Inductive outcome (A : Type) :=
| Return (a : A)
| Raise (e : PyExn).
Arguments Return {A} a.
Arguments Raise {A} e.

Definition M (St A : Type) : Type := St -> nat -> outcome A * St * nat.

Definition ret {St A} (a : A) : M St A := fun s n => (Return a, s, n).

Definition bind {St A B} (m : M St A) (k : A -> M St B) : M St B :=
  fun s n =>
    match m s n with
    | (Return a, s', n') => k a s' n'
    | (Raise e, s', n') => (Raise e, s', n')
    end.

Definition raise {St A} (e : PyExn) : M St A := fun s n => (Raise e, s, n).

(** [try: m except Exception: handler]. *)
Definition try_except {St A} (m : M St A) (handler : PyExn -> M St A) : M St A :=
  fun s n =>
    match m s n with
    | (Return a, s', n') => (Return a, s', n')
    | (Raise e, s', n') => handler e s' n'
    end.

Definition get_self {St} : M St St := fun s n => (Return s, s, n).

Definition modify {St} (f : St -> St) : M St unit := fun s n => (Return tt, f s, n).

(** Run a method of the attribute read by [proj] and written by [upd]. *)
Definition zoom {St T A} (proj : St -> T) (upd : T -> St -> St) (m : M T A)
  : M St A :=
  fun s n =>
    match m (proj s) n with
    | (r, t, n') => (r, upd t s, n')
    end.

(** [time.time()] and [datetime.utcnow().isoformat()]. *)
Definition time_time {St} (R : Runtime) : M St Q :=
  fun s n => (Return (time_at R n), s, S n).

Definition utcnow_isoformat {St} (R : Runtime) : M St string :=
  fun s n => (Return (utcnow_at R n), s, S n).

End Py.

Declare Scope py_scope.
Delimit Scope py_scope with py.
Notation "x <- m ;; k" := (Py.bind m (fun x => k))
  (at level 100, m at next level, right associativity) : py_scope.
Notation "m ;; k" := (Py.bind m (fun _ => k))
  (at level 100, right associativity) : py_scope.

(* ===================================================================== *)
(** ** detector.py *)
(* ===================================================================== *)

(** The dictionary an analysis returns. *)
Record EmotionResult := {
  emotion : string;
  confidence : float;
  intensity : float;
  valence : Q;
  arousal : Q;
  detected_at : string
}.

(** An [EmotionResult] as the [emotion_data] argument of the adapter. *)
Definition as_emotion_data (r : EmotionResult) : EmotionData :=
  {| ed_emotion := Some (emotion r);
     ed_confidence := Some (confidence r);
     ed_detected_at := Some (detected_at r) |}.

Module RateLimiter.

Record t := {
  max_calls : Z;
  time_window : Z;
  calls : list Q
}.

Definition init (max_calls time_window : Z) : t :=
  {| max_calls := max_calls; time_window := time_window; calls := [] |}.

Definition set_calls (calls : list Q) (self : t) : t :=
  {| max_calls := max_calls self;
     time_window := time_window self;
     calls := calls |}.

(** The calls still inside the window at time [now]. *)
Definition in_window (self : t) (now : Q) : list Q :=
  List.filter
    (fun call_time => Qltb (now - call_time) (inject_Z (time_window self)))
    (calls self).

Definition can_call (R : Runtime) : Py.M t bool :=
  (now <- Py.time_time R ;;
   self <- Py.get_self ;;
   Py.modify (set_calls (in_window self now)) ;;
   self <- Py.get_self ;;
   Py.ret (Z.of_nat (length (calls self)) <? max_calls self)%Z)%py.

Definition record_call (R : Runtime) : Py.M t unit :=
  (now <- Py.time_time R ;;
   self <- Py.get_self ;;
   Py.modify (set_calls (calls self ++ [now])))%py.

(** [min(xs)]; [None] stands for the [ValueError] on an empty list. *)
Definition py_min (xs : list Q) : option Q :=
  match xs with
  | [] => None
  | x :: xs' => Some (fold_left (fun m y => if Qltb y m then y else m) xs' x)
  end.

Definition time_until_next_call (R : Runtime) : Py.M t Q :=
  (ok <- can_call R ;;
   if ok : bool then Py.ret 0%Q
   else
     self <- Py.get_self ;;
     match py_min (calls self) with
     | None => Py.raise ValueError
     | Some oldest_call =>
         now <- Py.time_time R ;;
         Py.ret (inject_Z (time_window self) - (now - oldest_call))%Q
     end)%py.

End RateLimiter.

Module EmotionCache.

Record entry := {
  entry_emotion : EmotionResult;
  entry_timestamp : Q
}.

Record t := {
  ttl_seconds : Z;
  cache : gmap string entry
}.

Definition init (ttl_seconds : Z) : t :=
  {| ttl_seconds := ttl_seconds; cache := ∅ |}.

Definition set_cache (cache : gmap string entry) (self : t) : t :=
  {| ttl_seconds := ttl_seconds self; cache := cache |}.

Definition get (R : Runtime) (text_hash : string)
  : Py.M t (option EmotionResult) :=
  (self <- Py.get_self ;;
   match cache self !! text_hash with
   | None => Py.ret None
   | Some cached =>
       now <- Py.time_time R ;;
       let age := (now - entry_timestamp cached)%Q in
       if Qltb (inject_Z (ttl_seconds self)) age then
         Py.modify (set_cache (delete text_hash (cache self))) ;;
         Py.ret None
       else Py.ret (Some (entry_emotion cached))
   end)%py.

Definition set (R : Runtime) (text_hash : string) (emotion : EmotionResult)
  : Py.M t unit :=
  (now <- Py.time_time R ;;
   self <- Py.get_self ;;
   Py.modify
     (set_cache
        (<[text_hash :=
             {| entry_emotion := emotion; entry_timestamp := now |}]>
           (cache self))))%py.

(** Whether an entry is older than the time-to-live at time [now]. *)
Definition expired (self : t) (now : Q) (e : entry) : bool :=
  Qltb (inject_Z (ttl_seconds self)) (now - entry_timestamp e).

(** [clear_old]: collect the keys of the expired entries, then delete
    them one by one. *)
Definition clear_old (R : Runtime) : Py.M t unit :=
  (now <- Py.time_time R ;;
   self <- Py.get_self ;;
   let expired_keys :=
     fst <$> List.filter (fun kv => expired self now (snd kv))
                         (map_to_list (cache self)) in
   Py.modify
     (fun self =>
        fold_left (fun self key => set_cache (delete key (cache self)) self)
                  expired_keys self))%py.

End EmotionCache.

Module EmotionDetector.

Record t := {
  client : bool;
  rate_limiter : RateLimiter.t;
  cache : EmotionCache.t;
  min_analysis_interval : Z;
  last_analysis_time : Q;
  last_emotion : EmotionResult
}.

Definition set_rate_limiter (l : RateLimiter.t) (self : t) : t :=
  {| client := client self;
     rate_limiter := l;
     cache := cache self;
     min_analysis_interval := min_analysis_interval self;
     last_analysis_time := last_analysis_time self;
     last_emotion := last_emotion self |}.

Definition set_cache (c : EmotionCache.t) (self : t) : t :=
  {| client := client self;
     rate_limiter := rate_limiter self;
     cache := c;
     min_analysis_interval := min_analysis_interval self;
     last_analysis_time := last_analysis_time self;
     last_emotion := last_emotion self |}.

Definition set_last_analysis_time (now : Q) (self : t) : t :=
  {| client := client self;
     rate_limiter := rate_limiter self;
     cache := cache self;
     min_analysis_interval := min_analysis_interval self;
     last_analysis_time := now;
     last_emotion := last_emotion self |}.

Definition set_last_emotion (e : EmotionResult) (self : t) : t :=
  {| client := client self;
     rate_limiter := rate_limiter self;
     cache := cache self;
     min_analysis_interval := min_analysis_interval self;
     last_analysis_time := last_analysis_time self;
     last_emotion := e |}.

(** [self.rate_limiter.<method>()] and [self.cache.<method>()]. *)
Definition on_rate_limiter {A} (m : Py.M RateLimiter.t A) : Py.M t A :=
  Py.zoom rate_limiter set_rate_limiter m.

Definition on_cache {A} (m : Py.M EmotionCache.t A) : Py.M t A :=
  Py.zoom cache set_cache m.

(** The neutral emotion, stamped [now]. *)
Definition neutral_at (now : string) : EmotionResult :=
  {| emotion := "neutral";
     confidence := 1;
     intensity := 0.5;
     valence := 0;
     arousal := 1 # 2;
     detected_at := now |}.

Definition _get_neutral_emotion {St} (R : Runtime) : Py.M St EmotionResult :=
  (now <- Py.utcnow_isoformat R ;;
   Py.ret (neutral_at now))%py.

(** [__init__]: [client_ok] says whether an API key was found and the
    client could be built.  The new detector and the clock position
    afterwards. *)
Definition init (R : Runtime) (client_ok : bool)
    (rate_limit_calls rate_limit_window cache_ttl min_analysis_interval : Z)
    (n : nat) : t * nat :=
  ({| client := client_ok;
      rate_limiter := RateLimiter.init rate_limit_calls rate_limit_window;
      cache := EmotionCache.init cache_ttl;
      min_analysis_interval := min_analysis_interval;
      last_analysis_time := 0;
      last_emotion := neutral_at (utcnow_at R n) |},
   S n).

Definition _build_prompt (text : string) : string :=
  "Analyze the emotional tone of this text and classify it into ONE category: "
  +:+ get_emotion_categories_str +:+ ".

Text: " +:+ PyStr.quoted text +:+ "

Respond with ONLY a JSON object:
{
    " +:+ PyStr.quoted "emotion" +:+ ": " +:+ PyStr.quoted "category" +:+ ",
    " +:+ PyStr.quoted "confidence" +:+ ": 0.0-1.0,
    " +:+ PyStr.quoted "intensity" +:+ ": 0.0-1.0
}

Be concise and accurate.".

(** "Remove markdown code blocks". *)
Definition strip_code_block (response_text : string) : string :=
  let response_text := PyStr.strip response_text in
  if PyStr.startswith "```" response_text then
    PyStr.join PyStr.nl
      (PyStr.slice_1_m1 (PyStr.split PyStr.newline response_text))
  else response_text.

(** [d.get(key)] on the members of a JSON object. *)
Fixpoint dict_get (key : string) (members : list (string * json))
  : option json :=
  match members with
  | [] => None
  | (k, v) :: rest => if String.eqb key k then Some v else dict_get key rest
  end.

(** [float(v)]; [None] stands for the [TypeError], [ValueError] or
    [OverflowError]. *)
Definition py_float (R : Runtime) (v : json) : option float :=
  match v with
  | JFloat x => Some x
  | JInt n => float_of_int n
  | JBool b => Some (if b then 1 else 0)%float
  | JStr s => float_of_str R s
  | JNull | JArr _ | JObj _ => None
  end.

(** [data.get("emotion", "neutral")] followed by the validity check: what
    is not one of the categories becomes neutral. *)
Definition checked_emotion (members : list (string * json)) : string :=
  match dict_get "emotion" members with
  | Some (JStr s) => if is_valid_emotion s then s else "neutral"
  | Some _ => "neutral"
  | None => "neutral"
  end.

(** The body of the [try] in [_parse_response] up to the time stamp: the
    label, the confidence and the intensity; [None] when it raises. *)
Definition parse_fields (R : Runtime) (response_text : string)
  : option (string * float * float) :=
  match json_loads R (strip_code_block response_text) with
  | Some (JObj members) =>
      let emotion := checked_emotion members in
      match py_float R (default (JFloat 0.5) (dict_get "confidence" members)) with
      | Some confidence =>
          match py_float R (default (JFloat 0.5) (dict_get "intensity" members)) with
          | Some intensity => Some (emotion, confidence, intensity)
          | None => None
          end
      | None => None
      end
  | Some _ => None
  | None => None
  end.

Definition _parse_response {St} (R : Runtime) (response_text : string)
  : Py.M St EmotionResult :=
  match parse_fields R response_text with
  | Some (emotion, confidence, intensity) =>
      let va := get_valence_arousal emotion in
      (now <- Py.utcnow_isoformat R ;;
       Py.ret {| emotion := emotion;
                 confidence := confidence;
                 intensity := intensity;
                 valence := va_valence va;
                 arousal := va_arousal va;
                 detected_at := now |})%py
  | None => _get_neutral_emotion R
  end.

Definition _analyze_with_gemini {St} (R : Runtime)
    (remote : string -> RemoteOutcome) (text : string)
  : Py.M St EmotionResult :=
  match remote (_build_prompt text) with
  | RemoteRaises => Py.raise RemoteError
  | RemoteText response_text => _parse_response R response_text
  end.

(** [str(hash(text.lower().strip()))]. *)
Definition text_hash_of (R : Runtime) (text : string) : string :=
  PyStr.str_of_int (py_hash R (PyStr.strip (PyStr.lower text))).

(** "Check if enough time has passed since last analysis": whether the
    call is answered from [last_emotion] without analysis. *)
Definition too_soon (R : Runtime) (force : bool) : Py.M t bool :=
  if force then Py.ret false
  else
    (now <- Py.time_time R ;;
     self <- Py.get_self ;;
     let time_since_last := (now - last_analysis_time self)%Q in
     Py.ret (Qltb time_since_last (inject_Z (min_analysis_interval self))))%py.

(** "Perform analysis": the part of [detect_emotion] after the three
    checks. *)
Definition perform_analysis (R : Runtime) (remote : string -> RemoteOutcome)
    (text text_hash : string) : Py.M t EmotionResult :=
  (self <- Py.get_self ;;
   if negb (client self) then _get_neutral_emotion R
   else
     Py.try_except
       (emotion_data <- _analyze_with_gemini R remote text ;;
        on_rate_limiter (RateLimiter.record_call R) ;;
        now <- Py.time_time R ;;
        Py.modify (set_last_analysis_time now) ;;
        Py.modify (set_last_emotion emotion_data) ;;
        on_cache (EmotionCache.set R text_hash emotion_data) ;;
        Py.ret emotion_data)
       (fun _ =>
          self <- Py.get_self ;;
          Py.ret (last_emotion self)))%py.

Definition detect_emotion (R : Runtime) (remote : string -> RemoteOutcome)
    (text : string) (force : bool) : Py.M t EmotionResult :=
  (skip <- too_soon R force ;;
   if skip : bool then
     self <- Py.get_self ;;
     Py.ret (last_emotion self)
   else
     let text_hash := text_hash_of R text in
     cached_emotion <- on_cache (EmotionCache.get R text_hash) ;;
     match cached_emotion with
     | Some cached => Py.ret cached
     | None =>
         ok <- on_rate_limiter (RateLimiter.can_call R) ;;
         if negb ok then
           wait_time <- on_rate_limiter (RateLimiter.time_until_next_call R) ;;
           self <- Py.get_self ;;
           Py.ret (last_emotion self)
         else perform_analysis R remote text text_hash
     end)%py.

(** The three checks before the analysis.  [Some (d, n)] when the call
    gets past them (it is not too soon, the text is not cached, the
    limiter admits the call): the detector and the clock position at the
    start of the analysis. *)
Definition passes_checks (R : Runtime) (text : string) (force : bool)
    (self : t) (n : nat) : option (t * nat) :=
  match too_soon R force self n with
  | (Py.Return false, d1, n1) =>
      match on_cache (EmotionCache.get R (text_hash_of R text)) d1 n1 with
      | (Py.Return None, d2, n2) =>
          match on_rate_limiter (RateLimiter.can_call R) d2 n2 with
          | (Py.Return true, d3, n3) => Some (d3, n3)
          | _ => None
          end
      | _ => None
      end
  | _ => None
  end.

(** A result with one of the eight labels, and a detector whose stored
    results all are such. *)
Definition valid_result (r : EmotionResult) : Prop :=
  emotion r ∈ EMOTION_CATEGORIES.

Definition well_formed (self : t) : Prop :=
  valid_result (last_emotion self) /\
  map_Forall (fun _ e => valid_result (EmotionCache.entry_emotion e))
             (EmotionCache.cache (cache self)).

(** The call is made less than the minimum interval after the last
    successful analysis. *)
Definition within_interval (R : Runtime) (self : t) (n : nat) : Prop :=
  (time_at R n - last_analysis_time self
   < inject_Z (min_analysis_interval self))%Q.

(** The dictionary that [get_stats] returns. *)
Record stats := {
  stats_calls_made : nat;
  stats_max_calls : Z;
  stats_time_window : Z;
  stats_can_call : bool;
  stats_wait_time : Q;
  stats_cache_size : nat;
  stats_cache_ttl : Z;
  stats_last_emotion : string;
  stats_last_analysis : Q
}.

(** [get_stats].  The entries of the dictionary are evaluated in the order
    in which they are written: the number of calls is taken before
    [can_call] prunes them. *)
Definition get_stats (R : Runtime) : Py.M t stats :=
  (self <- Py.get_self ;;
   let calls_made := length (RateLimiter.calls (rate_limiter self)) in
   let max_calls := RateLimiter.max_calls (rate_limiter self) in
   let time_window := RateLimiter.time_window (rate_limiter self) in
   can_call <- on_rate_limiter (RateLimiter.can_call R) ;;
   wait_time <- on_rate_limiter (RateLimiter.time_until_next_call R) ;;
   self <- Py.get_self ;;
   Py.ret {| stats_calls_made := calls_made;
             stats_max_calls := max_calls;
             stats_time_window := time_window;
             stats_can_call := can_call;
             stats_wait_time := wait_time;
             stats_cache_size := size (EmotionCache.cache (cache self));
             stats_cache_ttl := EmotionCache.ttl_seconds (cache self);
             stats_last_emotion := emotion (last_emotion self);
             stats_last_analysis := last_analysis_time self |})%py.

(** Every result the detector keeps (the last known one and the cached
    ones) satisfies [P]. *)
Definition stored (P : EmotionResult -> Prop) (self : t) : Prop :=
  P (last_emotion self) /\
  map_Forall (fun _ e => P (EmotionCache.entry_emotion e))
             (EmotionCache.cache (cache self)).

(** The valence and arousal of a result are those of its label, and so
    within their ranges. *)
Definition affect_of_label (r : EmotionResult) : Prop :=
  (valence r == va_valence (get_valence_arousal (emotion r)))%Q /\
  (arousal r == va_arousal (get_valence_arousal (emotion r)))%Q /\
  (-1 <= valence r <= 1)%Q /\ (0 <= arousal r <= 1)%Q.

(** [d'] is [d] up to pruning: recorded calls and cache entries may have
    been dropped, and nothing else differs. *)
Definition pruned (d d' : t) : Prop :=
  client d' = client d
  /\ min_analysis_interval d' = min_analysis_interval d
  /\ last_analysis_time d' = last_analysis_time d
  /\ last_emotion d' = last_emotion d
  /\ RateLimiter.max_calls (rate_limiter d') =
     RateLimiter.max_calls (rate_limiter d)
  /\ RateLimiter.time_window (rate_limiter d') =
     RateLimiter.time_window (rate_limiter d)
  /\ RateLimiter.calls (rate_limiter d') `sublist_of`
     RateLimiter.calls (rate_limiter d)
  /\ EmotionCache.ttl_seconds (cache d') = EmotionCache.ttl_seconds (cache d)
  /\ EmotionCache.cache (cache d') ⊆ EmotionCache.cache (cache d).

(** The detector after a successful analysis that starts at clock
    position [n] and yields [r]: the result is stamped at reading [n], the
    call recorded at the next reading, then the time of the analysis is
    read, then the time of the cache entry. *)
Definition analysed (R : Runtime) (text_hash : string) (r : EmotionResult)
    (d : t) (n : nat) : t :=
  set_cache
    (EmotionCache.set_cache
       (<[text_hash :=
            {| EmotionCache.entry_emotion := r;
               EmotionCache.entry_timestamp := time_at R (S (S (S n))) |}]>
          (EmotionCache.cache (cache d)))
       (cache d))
    (set_last_emotion r
       (set_last_analysis_time (time_at R (S (S n)))
          (set_rate_limiter
             (RateLimiter.set_calls
                (RateLimiter.calls (rate_limiter d) ++ [time_at R (S n)])
                (rate_limiter d))
             d))).

(** What [_parse_response] makes of a response text at clock reading
    [n]. *)
Definition parsed (R : Runtime) (response_text : string) (n : nat)
  : EmotionResult :=
  match parse_fields R response_text with
  | Some (label, c, i) =>
      {| emotion := label; confidence := c; intensity := i;
         valence := va_valence (get_valence_arousal label);
         arousal := va_arousal (get_valence_arousal label);
         detected_at := utcnow_at R n |}
  | None => neutral_at (utcnow_at R n)
  end.

(** The clock reading at which the cache is consulted: the debounce check
    reads the clock once unless the call is forced. *)
Definition lookup_reading (force : bool) (n : nat) : nat :=
  if force then n else S n.

End EmotionDetector.

(* ===================================================================== *)
(** ** session_handler.py *)
(* ===================================================================== *)

(** [bool(x)] for an optional string: [None] and the empty string are
    false. *)
Definition truthy (x : option string) : bool :=
  match x with
  | Some s => negb (String.eqb s EmptyString)
  | None => false
  end.

(** The request that [_store_emotion] posts to the backend. *)
Record StoreRequest := {
  req_url : string;
  req_text : string;
  req_session_id : option string;
  req_agent_type : string;
  req_message_count : nat;
  req_authorization : string
}.

(** What the backend does with a request: it answers with a status code,
    or the client raises (connection error, timeout). *)
Inductive PostOutcome :=
| PostStatus (code : Z)
| PostRaises.

Module SessionHandler.

(** [EmotionAwareSessionHandler].  [posted] is not an attribute of the
    class: it lists, oldest first, the requests sent to the backend. *)
Record t := {
  agent_type : string;
  session_id : option string;
  backend_url : string;
  auth_token : option string;
  detector : EmotionDetector.t;
  adapter : PersonalityAdapter.t;
  message_count : nat;
  last_user_message : string;
  posted : list StoreRequest
}.

Definition set_detector (d : EmotionDetector.t) (self : t) : t :=
  {| agent_type := agent_type self;
     session_id := session_id self;
     backend_url := backend_url self;
     auth_token := auth_token self;
     detector := d;
     adapter := adapter self;
     message_count := message_count self;
     last_user_message := last_user_message self;
     posted := posted self |}.

Definition set_adapter (a : PersonalityAdapter.t) (self : t) : t :=
  {| agent_type := agent_type self;
     session_id := session_id self;
     backend_url := backend_url self;
     auth_token := auth_token self;
     detector := detector self;
     adapter := a;
     message_count := message_count self;
     last_user_message := last_user_message self;
     posted := posted self |}.

(** [self.last_user_message = message_text; self.message_count += 1]. *)
Definition note_message (message_text : string) (self : t) : t :=
  {| agent_type := agent_type self;
     session_id := session_id self;
     backend_url := backend_url self;
     auth_token := auth_token self;
     detector := detector self;
     adapter := adapter self;
     message_count := S (message_count self);
     last_user_message := message_text;
     posted := posted self |}.

Definition note_post (req : StoreRequest) (self : t) : t :=
  {| agent_type := agent_type self;
     session_id := session_id self;
     backend_url := backend_url self;
     auth_token := auth_token self;
     detector := detector self;
     adapter := adapter self;
     message_count := message_count self;
     last_user_message := last_user_message self;
     posted := posted self ++ [req] |}.

(** [__init__]: a detector with the configured limits and a new
    adapter. *)
Definition init (R : Runtime) (client_ok : bool) (agent_type : string)
    (session_id backend_url auth_token : option string) (n : nat) : t * nat :=
  let '(d, n') :=
    EmotionDetector.init R client_ok RATE_LIMIT_CALLS RATE_LIMIT_WINDOW
      EMOTION_CACHE_TTL MIN_ANALYSIS_INTERVAL n in
  ({| agent_type := agent_type;
      session_id := session_id;
      backend_url :=
        match backend_url with
        | Some url => if String.eqb url EmptyString then BACKEND_URL else url
        | None => BACKEND_URL
        end;
      auth_token := auth_token;
      detector := d;
      adapter := PersonalityAdapter.init agent_type;
      message_count := 0;
      last_user_message := EmptyString;
      posted := [] |},
   n').

Definition on_detector {A} (m : Py.M EmotionDetector.t A) : Py.M t A :=
  Py.zoom detector set_detector m.

Definition store_request (self : t) (message_text : string) : StoreRequest :=
  {| req_url := backend_url self +:+ "/api/v1/emotions/analyze";
     req_text := message_text;
     req_session_id := session_id self;
     req_agent_type := agent_type self;
     req_message_count := message_count self;
     req_authorization :=
       "Bearer " +:+ default EmptyString (auth_token self) |}.

(** [_store_emotion]: nothing without a token; otherwise one request,
    whose failure is logged and not raised. *)
Definition _store_emotion (backend : StoreRequest -> PostOutcome)
    (emotion_data : EmotionResult) (message_text : string) : Py.M t unit :=
  (self <- Py.get_self ;;
   if negb (truthy (auth_token self)) then Py.ret tt
   else
     Py.try_except
       (let req := store_request self message_text in
        Py.modify (note_post req) ;;
        match backend req with
        | PostStatus _ => Py.ret tt
        | PostRaises => Py.raise RemoteError
        end)
       (fun _ => Py.ret tt))%py.

(** [message_text] is empty or shorter than three characters once
    stripped. *)
Definition too_short (message_text : string) : bool :=
  String.eqb message_text EmptyString
  || (String.length (PyStr.strip message_text) <? 3)%nat.

Definition process_user_message (R : Runtime)
    (remote : string -> RemoteOutcome) (backend : StoreRequest -> PostOutcome)
    (message_text : string) : Py.M t (option EmotionResult) :=
  if too_short message_text then Py.ret None
  else
    (Py.modify (note_message message_text) ;;
     Py.try_except
       (emotion_data <-
          on_detector
            (EmotionDetector.detect_emotion R remote message_text false) ;;
        self <- Py.get_self ;;
        (if truthy (session_id self)
            && negb (String.eqb (emotion emotion_data) "neutral")
         then _store_emotion backend emotion_data message_text
         else Py.ret tt) ;;
        Py.ret (Some emotion_data))
       (fun _ => Py.ret None))%py.

(** Whether the handler stores the result [r]: it has a session and a
    token, and the result is not neutral. *)
Definition stores (self : t) (r : EmotionResult) : bool :=
  truthy (session_id self)
  && negb (String.eqb (emotion r) "neutral")
  && truthy (auth_token self).

Definition get_adapted_instructions (base_instructions : string)
    (emotion_data : EmotionResult) : Py.M t string :=
  fun self n =>
    let '(text, a) :=
      PersonalityAdapter.adapt_instructions (adapter self) base_instructions
        (as_emotion_data emotion_data) CONFIDENCE_THRESHOLD in
    (Py.Return text, set_adapter a self, n).

End SessionHandler.

(* ===================================================================== *)
(** ** worker.py *)
(* ===================================================================== *)

Module Worker.

(** The session handler and the instructions of the agent, as the hook
    [on_user_speech] of [entrypoint] sees them. *)
Record t := {
  emotion_handler : SessionHandler.t;
  instructions : string
}.

Definition set_emotion_handler (h : SessionHandler.t) (self : t) : t :=
  {| emotion_handler := h; instructions := instructions self |}.

Definition set_instructions (text : string) (self : t) : t :=
  {| emotion_handler := emotion_handler self; instructions := text |}.

Definition on_handler {A} (m : Py.M SessionHandler.t A) : Py.M t A :=
  Py.zoom emotion_handler set_emotion_handler m.

(** [on_user_speech], from the text of the message on. *)
Definition on_user_speech (R : Runtime) (remote : string -> RemoteOutcome)
    (backend : StoreRequest -> PostOutcome) (base_instructions text : string)
  : Py.M t unit :=
  Py.try_except
    (if SessionHandler.too_short text then Py.ret tt
     else
       (emotion_data <-
          on_handler
            (SessionHandler.process_user_message R remote backend text) ;;
        match emotion_data with
        | Some r =>
            if negb (String.eqb (emotion r) "neutral") then
              adapted_instructions <-
                on_handler
                  (SessionHandler.get_adapted_instructions
                     base_instructions r) ;;
              Py.modify (set_instructions adapted_instructions)
            else Py.ret tt
        | None => Py.ret tt
        end)%py)
    (fun _ => Py.ret tt).

(** The agent after a sequence of user messages, each with what the
    remote classifier would answer to it. *)
Definition after_speech (R : Runtime) (backend : StoreRequest -> PostOutcome)
    (base_instructions : string)
    (messages : list ((string -> RemoteOutcome) * string))
    (self : t) (n : nat) : t * nat :=
  fold_left
    (fun '(w, n) '(remote, text) =>
       match on_user_speech R remote backend base_instructions text w n with
       | (_, w', n') => (w', n')
       end)
    messages (self, n).

(** What holds of the agent all along: the detector keeps valid labels
    only, its limiter has the configured quota and holds no more calls
    than that, the adapter is consistent, and every history entry carries
    a valid label other than neutral with a confidence that the gate did
    not find below the configured threshold. *)
Definition recorded_ok (h : HistoryEntry) : Prop :=
  h_emotion h ∈ EMOTION_CATEGORIES
  /\ h_emotion h <> "neutral"
  /\ (h_confidence h <? CONFIDENCE_THRESHOLD)%float = false.

Definition within_quota (d : EmotionDetector.t) : Prop :=
  RateLimiter.max_calls (EmotionDetector.rate_limiter d) = RATE_LIMIT_CALLS
  /\ (Z.of_nat (length (RateLimiter.calls (EmotionDetector.rate_limiter d)))
      <= RATE_LIMIT_CALLS)%Z.

Definition healthy (self : t) : Prop :=
  EmotionDetector.well_formed (SessionHandler.detector (emotion_handler self))
  /\ within_quota (SessionHandler.detector (emotion_handler self))
  /\ PersonalityAdapter.consistent
       (SessionHandler.adapter (emotion_handler self))
  /\ Forall recorded_ok
       (PersonalityAdapter.emotion_history
          (SessionHandler.adapter (emotion_handler self))).

(** The hook is installed on a new handler, with the instructions of the
    agent's configuration. *)
Definition init (R : Runtime) (client_ok : bool) (agent_type : string)
    (session_id auth_token : option string) (base_instructions : string)
    (n : nat) : t * nat :=
  let '(h, n') :=
    SessionHandler.init R client_ok agent_type session_id None auth_token n in
  ({| emotion_handler := h; instructions := base_instructions |}, n').

End Worker.

(* ===================================================================== *)
(** ** A concrete runtime and concrete remote answers *)
(* ===================================================================== *)

Module Sample.

(** A JSON text with the three expected fields. *)
Definition response (label confidence intensity : string) : string :=
  "{" +:+ PyStr.quoted "emotion" +:+ ": " +:+ PyStr.quoted label +:+ ", "
  +:+ PyStr.quoted "confidence" +:+ ": " +:+ confidence +:+ ", "
  +:+ PyStr.quoted "intensity" +:+ ": " +:+ intensity +:+ "}".

Definition happy_text : string := response "happy" "0.9" "0.7".
Definition sad_text : string := response "sad" "0.8" "0.6".
Definition overconfident_text : string := response "happy" "1.5" "0.7".
Definition nan_text : string := response "sad" "NaN" "0.6".
Definition garbage_text : string := "I cannot answer that.".

Definition fields (label : string) (confidence intensity : float) : json :=
  JObj [("emotion", JStr label); ("confidence", JFloat confidence);
        ("intensity", JFloat intensity)].

(** [json.loads] on the texts above; it fails on anything else used
    here. *)
Definition loads (s : string) : option json :=
  if String.eqb s happy_text then Some (fields "happy" 0.9 0.7)
  else if String.eqb s sad_text then Some (fields "sad" 0.8 0.6)
  else if String.eqb s overconfident_text then
    Some (fields "happy" 1.5 0.7)
  else if String.eqb s nan_text then Some (fields "sad" nan 0.6)
  else None.

(** A clock that starts at 1000 s and advances one second per reading,
    and a hash that tells the texts used here apart. *)
Definition runtime : Runtime :=
  {| py_hash := fun s => Z.of_nat (String.length s);
     json_loads := loads;
     float_of_str := fun _ => None;
     time_at := fun n => inject_Z (1000 + Z.of_nat n);
     utcnow_at := fun n => PyStr.str_of_int (1000 + Z.of_nat n) |}.

Definition remote_happy : string -> RemoteOutcome := fun _ => RemoteText happy_text.
Definition remote_sad : string -> RemoteOutcome := fun _ => RemoteText sad_text.
Definition remote_garbage : string -> RemoteOutcome :=
  fun _ => RemoteText garbage_text.
Definition remote_down : string -> RemoteOutcome := fun _ => RemoteRaises.
Definition remote_nan : string -> RemoteOutcome := fun _ => RemoteText nan_text.

(** A detector with the default configuration and a client. *)
Definition detector0 : EmotionDetector.t * nat :=
  EmotionDetector.init runtime true RATE_LIMIT_CALLS RATE_LIMIT_WINDOW
    EMOTION_CACHE_TTL MIN_ANALYSIS_INTERVAL 0.

(** A limiter whose only recorded call is older than the window at the
    first clock reading. *)
Definition stale_limiter : RateLimiter.t :=
  {| RateLimiter.max_calls := 10;
     RateLimiter.time_window := 60;
     RateLimiter.calls := [inject_Z 900] |}.

(** The emotion data of the repository's adapter test. *)
Definition confused_data : EmotionData :=
  {| ed_emotion := Some "confused";
     ed_confidence := Some 0.8%float;
     ed_detected_at := Some "2026-01-15T04:00:00Z" |}.

Definition unsure_data : EmotionData :=
  {| ed_emotion := Some "confused";
     ed_confidence := Some 0.4%float;
     ed_detected_at := Some "2026-01-15T04:00:00Z" |}.

Definition entry (label : string) : HistoryEntry :=
  {| h_emotion := label; h_confidence := 0.9; h_timestamp := None |}.

Definition confident_call : PersonalityAdapter.call :=
  {| PersonalityAdapter.call_base := "You are a helpful teacher.";
     PersonalityAdapter.call_data := confused_data;
     PersonalityAdapter.call_threshold := CONFIDENCE_THRESHOLD |}.

Definition unsure_call : PersonalityAdapter.call :=
  {| PersonalityAdapter.call_base := "You are a helpful teacher.";
     PersonalityAdapter.call_data := unsure_data;
     PersonalityAdapter.call_threshold := CONFIDENCE_THRESHOLD |}.

Definition adapter_with (labels : list string) : PersonalityAdapter.t :=
  {| PersonalityAdapter.agent_type := "teacher";
     PersonalityAdapter.current_emotion := "neutral";
     PersonalityAdapter.emotion_history := entry <$> labels |}.

(** A detector without a client, and its first call. *)
Definition detector_without_client : EmotionDetector.t * nat :=
  EmotionDetector.init runtime false RATE_LIMIT_CALLS RATE_LIMIT_WINDOW
    EMOTION_CACHE_TTL MIN_ANALYSIS_INTERVAL 0.

Definition call_without_client :=
  EmotionDetector.detect_emotion runtime remote_happy "Hello there" false
    (fst detector_without_client) (snd detector_without_client).

(** A conversation.  The first call is analysed as happy.  Then either a
    forced call whose answer is not JSON, or two calls three seconds
    apart, the later of which is analysed as sad. *)
Definition first_call :=
  EmotionDetector.detect_emotion runtime remote_happy "I feel great" false
    (fst detector0) (snd detector0).

Definition after_first : EmotionDetector.t := snd (fst first_call).

Definition garbage_call :=
  EmotionDetector.detect_emotion runtime remote_garbage "what is this?" true
    after_first 7.

Definition second_call :=
  EmotionDetector.detect_emotion runtime remote_sad "oh no" false
    after_first 7.

Definition third_call :=
  EmotionDetector.detect_emotion runtime remote_sad "oh no" false
    (snd (fst second_call)) 10.

(** A detector that may call the remote classifier once per window, after
    its first call. *)
Definition small_quota_detector : EmotionDetector.t * nat :=
  EmotionDetector.init runtime true 1 RATE_LIMIT_WINDOW EMOTION_CACHE_TTL
    MIN_ANALYSIS_INTERVAL 0.

Definition small_quota_after_first : EmotionDetector.t :=
  snd (fst (EmotionDetector.detect_emotion runtime remote_happy
              "I feel great" false
              (fst small_quota_detector) (snd small_quota_detector))).

(** A backend that accepts every request, and an agent with a session and
    a token. *)
Definition backend_ok : StoreRequest -> PostOutcome :=
  fun _ => PostStatus 200.

Definition backend_down : StoreRequest -> PostOutcome := fun _ => PostRaises.

Definition worker0 : Worker.t * nat :=
  Worker.init runtime true "teacher" (Some "session-1") (Some "token-1")
    "You are a helpful teacher." 0.

End Sample.

(* ===================================================================== *)
(** ** Properties *)
(* ===================================================================== *)

(** *** Comparisons of clock readings *)

Lemma Qltb_true_iff (x y : Q) : Qltb x y = true <-> (x < y)%Q.
Proof.
  unfold Qltb. rewrite negb_true_iff.
  split.
  - intros H. apply Qnot_le_lt. intros Hle. apply Qle_bool_iff in Hle. congruence.
  - intros H. destruct (Qle_bool y x) eqn:E; [|done].
    apply Qle_bool_iff in E. exfalso. eapply Qlt_not_le; eauto.
Qed.

Lemma Qltb_false_iff (x y : Q) : Qltb x y = false <-> (y <= x)%Q.
Proof.
  unfold Qltb. rewrite negb_false_iff. apply Qle_bool_iff.
Qed.

(** *** Floats *)

Lemma round_half_even_nearest (x : Q) :
  (Qabs (x - inject_Z (round_half_even x)) <= 1 # 2)%Q
  /\ ((Qabs (x - inject_Z (round_half_even x)) == 1 # 2)%Q ->
      Z.even (round_half_even x) = true).
Proof.
  destruct x as [n d]. unfold round_half_even. cbn [Qnum Qden].
  pose proof (Z.div_mod n (Z.pos d) ltac:(lia)) as Hdm.
  pose proof (Z.mod_pos_bound n (Z.pos d) ltac:(lia)) as Hr.
  set (fl := (n / Z.pos d)%Z) in *. set (r := (n mod Z.pos d)%Z) in *.
  assert (Habs : forall k : Z,
    Qabs ((n # d) - inject_Z k)%Q = (Z.abs (n - k * Z.pos d) # d)).
  { intros k. unfold Qminus, Qplus, Qopp, inject_Z, Qabs. cbn.
    f_equal; [f_equal; lia|lia]. }
  assert (Hle : forall z : Z, ((z # d) <= 1 # 2)%Q <-> (2 * z <= Z.pos d)%Z).
  { intros z. unfold Qle. cbn. lia. }
  assert (Heq : forall z : Z, ((z # d) == 1 # 2)%Q <-> (2 * z = Z.pos d)%Z).
  { intros z. unfold Qeq. cbn. lia. }
  destruct (Z.ltb_spec (2 * r) (Z.pos d)) as [H1|H1].
  - rewrite Habs, Hle, Heq. split; [lia|lia].
  - destruct (Z.ltb_spec (Z.pos d) (2 * r)) as [H2|H2].
    + rewrite Habs, Hle, Heq. split; [lia|lia].
    + destruct (Z.even fl) eqn:He.
      * rewrite Habs, Hle, Heq. split; [lia|done].
      * rewrite Habs, Hle, Heq. split; [lia|]. intros _.
        rewrite Z.even_add, He. done.
Qed.

(** Comparisons of floats: [x < y] and [y <= x] are both false when one
    of the two is NaN, and one of them is true otherwise. *)
Lemma SFcompare_antisym (x y : spec_float) :
  SFcompare y x = option_map CompOpp (SFcompare x y).
Proof.
  destruct x as [s1|s1| |s1 m1 e1], y as [s2|s2| |s2 m2 e2]; simpl;
    try reflexivity.
  all: try (destruct s1; reflexivity).
  all: try (destruct s2; reflexivity).
  - by destruct s1, s2.
  - rewrite (Z.compare_antisym e1 e2).
    pose proof (Pos.compare_cont_antisym m1 m2 Eq) as Hm. simpl in Hm.
    change (PosDef.Pos.compare_cont Eq m2 m1) with (Pos.compare_cont Eq m2 m1).
    change (PosDef.Pos.compare_cont Eq m1 m2) with (Pos.compare_cont Eq m1 m2).
    destruct s1, s2; try reflexivity;
      destruct (e1 ?= e2)%Z; simpl; try reflexivity; by rewrite <- Hm.
Qed.

Lemma is_nan_false (x : float) : is_nan x = false -> Prim2SF x <> S754_nan.
Proof.
  unfold is_nan. rewrite FloatAxioms.eqb_spec. intros H E. rewrite E in H. done.
Qed.

Lemma not_below_is_at_or_above (c t : float) :
  is_nan c = false -> is_nan t = false ->
  (c <? t)%float = false -> (t <=? c)%float = true.
Proof.
  intros Hc Ht. apply is_nan_false in Hc, Ht.
  rewrite FloatAxioms.ltb_spec, FloatAxioms.leb_spec. unfold SFltb, SFleb.
  rewrite (SFcompare_antisym (Prim2SF c) (Prim2SF t)).
  destruct (SFcompare (Prim2SF c) (Prim2SF t)) as [[]|] eqn:E; try done.
  exfalso. destruct (Prim2SF c), (Prim2SF t); try done.
Qed.

Lemma nan_is_neither (t : float) :
  (nan <? t)%float = false /\ (t <=? nan)%float = false.
Proof.
  rewrite FloatAxioms.ltb_spec, FloatAxioms.leb_spec. unfold SFltb, SFleb.
  assert (H : Prim2SF nan = S754_nan) by reflexivity. rewrite H.
  simpl. by destruct (Prim2SF t).
Qed.

Lemma format_percent0_finite (x : float) s m e :
  Prim2SF (x * 100)%float = S754_finite s m e ->
  format_percent0 x =
  minus_sign s +:+ PyStr.str_of_int (round_half_even (magnitude m e)) +:+ "%".
Proof. intros H. unfold format_percent0. by rewrite H. Qed.

(** Percentages as the interpreter prints them. *)
Example format_percent0_values :
  format_percent0 0.8 = "80%"
  /\ format_percent0 0.4 = "40%"
  /\ format_percent0 0.6749999999999999 = "68%"
  /\ format_percent0 0.125 = "12%"
  /\ format_percent0 0.135 = "14%"
  /\ format_percent0 0.005 = "0%"
  /\ format_percent0 1.5 = "150%"
  /\ format_percent0 (-0.004) = "-0%"
  /\ format_percent0 1e22 = "999999999999999983222784%"
  /\ format_percent0 nan = "nan%"
  /\ format_percent0 infinity = "inf%"
  /\ format_percent0 neg_infinity = "-inf%".
Proof. split_and!; by vm_compute. Qed.

(** Ints as floats: exact while they fit, rounded beyond 2^53, and
    refused from 2^1024 - 2^970 on. *)
Example float_of_int_values :
  float_of_int 1 = Some 1%float
  /\ float_of_int 0 = Some 0%float
  /\ float_of_int (-3) = Some (-3)%float
  /\ float_of_int (2 ^ 53 + 1) = Some 9007199254740992%float
  /\ float_of_int (2 ^ 1024 - 2 ^ 970 - 1) = Some 1.7976931348623157e308%float
  /\ float_of_int (2 ^ 1024 - 2 ^ 970) = None
  /\ float_of_int (10 ^ 400) = None.
Proof. split_and!; by vm_compute. Qed.

(** *** Strings *)

(** White space and length beyond ASCII: the no-break space (160) and the
    next-line character (133) are stripped, and a letter above 127 counts
    as one character, so a message of two of them is too short. *)
Example strip_beyond_ascii :
  let nbsp := String (ascii_of_nat 160) EmptyString in
  let nel := String (ascii_of_nat 133) EmptyString in
  let e_acute := String (ascii_of_nat 233) EmptyString in
  PyStr.strip (nbsp +:+ "ok" +:+ nel) = "ok"
  /\ String.length (e_acute +:+ e_acute) = 2%nat
  /\ SessionHandler.too_short (e_acute +:+ e_acute) = true
  /\ SessionHandler.too_short (nbsp +:+ "ok" +:+ nbsp) = true
  /\ PyStr.lower (String (ascii_of_nat 201) "COLE") = e_acute +:+ "cole".
Proof. split_and!; by vm_compute. Qed.

(** *** Slices *)

Lemma last_n_all {A} (n : nat) (l : list A) :
  (length l <= n)%nat -> PyStr.last_n n l = l.
Proof.
  intros H. unfold PyStr.last_n.
  replace (length l - n)%nat with 0%nat by lia. done.
Qed.

Lemma last_n_app {A} (n : nat) (l1 l2 : list A) :
  length l2 = n -> PyStr.last_n n (l1 ++ l2) = l2.
Proof.
  intros H. unfold PyStr.last_n. rewrite length_app.
  replace (length l1 + length l2 - n)%nat with (length l1) by lia.
  by rewrite drop_app_length.
Qed.

Lemma last_n_length {A} (n : nat) (l : list A) :
  length (PyStr.last_n n l) = Nat.min n (length l).
Proof. unfold PyStr.last_n. rewrite length_drop. lia. Qed.

(** C6.  [should_check_in] is true exactly when the history has at least
    three entries and the three most recent ones all carry a label of the
    negative set (sad, frustrated, angry, anxious).  A history that ends
    with sad, angry, anxious gives true; one that ends with sad, angry,
    happy gives false; a history of fewer than three entries gives
    false. *)
Theorem should_check_in_spec :
  (forall a : PersonalityAdapter.t,
      PersonalityAdapter.should_check_in a = true <->
      (3 <= length (PersonalityAdapter.emotion_history a))%nat /\
      Forall (fun h => h_emotion h ∈ PersonalityAdapter.negative_emotions)
             (PyStr.last_n 3 (PersonalityAdapter.emotion_history a)))
  /\ (forall (a : PersonalityAdapter.t) older e1 e2 e3,
      PersonalityAdapter.emotion_history a = older ++ [e1; e2; e3] ->
      h_emotion e1 = "sad" -> h_emotion e2 = "angry" ->
      (h_emotion e3 = "anxious" -> PersonalityAdapter.should_check_in a = true) /\
      (h_emotion e3 = "happy" -> PersonalityAdapter.should_check_in a = false))
  /\ (forall a : PersonalityAdapter.t,
      (length (PersonalityAdapter.emotion_history a) < 3)%nat ->
      PersonalityAdapter.should_check_in a = false).
Proof.
  assert (Hiff : forall a : PersonalityAdapter.t,
      PersonalityAdapter.should_check_in a = true <->
      (3 <= length (PersonalityAdapter.emotion_history a))%nat /\
      Forall (fun h => h_emotion h ∈ PersonalityAdapter.negative_emotions)
             (PyStr.last_n 3 (PersonalityAdapter.emotion_history a))).
  { intros a. unfold PersonalityAdapter.should_check_in.
    destruct (Nat.ltb_spec (length (PersonalityAdapter.emotion_history a)) 3) as [Hlt|Hge].
    - split; [done | intros [? _]; lia].
    - rewrite forallb_forall, <- List.Forall_forall. 
      rewrite Forall_fmap. split.
      + intros H. split; [done|]. eapply Forall_impl; [apply H|].
        intros h Hh. simpl in Hh. by apply bool_decide_eq_true in Hh.
      + intros [_ H]. eapply Forall_impl; [apply H|].
        intros h Hh. simpl. by apply bool_decide_eq_true. }
  split; [exact Hiff|]. split.
  - intros a older e1 e2 e3 Hh H1 H2.
    assert (Hl : PyStr.last_n 3 (PersonalityAdapter.emotion_history a) = [e1; e2; e3])
      by (rewrite Hh; by apply last_n_app).
    assert (Hlen : (3 <= length (PersonalityAdapter.emotion_history a))%nat)
      by (rewrite Hh, length_app; simpl; lia).
    split; intros H3.
    + apply Hiff. split; [done|]. rewrite Hl.
      rewrite !Forall_cons, H1, H2, H3.
      repeat split; by apply (bool_decide_unpack _).
    + destruct (PersonalityAdapter.should_check_in a) eqn:E; [|done].
      apply Hiff in E as [_ E]. rewrite Hl in E.
      apply Forall_cons in E as [_ E]. apply Forall_cons in E as [_ E].
      apply Forall_cons in E as [E _]. rewrite H3 in E.
      apply (bool_decide_pack _) in E. by vm_compute in E.
  - intros a Hlt. unfold PersonalityAdapter.should_check_in.
    apply Nat.ltb_lt in Hlt. by rewrite Hlt.
Qed.

(** *** The limiter and the text of the adapter *)

Lemma can_call_run (R : Runtime) (l : RateLimiter.t) (n : nat) :
  RateLimiter.can_call R l n =
  (Py.Return (Z.of_nat (length (RateLimiter.in_window l (time_at R n)))
                <? RateLimiter.max_calls l)%Z,
   RateLimiter.set_calls (RateLimiter.in_window l (time_at R n)) l,
   S n).
Proof. reflexivity. Qed.

Lemma record_call_run (R : Runtime) (l : RateLimiter.t) (n : nat) :
  RateLimiter.record_call R l n =
  (Py.Return tt,
   RateLimiter.set_calls (RateLimiter.calls l ++ [time_at R n]) l,
   S n).
Proof. reflexivity. Qed.

(** C9, as stated, fails: a limiter that holds one call from 100 s ago,
    with a window of 60 s, holds no call after [can_call]. *)
Lemma can_call_drops_a_stale_call :
  RateLimiter.calls
    (snd (fst (RateLimiter.can_call Sample.runtime Sample.stale_limiter 0)))
  <> RateLimiter.calls Sample.stale_limiter.
Proof. vm_compute. discriminate. Qed.

(** C9, as amended.  [can_call] never adds a call: it replaces the
    recorded calls by those of them that are still inside the window (no
    more than before, each one a call that was recorded already), leaves
    [max_calls] and [time_window] alone, and answers whether the calls
    that remain are fewer than [max_calls].  Only [record_call] appends a
    time stamp. *)
Theorem can_call_only_prunes (R : Runtime) (l : RateLimiter.t) (n : nat) :
  let now := time_at R n in
  let kept := RateLimiter.in_window l now in
  RateLimiter.can_call R l n =
    (Py.Return (Z.of_nat (length kept) <? RateLimiter.max_calls l)%Z,
     RateLimiter.set_calls kept l, S n)
  /\ (forall c, c ∈ kept <->
                c ∈ RateLimiter.calls l /\
                (now - c < inject_Z (RateLimiter.time_window l))%Q)
  /\ (length kept <= length (RateLimiter.calls l))%nat
  /\ RateLimiter.record_call R l n =
       (Py.Return tt,
        RateLimiter.set_calls (RateLimiter.calls l ++ [now]) l, S n).
Proof.
  intros now kept. split; [apply can_call_run|]. split; [|split].
  - intros c. unfold kept, RateLimiter.in_window.
    rewrite !list_elem_of_In, filter_In, Qltb_true_iff. done.
  - unfold kept, RateLimiter.in_window. apply List.filter_length_le.
  - apply record_call_run.
Qed.

(** *** The adapter *)

Lemma adapt_instructions_below (a : PersonalityAdapter.t) base ed thr :
  (default 0%float (ed_confidence ed) <? thr)%float = true ->
  PersonalityAdapter.adapt_instructions a base ed thr = (base, a).
Proof. intros H. unfold PersonalityAdapter.adapt_instructions. by rewrite H. Qed.

Lemma adapt_instructions_state (a : PersonalityAdapter.t) base ed thr :
  snd (PersonalityAdapter.adapt_instructions a base ed thr) =
  if (default 0%float (ed_confidence ed) <? thr)%float then a
  else PersonalityAdapter.track a (default "neutral" (ed_emotion ed))
         (default 0%float (ed_confidence ed)) (ed_detected_at ed).
Proof.
  unfold PersonalityAdapter.adapt_instructions.
  destruct (_ <? thr)%float; [done|].
  destruct (PersonalityAdapter._get_adaptation _ _) as [t|]; [|done].
  by destruct (String.eqb t EmptyString).
Qed.

Lemma adapt_instructions_text (a b : PersonalityAdapter.t) base ed thr :
  PersonalityAdapter.agent_type a = PersonalityAdapter.agent_type b ->
  fst (PersonalityAdapter.adapt_instructions a base ed thr) =
  fst (PersonalityAdapter.adapt_instructions b base ed thr).
Proof.
  intros Hty. unfold PersonalityAdapter.adapt_instructions.
  destruct (_ <? thr)%float; [done|].
  unfold PersonalityAdapter._get_adaptation. simpl. rewrite Hty.
  destruct (default ∅ _ !! _) as [t|]; [|done].
  by destruct (String.eqb t EmptyString).
Qed.

Lemma adapt_instructions_agent_type (a : PersonalityAdapter.t) base ed thr :
  PersonalityAdapter.agent_type
    (snd (PersonalityAdapter.adapt_instructions a base ed thr)) =
  PersonalityAdapter.agent_type a.
Proof.
  rewrite adapt_instructions_state. by destruct (_ <? thr)%float.
Qed.

Lemma track_history (a : PersonalityAdapter.t) e c ts :
  PersonalityAdapter.emotion_history (PersonalityAdapter.track a e c ts) =
  PyStr.last_n 10
    (PersonalityAdapter.emotion_history a ++
       [ {| h_emotion := e; h_confidence := c; h_timestamp := ts |} ]).
Proof.
  unfold PersonalityAdapter.track. simpl.
  destruct (Nat.ltb_spec 10
              (length (PersonalityAdapter.emotion_history a ++
                 [ {| h_emotion := e; h_confidence := c; h_timestamp := ts |} ])));
    [done|]. by rewrite last_n_all.
Qed.

(** C4, as stated, fails: after the call of the repository's adapter test
    (teacher, confused, confidence 0.8) the history of a new adapter is no
    longer empty. *)
Lemma adapt_instructions_records_the_emotion :
  PersonalityAdapter.emotion_history
    (snd (PersonalityAdapter.adapt_instructions
            (PersonalityAdapter.init "teacher") "You are a helpful teacher."
            Sample.confused_data CONFIDENCE_THRESHOLD))
  <> PersonalityAdapter.emotion_history (PersonalityAdapter.init "teacher").
Proof. vm_compute. discriminate. Qed.

(** C4, as amended.  The text that [adapt_instructions] returns depends on
    the agent type, the base instructions, the emotion data and the
    threshold only: it is the text a new adapter of the same agent type
    returns, and a second call with the same arguments returns the same
    text as the first.  The call does change the adapter when the
    confidence is not below the threshold: it sets [current_emotion] and
    appends to [emotion_history] (keeping the last ten); below the
    threshold the adapter is unchanged. *)
Theorem adapt_instructions_text_depends_on_inputs_only
    (a : PersonalityAdapter.t) (base : string) (ed : EmotionData)
    (thr : float) :
  let emotion := default "neutral" (ed_emotion ed) in
  let confidence := default 0%float (ed_confidence ed) in
  let after := snd (PersonalityAdapter.adapt_instructions a base ed thr) in
  fst (PersonalityAdapter.adapt_instructions a base ed thr) =
    fst (PersonalityAdapter.adapt_instructions
           (PersonalityAdapter.init (PersonalityAdapter.agent_type a))
           base ed thr)
  /\ fst (PersonalityAdapter.adapt_instructions after base ed thr) =
     fst (PersonalityAdapter.adapt_instructions a base ed thr)
  /\ ((confidence <? thr)%float = true -> after = a)
  /\ ((confidence <? thr)%float = false ->
      PersonalityAdapter.agent_type after = PersonalityAdapter.agent_type a
      /\ PersonalityAdapter.current_emotion after = emotion
      /\ PersonalityAdapter.emotion_history after =
         PyStr.last_n 10
           (PersonalityAdapter.emotion_history a ++
              [ {| h_emotion := emotion;
                   h_confidence := confidence;
                   h_timestamp := ed_detected_at ed |} ])).
Proof.
  intros emotion confidence after. split; [|split; [|split]].
  - by apply adapt_instructions_text.
  - apply adapt_instructions_text, adapt_instructions_agent_type.
  - intros H. unfold after. by rewrite adapt_instructions_below.
  - intros H. unfold after. rewrite adapt_instructions_state.
    fold confidence emotion. rewrite H.
    split; [done|]. split; [done|]. apply track_history.
Qed.

Lemma adapt_instructions_text_depends_on_inputs_only_witness :
  PersonalityAdapter.current_emotion
    (snd (PersonalityAdapter.adapt_instructions
            (Sample.adapter_with ["sad"]) "You are a helpful teacher."
            Sample.confused_data CONFIDENCE_THRESHOLD)) = "confused"
  /\ PersonalityAdapter.emotion_history
       (snd (PersonalityAdapter.adapt_instructions
               (Sample.adapter_with ["sad"]) "You are a helpful teacher."
               Sample.confused_data CONFIDENCE_THRESHOLD)) =
     [ Sample.entry "sad";
       {| h_emotion := "confused"; h_confidence := 0.8;
          h_timestamp := Some "2026-01-15T04:00:00Z" |} ].
Proof.
  destruct (proj2 (proj2 (proj2
              (adapt_instructions_text_depends_on_inputs_only
                 (Sample.adapter_with ["sad"]) "You are a helpful teacher."
                 Sample.confused_data CONFIDENCE_THRESHOLD))))
    as (_ & Hc & Hh).
  - by vm_compute.
  - split; [exact Hc|exact Hh].
Defined.

Lemma list_to_map_Forall (P : string -> Prop) (l : list (string * string)) e t :
  Forall (fun kv => P kv.2) l ->
  (list_to_map l : gmap string string) !! e = Some t -> P t.
Proof.
  intros HP Ht. apply elem_of_list_to_map_2 in Ht.
  rewrite Forall_forall in HP. exact (HP _ Ht).
Qed.

Lemma adaptations_not_empty (ty e t : string) :
  default ∅ (EMOTION_ADAPTATIONS !! ty) !! e = Some t -> t <> EmptyString.
Proof.
  destruct (EMOTION_ADAPTATIONS !! ty) as [m|] eqn:E; simpl;
    [|by rewrite lookup_empty].
  unfold EMOTION_ADAPTATIONS in E. apply elem_of_list_to_map_2 in E.
  rewrite !elem_of_cons, elem_of_nil in E.
  destruct E as [E|[E|[E|[E|[]]]]]; apply pair_equal_spec in E as [_ ->];
    intros Ht;
    (eapply (list_to_map_Forall (fun s => s <> EmptyString)); [|exact Ht]);
    repeat constructor; discriminate.
Qed.

Lemma get_adaptation_track (a : PersonalityAdapter.t) e c ts e' :
  PersonalityAdapter._get_adaptation (PersonalityAdapter.track a e c ts) e' =
  PersonalityAdapter._get_adaptation a e'.
Proof. reflexivity. Qed.

Lemma list_to_map_keys (P : string -> Prop) (l : list (string * string)) e t :
  Forall (fun kv => P kv.1) l ->
  (list_to_map l : gmap string string) !! e = Some t -> P e.
Proof.
  intros HP Ht. apply elem_of_list_to_map_2 in Ht.
  rewrite Forall_forall in HP. exact (HP _ Ht).
Qed.

Lemma adaptations_for_categories (ty e t : string) :
  default ∅ (EMOTION_ADAPTATIONS !! ty) !! e = Some t ->
  e ∈ EMOTION_CATEGORIES.
Proof.
  destruct (EMOTION_ADAPTATIONS !! ty) as [m|] eqn:E; simpl;
    [|by rewrite lookup_empty].
  unfold EMOTION_ADAPTATIONS in E. apply elem_of_list_to_map_2 in E.
  rewrite !elem_of_cons, elem_of_nil in E.
  destruct E as [E|[E|[E|[E|[]]]]]; apply pair_equal_spec in E as [_ ->];
    intros Ht;
    (eapply (list_to_map_keys (fun s => s ∈ EMOTION_CATEGORIES)); [|exact Ht]);
    apply (bool_decide_unpack _); by vm_compute.
Qed.

(** C8.  A confidence below the threshold returns the base instructions
    unchanged.  A confidence that is not below it, with a template in the
    table for the agent type and the label, returns the base
    instructions followed by the block written out below: the label in
    upper case, the confidence as a percentage and the template; the
    label is then one of the eight categories, whose upper-case forms are
    listed.  Without a template the base instructions are returned
    unchanged.  The percentage is the integer nearest to one hundred
    times the confidence (the product taken as a float), the even one
    when the product is half way, with the sign of the product. *)
Theorem adapt_instructions_gating
    (a : PersonalityAdapter.t) (base : string) (ed : EmotionData)
    (thr : float) :
  let emotion := default "neutral" (ed_emotion ed) in
  let confidence := default 0%float (ed_confidence ed) in
  let result := fst (PersonalityAdapter.adapt_instructions a base ed thr) in
  let templates :=
    default ∅ (EMOTION_ADAPTATIONS !! PersonalityAdapter.agent_type a) in
  ((confidence <? thr)%float = true -> result = base)
  /\ (forall template,
       (confidence <? thr)%float = false ->
       templates !! emotion = Some template ->
       result =
         base +:+ "

CURRENT USER EMOTIONAL STATE: " +:+ PyStr.upper emotion
         +:+ " (confidence: " +:+ format_percent0 confidence +:+ ")

ADAPT YOUR RESPONSE ACCORDINGLY:
" +:+ template +:+ "

Remember to maintain your core personality while being sensitive to the user's emotional state.
"
       /\ emotion ∈ EMOTION_CATEGORIES)
  /\ ((confidence <? thr)%float = false ->
      templates !! emotion = None -> result = base)
  /\ PyStr.upper <$> EMOTION_CATEGORIES =
     ["HAPPY"; "SAD"; "ANGRY"; "ANXIOUS"; "NEUTRAL"; "EXCITED"; "CONFUSED";
      "FRUSTRATED"]
  /\ (forall s m e,
       Prim2SF (confidence * 100)%float = S754_finite s m e ->
       exists k : Z,
         format_percent0 confidence =
           (if s then "-" else EmptyString) +:+ PyStr.str_of_int k +:+ "%"
         /\ (Qabs (magnitude m e - inject_Z k) <= 1 # 2)%Q
         /\ ((Qabs (magnitude m e - inject_Z k) == 1 # 2)%Q ->
             Z.even k = true)).
Proof.
  intros emotion confidence result templates.
  split; [|split; [|split; [|split]]].
  - intros H. unfold result. by rewrite adapt_instructions_below.
  - intros template H Ht. split; [|by eapply adaptations_for_categories].
    unfold result, PersonalityAdapter.adapt_instructions.
    fold emotion confidence. rewrite H, get_adaptation_track.
    unfold PersonalityAdapter._get_adaptation. fold templates. rewrite Ht.
    destruct (String.eqb_spec template EmptyString) as [->|_]; [|done].
    by apply adaptations_not_empty in Ht.
  - intros H Ht.
    unfold result, PersonalityAdapter.adapt_instructions.
    fold emotion confidence. rewrite H, get_adaptation_track.
    unfold PersonalityAdapter._get_adaptation. fold templates. by rewrite Ht.
  - by vm_compute.
  - intros s m e H.
    exists (round_half_even (magnitude m e)).
    split; [by apply format_percent0_finite|].
    apply round_half_even_nearest.
Qed.

(** The adapter test of the repository. *)
Example adapt_instructions_teacher_confused :
  fst (PersonalityAdapter.adapt_instructions
         (PersonalityAdapter.init "teacher") "You are a helpful teacher."
         Sample.confused_data CONFIDENCE_THRESHOLD) =
  "You are a helpful teacher.

CURRENT USER EMOTIONAL STATE: CONFUSED (confidence: 80%)

ADAPT YOUR RESPONSE ACCORDINGLY:

The user seems confused. Adjust your teaching approach:
- Slow down and break concepts into smaller steps
- Use simpler language and more examples
- Check for understanding frequently
- Be patient and reassuring
- Offer to explain in a different way


Remember to maintain your core personality while being sensitive to the user's emotional state.
".
Proof. vm_compute. reflexivity. Qed.

Example adapt_instructions_low_confidence :
  PersonalityAdapter.adapt_instructions
    (PersonalityAdapter.init "teacher") "You are a helpful teacher."
    Sample.unsure_data CONFIDENCE_THRESHOLD =
  ("You are a helpful teacher.", PersonalityAdapter.init "teacher").
Proof. vm_compute. reflexivity. Qed.

(** *** The history *)

Lemma last_n_snoc {A} (n : nat) (l : list A) (x : A) :
  (1 <= n)%nat ->
  PyStr.last_n n (PyStr.last_n n l ++ [x]) = PyStr.last_n n (l ++ [x]).
Proof.
  intros Hn.
  destruct (Nat.le_gt_cases (length l) n) as [Hle|Hgt].
  - by rewrite (last_n_all n l).
  - unfold PyStr.last_n at 1 3.
    rewrite !length_app, last_n_length. simpl.
    unfold PyStr.last_n.
    rewrite !drop_app_le by (rewrite ?length_drop; lia).
    rewrite drop_drop. f_equal. f_equal. lia.
Qed.

Lemma after_calls_snoc (a : PersonalityAdapter.t) cs c :
  PersonalityAdapter.after_calls a (cs ++ [c]) =
  snd (PersonalityAdapter.adapt_instructions
         (PersonalityAdapter.after_calls a cs)
         (PersonalityAdapter.call_base c) (PersonalityAdapter.call_data c)
         (PersonalityAdapter.call_threshold c)).
Proof. unfold PersonalityAdapter.after_calls. by rewrite fold_left_app. Qed.

Lemma history_after_calls (ty : string) (cs : list PersonalityAdapter.call) :
  PersonalityAdapter.emotion_history
    (PersonalityAdapter.after_calls (PersonalityAdapter.init ty) cs) =
  PyStr.last_n 10
    (PersonalityAdapter.entry_of <$> List.filter PersonalityAdapter.passes cs).
Proof.
  induction cs as [|c cs IH] using rev_ind; [done|].
  rewrite after_calls_snoc, adapt_instructions_state, List.filter_app.
  change (List.filter PersonalityAdapter.passes [c])
    with (if PersonalityAdapter.passes c then [c] else []).
  unfold PersonalityAdapter.passes at 2.
  unfold PersonalityAdapter.call_confidence.
  destruct (_ <? _)%float.
  - by rewrite app_nil_r.
  - rewrite track_history, IH, fmap_app.
    by rewrite last_n_snoc by lia.
Qed.

Lemma last_n_subseteq {A} (n : nat) (l : list A) (x : A) :
  x ∈ PyStr.last_n n l -> x ∈ l.
Proof. unfold PyStr.last_n. apply subseteq_drop. Qed.

(** C10.  A call whose confidence is below its threshold leaves the
    adapter (history and current emotion) as it was.  After any sequence
    of calls on a new adapter the history is the last ten of the entries
    of the calls that passed the gate, in order; so every entry comes from
    a call whose confidence the gate did not find below the threshold of
    that call, and when neither of the two is NaN the confidence is at or
    above the threshold.  [get_dominant_emotion] and [should_check_in] are
    functions of the history alone.  But a confidence of NaN passes the
    gate, though it is not at or above any threshold: the call sets
    [current_emotion] and appends its entry, for every adapter, label and
    threshold. *)
Theorem history_holds_only_confident_results :
  (forall (a : PersonalityAdapter.t) base ed thr,
      (default 0%float (ed_confidence ed) <? thr)%float = true ->
      snd (PersonalityAdapter.adapt_instructions a base ed thr) = a)
  /\ (forall ty cs,
      PersonalityAdapter.emotion_history
        (PersonalityAdapter.after_calls (PersonalityAdapter.init ty) cs) =
      PyStr.last_n 10
        (PersonalityAdapter.entry_of <$>
           List.filter PersonalityAdapter.passes cs))
  /\ (forall ty cs h,
      h ∈ PersonalityAdapter.emotion_history
            (PersonalityAdapter.after_calls (PersonalityAdapter.init ty) cs) ->
      exists c,
        c ∈ cs /\ h = PersonalityAdapter.entry_of c
        /\ (h_confidence h <? PersonalityAdapter.call_threshold c)%float
           = false
        /\ (is_nan (h_confidence h) = false ->
            is_nan (PersonalityAdapter.call_threshold c) = false ->
            (PersonalityAdapter.call_threshold c <=? h_confidence h)%float
            = true))
  /\ (forall a b : PersonalityAdapter.t,
      PersonalityAdapter.emotion_history a =
      PersonalityAdapter.emotion_history b ->
      PersonalityAdapter.get_dominant_emotion a =
      PersonalityAdapter.get_dominant_emotion b /\
      PersonalityAdapter.should_check_in a =
      PersonalityAdapter.should_check_in b)
  /\ (forall (a : PersonalityAdapter.t) base label ts thr,
      let after :=
        snd (PersonalityAdapter.adapt_instructions a base
               {| ed_emotion := Some label; ed_confidence := Some nan;
                  ed_detected_at := ts |} thr) in
      (thr <=? nan)%float = false
      /\ PersonalityAdapter.current_emotion after = label
      /\ PersonalityAdapter.emotion_history after =
         PyStr.last_n 10
           (PersonalityAdapter.emotion_history a ++
              [ {| h_emotion := label; h_confidence := nan;
                   h_timestamp := ts |} ])).
Proof.
  split; [|split; [|split; [|split]]].
  - intros a base ed thr H. by rewrite adapt_instructions_below.
  - apply history_after_calls.
  - intros ty cs h Hh. rewrite history_after_calls in Hh.
    apply last_n_subseteq, list_elem_of_fmap in Hh as (c & -> & Hc).
    apply list_elem_of_In, filter_In in Hc as [Hc Hp].
    exists c. split; [by apply list_elem_of_In|]. split; [done|].
    unfold PersonalityAdapter.passes in Hp. apply negb_true_iff in Hp.
    split; [exact Hp|]. intros H1 H2. by apply not_below_is_at_or_above.
  - intros a b H.
    unfold PersonalityAdapter.get_dominant_emotion,
      PersonalityAdapter.recent_labels, PersonalityAdapter.should_check_in.
    by rewrite H.
  - intros a base label ts thr after.
    destruct (nan_is_neither thr) as [Hlt Hle]. split; [exact Hle|].
    unfold after. rewrite adapt_instructions_state. simpl.
    rewrite Hlt. split; [done|]. apply track_history.
Qed.

(** The same through the agent: the remote classifier answers sad with a
    confidence of NaN, and the adapter of a new agent records it. *)
Example nan_confidence_reaches_the_history :
  let w :=
    snd (fst (Worker.on_user_speech Sample.runtime Sample.remote_nan
                Sample.backend_ok "You are a helpful teacher." "I feel odd"
                (fst Sample.worker0) (snd Sample.worker0))) in
  PersonalityAdapter.emotion_history
    (SessionHandler.adapter (Worker.emotion_handler w)) =
    [ {| h_emotion := "sad"; h_confidence := nan;
         h_timestamp := Some "1003" |} ]
  /\ PersonalityAdapter.current_emotion
       (SessionHandler.adapter (Worker.emotion_handler w)) = "sad"
  /\ (CONFIDENCE_THRESHOLD <=? nan)%float = false.
Proof. by vm_compute. Qed.

(** *** The majority vote *)

Lemma occurrences_snoc (e x : string) (w : list string) :
  occurrences e (w ++ [x]) =
  (occurrences e w + if decide (x = e) then 1 else 0)%nat.
Proof.
  unfold occurrences. rewrite count_occ_app. simpl.
  destruct (string_dec x e), (decide (x = e)); congruence.
Qed.

Lemma occurrences_zero (e : string) (w : list string) :
  e ∉ w -> occurrences e w = 0%nat.
Proof.
  intros H. apply count_occ_not_In. by rewrite <- list_elem_of_In.
Qed.

Lemma first_seen_snoc (w : list string) (x : string) :
  first_seen (w ++ [x]) =
  if decide (x ∈ first_seen w) then first_seen w else first_seen w ++ [x].
Proof. unfold first_seen. by rewrite fold_left_app. Qed.

Lemma elem_of_first_seen (w : list string) (e : string) :
  e ∈ first_seen w <-> e ∈ w.
Proof.
  induction w as [|x w IH] using rev_ind.
  - done.
  - rewrite first_seen_snoc, elem_of_app, list_elem_of_singleton.
    destruct (decide (x ∈ first_seen w)) as [Hx|Hx].
    + rewrite IH. split; [tauto|]. intros [?| ->]; [done|by apply IH].
    + rewrite elem_of_app, list_elem_of_singleton, IH. done.
Qed.

Lemma NoDup_first_seen (w : list string) : NoDup (first_seen w).
Proof.
  induction w as [|x w IH] using rev_ind.
  - constructor.
  - rewrite first_seen_snoc. destruct (decide (x ∈ first_seen w)); [done|].
    apply NoDup_app. split; [done|]. split.
    + intros y Hy ->%list_elem_of_singleton. done.
    + apply NoDup_singleton.
Qed.

(** Whatever stands before the first occurrence of a label was seen
    before it. *)
Lemma first_seen_split (w : list string) ks1 r ks2 :
  first_seen w = ks1 ++ r :: ks2 ->
  exists before after,
    w = before ++ r :: after /\ forall e, e ∈ before -> e ∈ ks1.
Proof.
  revert ks2. induction w as [|x w IH] using rev_ind; intros ks2 H.
  - by destruct ks1.
  - rewrite first_seen_snoc in H.
    destruct (decide (x ∈ first_seen w)) as [Hx|Hx].
    + destruct (IH _ H) as (before & after & -> & Hb).
      exists before, (after ++ [x]). split; [|done].
      by rewrite <- app_assoc.
    + destruct ks2 as [|y ks2 _] using rev_ind.
      * apply app_inj_tail in H as [H ->].
        exists w, []. split; [done|].
        intros e He. rewrite <- H. by apply elem_of_first_seen.
      * rewrite app_comm_cons, app_assoc in H.
        apply app_inj_tail in H as [H ->].
        destruct (IH _ H) as (before & after & -> & Hb).
        exists before, (after ++ [y]). split; [|done].
        by rewrite <- app_assoc.
Qed.

Lemma count_incr_new (g : string -> nat) (x : string) (ks : list string) :
  x ∉ ks ->
  PersonalityAdapter.count_incr x ((fun k => (k, g k)) <$> ks) =
  ((fun k => (k, g k)) <$> ks) ++ [(x, 1%nat)].
Proof.
  induction ks as [|k ks IH]; intros Hx; [done|].
  apply not_elem_of_cons in Hx as [Hne Hx].
  rewrite fmap_cons. cbn [PersonalityAdapter.count_incr].
  destruct (String.eqb_spec x k); [done|]. by rewrite IH.
Qed.

Lemma count_incr_old (g g' : string -> nat) (x : string) (ks : list string) :
  x ∈ ks -> NoDup ks ->
  g' x = (g x + 1)%nat -> (forall k, k <> x -> g' k = g k) ->
  PersonalityAdapter.count_incr x ((fun k => (k, g k)) <$> ks) =
  (fun k => (k, g' k)) <$> ks.
Proof.
  intros Hx Hnd Hgx Hg.
  induction ks as [|k ks IH]; [by apply elem_of_nil in Hx|].
  apply NoDup_cons in Hnd as [Hk Hnd].
  rewrite !fmap_cons. cbn [PersonalityAdapter.count_incr].
  destruct (String.eqb_spec x k) as [->|Hne].
  - rewrite Hgx. f_equal. apply list_fmap_ext.
    intros i y Hy. rewrite Hg; [done|].
    intros ->. apply Hk. eapply list_elem_of_lookup_2; eauto.
  - apply elem_of_cons in Hx as [?|Hx]; [done|].
    rewrite Hg by done. f_equal. by apply IH.
Qed.

Lemma count_emotions_snoc (w : list string) (x : string) :
  PersonalityAdapter.count_emotions (w ++ [x]) =
  PersonalityAdapter.count_incr x (PersonalityAdapter.count_emotions w).
Proof. unfold PersonalityAdapter.count_emotions. by rewrite fold_left_app. Qed.

(** The dict of counts: every label of the window, in the order of first
    occurrence, with the number of its occurrences. *)
Lemma count_emotions_closed_form (w : list string) :
  PersonalityAdapter.count_emotions w =
  (fun k => (k, occurrences k w)) <$> first_seen w.
Proof.
  induction w as [|x w IH] using rev_ind; [done|].
  rewrite count_emotions_snoc, IH, first_seen_snoc.
  destruct (decide (x ∈ first_seen w)) as [Hx|Hx].
  - apply count_incr_old; [done|apply NoDup_first_seen| |].
    + rewrite occurrences_snoc. by rewrite decide_True.
    + intros k Hk. rewrite occurrences_snoc. rewrite decide_False by done. lia.
  - rewrite count_incr_new by done. rewrite fmap_app. simpl.
    f_equal.
    + apply list_fmap_ext. intros i k Hk.
      rewrite occurrences_snoc, decide_False; [f_equal; lia|].
      intros ->. apply Hx. eapply list_elem_of_lookup_2; eauto.
    + rewrite occurrences_snoc, decide_True by done.
      rewrite occurrences_zero; [done|]. by rewrite <- elem_of_first_seen.
Qed.

(** [max_from] returns the first key whose count is greatest. *)
Lemma max_from_first_greatest (d pre mid : list (string * nat)) best bc :
  (forall kv, kv ∈ pre -> (kv.2 < bc)%nat) ->
  (forall kv, kv ∈ mid -> (kv.2 <= bc)%nat) ->
  exists d1 v d2,
    pre ++ (best, bc) :: mid ++ d =
      d1 ++ (PersonalityAdapter.max_from best bc d, v) :: d2
    /\ (forall kv, kv ∈ d1 -> (kv.2 < v)%nat)
    /\ (forall kv, kv ∈ d2 -> (kv.2 <= v)%nat).
Proof.
  revert pre mid best bc.
  induction d as [|[k v] d IH]; intros pre mid best bc Hpre Hmid.
  - exists pre, bc, mid. by rewrite app_nil_r.
  - simpl. destruct (Nat.ltb_spec bc v) as [Hlt|Hge].
    + destruct (IH (pre ++ (best, bc) :: mid) [] k v) as (d1 & v' & d2 & E & H1 & H2).
      * intros kv. rewrite elem_of_app, elem_of_cons.
        intros [H|[->|H]]; [apply Hpre in H|simpl|apply Hmid in H]; lia.
      * intros kv H. by apply elem_of_nil in H.
      * exists d1, v', d2. split; [|done].
        rewrite <- E. simpl. by rewrite <- app_assoc.
    + destruct (IH pre (mid ++ [(k, v)]) best bc) as (d1 & v' & d2 & E & H1 & H2).
      * done.
      * intros kv. rewrite elem_of_app, list_elem_of_singleton.
        intros [H| ->]; [by apply Hmid|done].
      * exists d1, v', d2. split; [|done].
        rewrite <- E. by rewrite <- app_assoc.
Qed.

Lemma max_by_count_first_greatest (d : list (string * nat)) :
  d <> [] ->
  exists r d1 v d2,
    PersonalityAdapter.max_by_count d = Some r
    /\ d = d1 ++ (r, v) :: d2
    /\ (forall kv, kv ∈ d1 -> (kv.2 < v)%nat)
    /\ (forall kv, kv ∈ d2 -> (kv.2 <= v)%nat).
Proof.
  destruct d as [|[k v] d]; [done|]. intros _.
  destruct (max_from_first_greatest d [] [] k v) as (d1 & v' & d2 & E & H1 & H2).
  - intros kv H. by apply elem_of_nil in H.
  - intros kv H. by apply elem_of_nil in H.
  - exists (PersonalityAdapter.max_from k v d), d1, v', d2. done.
Qed.

(** The winner of the vote over a window that is not empty. *)
Lemma vote_winner (w : list string) :
  w <> [] ->
  exists r before after,
    PersonalityAdapter.max_by_count (PersonalityAdapter.count_emotions w) = Some r
    /\ w = before ++ r :: after
    /\ (forall e, e ∈ before -> (occurrences e w < occurrences r w)%nat)
    /\ (forall e, (occurrences e w <= occurrences r w)%nat).
Proof.
  intros Hw.
  destruct (max_by_count_first_greatest (PersonalityAdapter.count_emotions w))
    as (r & d1 & v & d2 & Hr & Hd & H1 & H2).
  { rewrite count_emotions_closed_form. intros H%fmap_nil_inv.
    destruct w as [|x w]; [done|].
    assert (Hx : x ∈ first_seen (x :: w)) by (apply elem_of_first_seen; left).
    rewrite H in Hx. by apply elem_of_nil in Hx. }
  rewrite count_emotions_closed_form in Hd.
  apply fmap_app_inv in Hd as (ks1 & ks' & -> & Hk & Hks).
  symmetry in Hk. apply fmap_cons_inv in Hk as (r' & ks2 & E & -> & ->).
  injection E as <- ->.
  destruct (first_seen_split _ _ _ _ Hks) as (before & after & Hsplit & Hb).
  exists r, before, after. split; [done|]. split; [done|]. split.
  - intros e He. apply Hb in He.
    apply (H1 (e, occurrences e w)). apply list_elem_of_fmap. eauto.
  - intros e. destruct (decide (e ∈ w)) as [He|He].
    + apply elem_of_first_seen in He. rewrite Hks in He.
      apply elem_of_app in He as [He|He].
      * apply Nat.lt_le_incl.
        apply (H1 (e, occurrences e w)). apply list_elem_of_fmap. eauto.
      * apply elem_of_cons in He as [->|He]; [done|].
        apply (H2 (e, occurrences e w)). apply list_elem_of_fmap. eauto.
    + rewrite occurrences_zero by done. lia.
Qed.

Lemma recent_labels_nonempty (a : PersonalityAdapter.t) :
  PersonalityAdapter.emotion_history a <> [] ->
  PersonalityAdapter.recent_labels a <> [].
Proof.
  intros H E. apply fmap_nil_inv in E.
  apply (f_equal length) in E. rewrite last_n_length in E. simpl in E.
  destruct (PersonalityAdapter.emotion_history a); [done|]. simpl in E. lia.
Qed.

Lemma last_n_fmap {A B} (f : A -> B) (n : nat) (l : list A) :
  f <$> PyStr.last_n n l = PyStr.last_n n (f <$> l).
Proof. unfold PyStr.last_n. by rewrite fmap_drop, length_fmap. Qed.

(** C7.  With an empty history [get_dominant_emotion] is neutral.
    Otherwise it is the first label, in the order of the five most recent
    entries, whose count among them is greatest: no label has a greater
    count among the labels of the last five entries, and every label
    before its first occurrence there has a smaller one.  For the history
    happy, sad, happy, sad it is happy.  Entries older than the last five
    have no vote: for four times sad followed by three times angry it is
    angry. *)
Theorem get_dominant_emotion_spec :
  (forall a : PersonalityAdapter.t,
      PersonalityAdapter.emotion_history a = [] ->
      PersonalityAdapter.get_dominant_emotion a = "neutral")
  /\ (forall a : PersonalityAdapter.t,
      let history := PersonalityAdapter.emotion_history a in
      let window := h_emotion <$> drop (length history - 5) history in
      let winner := PersonalityAdapter.get_dominant_emotion a in
      history <> [] ->
      exists before after,
        window = before ++ winner :: after
        /\ (forall e, e ∈ before ->
              (count_occ string_dec window e
               < count_occ string_dec window winner)%nat)
        /\ (forall e,
              (count_occ string_dec window e
               <= count_occ string_dec window winner)%nat))
  /\ (forall a : PersonalityAdapter.t,
      h_emotion <$> PersonalityAdapter.emotion_history a =
        ["happy"; "sad"; "happy"; "sad"] ->
      PersonalityAdapter.get_dominant_emotion a = "happy")
  /\ (forall a : PersonalityAdapter.t,
      h_emotion <$> PersonalityAdapter.emotion_history a =
        ["sad"; "sad"; "sad"; "sad"; "angry"; "angry"; "angry"] ->
      PersonalityAdapter.get_dominant_emotion a = "angry").
Proof.
  split; [|split; [|split]].
  - intros a H. unfold PersonalityAdapter.get_dominant_emotion. by rewrite H.
  - intros a history window winner H.
    destruct (vote_winner _ (recent_labels_nonempty a H))
      as (r & before & after & Hr & Hw & H1 & H2).
    assert (Hd : winner = r).
    { unfold winner, PersonalityAdapter.get_dominant_emotion.
      destruct (PersonalityAdapter.emotion_history a); [done|].
      by rewrite Hr. }
    rewrite Hd. exists before, after. split; [exact Hw|]. split.
    + exact H1.
    + exact H2.
  - intros a H. unfold PersonalityAdapter.get_dominant_emotion.
    unfold PersonalityAdapter.recent_labels. rewrite last_n_fmap, H.
    by destruct (PersonalityAdapter.emotion_history a).
  - intros a H. unfold PersonalityAdapter.get_dominant_emotion.
    unfold PersonalityAdapter.recent_labels. rewrite last_n_fmap, H.
    by destruct (PersonalityAdapter.emotion_history a).
Qed.

(** *** The detector, step by step *)

Lemma too_soon_run (R : Runtime) (force : bool) (d : EmotionDetector.t) n :
  EmotionDetector.too_soon R force d n =
  if force then (Py.Return false, d, n)
  else (Py.Return
          (Qltb (time_at R n - EmotionDetector.last_analysis_time d)
                (inject_Z (EmotionDetector.min_analysis_interval d))),
        d, S n).
Proof. by destruct force. Qed.

Lemma cache_get_run (R : Runtime) (k : string) (c : EmotionCache.t) n :
  EmotionCache.get R k c n =
  match EmotionCache.cache c !! k with
  | None => (Py.Return None, c, n)
  | Some e =>
      if Qltb (inject_Z (EmotionCache.ttl_seconds c))
              (time_at R n - EmotionCache.entry_timestamp e)
      then (Py.Return None,
            EmotionCache.set_cache (delete k (EmotionCache.cache c)) c, S n)
      else (Py.Return (Some (EmotionCache.entry_emotion e)), c, S n)
  end.
Proof.
  unfold EmotionCache.get, Py.bind, Py.get_self.
  destruct (EmotionCache.cache c !! k) as [e|]; [|done].
  unfold Py.bind, Py.time_time. by destruct (Qltb _ _).
Qed.

Lemma cache_set_run (R : Runtime) (k : string) (r : EmotionResult)
    (c : EmotionCache.t) n :
  EmotionCache.set R k r c n =
  (Py.Return tt,
   EmotionCache.set_cache
     (<[k := {| EmotionCache.entry_emotion := r;
                EmotionCache.entry_timestamp := time_at R n |}]>
        (EmotionCache.cache c)) c,
   S n).
Proof. reflexivity. Qed.

Lemma get_neutral_emotion_run {St} (R : Runtime) (s : St) n :
  EmotionDetector._get_neutral_emotion R s n =
  (Py.Return (EmotionDetector.neutral_at (utcnow_at R n)), s, S n).
Proof. reflexivity. Qed.

Lemma parse_response_run {St} (R : Runtime) (text : string) (s : St) n :
  EmotionDetector._parse_response R text s n =
  (Py.Return
     match EmotionDetector.parse_fields R text with
     | Some (label, c, i) =>
         {| emotion := label; confidence := c; intensity := i;
            valence := va_valence (get_valence_arousal label);
            arousal := va_arousal (get_valence_arousal label);
            detected_at := utcnow_at R n |}
     | None => EmotionDetector.neutral_at (utcnow_at R n)
     end, s, S n).
Proof.
  unfold EmotionDetector._parse_response.
  by destruct (EmotionDetector.parse_fields R text) as [[[label c] i]|].
Qed.

Lemma checked_emotion_valid (members : list (string * json)) :
  is_valid_emotion (EmotionDetector.checked_emotion members) = true.
Proof.
  unfold EmotionDetector.checked_emotion.
  destruct (EmotionDetector.dict_get "emotion" members) as [[]|]; try done.
  by destruct (is_valid_emotion s) eqn:E.
Qed.

Lemma parse_fields_valid (R : Runtime) (text label : string) (c i : float) :
  EmotionDetector.parse_fields R text = Some (label, c, i) ->
  is_valid_emotion label = true.
Proof.
  unfold EmotionDetector.parse_fields.
  destruct (json_loads R _) as [[]|]; try done.
  destruct (EmotionDetector.py_float R _); [|done].
  destruct (EmotionDetector.py_float R _); [|done].
  intros [= <- _ _]. apply checked_emotion_valid.
Qed.

Lemma parse_response_valid {St} (R : Runtime) (text : string) (s : St) n :
  exists r,
    EmotionDetector._parse_response R text s n = (Py.Return r, s, S n)
    /\ EmotionDetector.valid_result r.
Proof.
  rewrite parse_response_run. eexists. split; [done|].
  unfold EmotionDetector.valid_result.
  destruct (EmotionDetector.parse_fields R text) as [[[label c] i]|] eqn:E.
  - apply parse_fields_valid in E. simpl.
    by apply bool_decide_eq_true in E.
  - simpl. by apply (bool_decide_unpack _).
Qed.

(** *** The parsing policy *)

(** C2, as stated, fails: the payload parses as JSON and its confidence
    1.5 is returned as 1.5, which is not within [[0, 1]]. *)
Lemma parse_response_does_not_clamp :
  json_loads Sample.runtime
    (EmotionDetector.strip_code_block Sample.overconfident_text)
    = Some (Sample.fields "happy" 1.5 0.7)
  /\ fst (fst (EmotionDetector._parse_response Sample.runtime
                 Sample.overconfident_text tt 0))
     = Py.Return {| emotion := "happy"; confidence := 1.5;
                    intensity := 0.7; valence := 8 # 10;
                    arousal := 6 # 10; detected_at := "1000" |}
  /\ (1.5 <=? 1)%float = false.
Proof.
  split; [by vm_compute|]. split; by vm_compute.
Qed.

(** What [float] gives for a field of the payload: a float as it is, NaN
    and the infinities included; an int as the nearest float, and nothing
    when the int is too large; [True] and [False] as 1 and 0; a string as
    the interpreter converts it; nothing for [null], a list or an
    object; 0.5 for an absent field. *)
Lemma py_float_field (R : Runtime) (field : option json) :
  EmotionDetector.py_float R (default (JFloat 0.5) field) =
  match field with
  | None => Some 0.5%float
  | Some (JFloat x) => Some x
  | Some (JInt n) =>
      match binary_normalize prec emax n 0 false with
      | S754_infinity _ => None
      | x => Some (SF2Prim x)
      end
  | Some (JBool b) => Some (if b then 1 else 0)%float
  | Some (JStr s) => float_of_str R s
  | Some JNull | Some (JArr _) | Some (JObj _) => None
  end.
Proof. by destruct field as [[]|]. Qed.

(** C2, as amended.  For a payload that parses as a JSON object,
    [_parse_response] converts the confidence and the intensity with
    [float] and nothing else: when both convert it returns the label of
    the payload when it is one of the eight categories and neutral
    otherwise, the valence and arousal of that label, and the two floats
    as converted, with no clamping; when one does not convert (an int
    beyond the range of the floats, a string that is no number, [null],
    a list or an object) it returns the neutral default. *)
Theorem parse_response_coerces_without_clamping {St : Type}
    (R : Runtime) (text : string) (members : list (string * json))
    (s : St) (n : nat) :
  json_loads R (EmotionDetector.strip_code_block text) = Some (JObj members) ->
  let label := EmotionDetector.checked_emotion members in
  let float_of (field : option json) : option float :=
    match field with
    | None => Some 0.5%float
    | Some (JFloat x) => Some x
    | Some (JInt k) =>
        match binary_normalize prec emax k 0 false with
        | S754_infinity _ => None
        | x => Some (SF2Prim x)
        end
    | Some (JBool b) => Some (if b then 1 else 0)%float
    | Some (JStr t) => float_of_str R t
    | Some JNull | Some (JArr _) | Some (JObj _) => None
    end in
  EmotionDetector._parse_response R text s n =
    (Py.Return
       match float_of (EmotionDetector.dict_get "confidence" members),
             float_of (EmotionDetector.dict_get "intensity" members) with
       | Some c, Some i =>
           {| emotion := label; confidence := c; intensity := i;
              valence := va_valence (get_valence_arousal label);
              arousal := va_arousal (get_valence_arousal label);
              detected_at := utcnow_at R n |}
       | _, _ =>
           {| emotion := "neutral"; confidence := 1; intensity := 0.5;
              valence := 0; arousal := 1 # 2;
              detected_at := utcnow_at R n |}
       end, s, S n)
  /\ label ∈ EMOTION_CATEGORIES
  /\ (forall l, EmotionDetector.dict_get "emotion" members = Some (JStr l) ->
                label = if bool_decide (l ∈ EMOTION_CATEGORIES) then l
                        else "neutral")
  /\ (forall v, EmotionDetector.dict_get "emotion" members = Some v ->
                (forall l, v <> JStr l) -> label = "neutral")
  /\ (EmotionDetector.dict_get "emotion" members = None -> label = "neutral").
Proof.
  intros Hj label float_of.
  split.
  { rewrite parse_response_run. unfold EmotionDetector.parse_fields.
    rewrite Hj, !py_float_field. unfold float_of. fold label.
    set (cf := match EmotionDetector.dict_get "confidence" members with
               | Some _ => _ | None => _ end).
    set (it := match EmotionDetector.dict_get "intensity" members with
               | Some _ => _ | None => _ end).
    by destruct cf, it. }
  split.
  { pose proof (checked_emotion_valid members) as H.
    by apply bool_decide_eq_true in H. }
  split.
  { intros l Hl. unfold label, EmotionDetector.checked_emotion. by rewrite Hl. }
  split.
  { intros v Hv Hn. unfold label, EmotionDetector.checked_emotion.
    rewrite Hv. destruct v; try done. by destruct (Hn s0). }
  intros Hx. unfold label, EmotionDetector.checked_emotion. by rewrite Hx.
Qed.

Lemma parse_response_coerces_without_clamping_witness :
  EmotionDetector._parse_response Sample.runtime Sample.happy_text tt 0 =
    (Py.Return {| emotion := "happy"; confidence := 0.9;
                  intensity := 0.7; valence := 8 # 10;
                  arousal := 6 # 10; detected_at := "1000" |}, tt, 1%nat).
Proof.
  exact (proj1 (parse_response_coerces_without_clamping
                  Sample.runtime Sample.happy_text
                  [("emotion", JStr "happy"); ("confidence", JFloat 0.9);
                   ("intensity", JFloat 0.7)]
                  tt 0%nat eq_refl)).
Defined.

Lemma on_cache_run {A} (m : Py.M EmotionCache.t A) (d : EmotionDetector.t) n :
  EmotionDetector.on_cache m d n =
  match m (EmotionDetector.cache d) n with
  | (r, c, n') => (r, EmotionDetector.set_cache c d, n')
  end.
Proof. reflexivity. Qed.

Lemma on_rate_limiter_run {A} (m : Py.M RateLimiter.t A)
    (d : EmotionDetector.t) n :
  EmotionDetector.on_rate_limiter m d n =
  match m (EmotionDetector.rate_limiter d) n with
  | (r, l, n') => (r, EmotionDetector.set_rate_limiter l d, n')
  end.
Proof. reflexivity. Qed.

Lemma detect_emotion_too_soon (R : Runtime) remote text
    (d : EmotionDetector.t) n :
  EmotionDetector.within_interval R d n ->
  EmotionDetector.detect_emotion R remote text false d n =
  (Py.Return (EmotionDetector.last_emotion d), d, S n).
Proof.
  intros H. apply Qltb_true_iff in H.
  unfold EmotionDetector.detect_emotion, Py.bind.
  rewrite too_soon_run. by rewrite H.
Qed.

Lemma detect_emotion_analysis (R : Runtime) remote text force
    (d : EmotionDetector.t) n d3 n3 :
  EmotionDetector.passes_checks R text force d n = Some (d3, n3) ->
  EmotionDetector.detect_emotion R remote text force d n =
  EmotionDetector.perform_analysis R remote text
    (EmotionDetector.text_hash_of R text) d3 n3.
Proof.
  unfold EmotionDetector.passes_checks, EmotionDetector.detect_emotion.
  unfold Py.bind at 1.
  destruct (EmotionDetector.too_soon R force d n) as [[[[]|] d1] n1]; try done.
  unfold Py.bind at 1.
  destruct (EmotionDetector.on_cache _ d1 n1) as [[[[]|] d2] n2]; try done.
  unfold Py.bind at 1.
  destruct (EmotionDetector.on_rate_limiter _ d2 n2) as [[[[]|] d3'] n3'];
    try done.
  by intros [= -> ->].
Qed.

Lemma passes_checks_frame (R : Runtime) text force
    (d : EmotionDetector.t) n d3 n3 :
  EmotionDetector.passes_checks R text force d n = Some (d3, n3) ->
  EmotionDetector.client d3 = EmotionDetector.client d
  /\ EmotionDetector.last_emotion d3 = EmotionDetector.last_emotion d
  /\ EmotionDetector.last_analysis_time d3 =
     EmotionDetector.last_analysis_time d.
Proof.
  unfold EmotionDetector.passes_checks. rewrite too_soon_run.
  assert (Htail : forall n1,
    match EmotionDetector.on_cache
            (EmotionCache.get R (EmotionDetector.text_hash_of R text)) d n1 with
    | (Py.Return None, d2, n2) =>
        match EmotionDetector.on_rate_limiter (RateLimiter.can_call R) d2 n2 with
        | (Py.Return true, d3, n3) => Some (d3, n3)
        | _ => None
        end
    | _ => None
    end = Some (d3, n3) ->
    EmotionDetector.client d3 = EmotionDetector.client d
    /\ EmotionDetector.last_emotion d3 = EmotionDetector.last_emotion d
    /\ EmotionDetector.last_analysis_time d3 =
       EmotionDetector.last_analysis_time d).
  { intros n1. rewrite on_cache_run, cache_get_run.
    destruct (EmotionCache.cache _ !! _) as [e|].
    - destruct (Qltb _ _); [|done].
      rewrite on_rate_limiter_run, can_call_run.
      destruct (_ <? _)%Z; [|done]. by intros [= <- _].
    - rewrite on_rate_limiter_run, can_call_run.
      destruct (_ <? _)%Z; [|done]. by intros [= <- _]. }
  destruct force; [apply Htail|].
  destruct (Qltb _ _); [done|apply Htail].
Qed.

Lemma perform_analysis_no_client (R : Runtime) remote text key
    (d : EmotionDetector.t) n :
  EmotionDetector.client d = false ->
  EmotionDetector.perform_analysis R remote text key d n =
  (Py.Return (EmotionDetector.neutral_at (utcnow_at R n)), d, S n).
Proof.
  intros H. unfold EmotionDetector.perform_analysis, Py.bind, Py.get_self.
  by rewrite H.
Qed.

Lemma perform_analysis_remote_raises (R : Runtime) remote text key
    (d : EmotionDetector.t) n :
  EmotionDetector.client d = true ->
  remote (EmotionDetector._build_prompt text) = RemoteRaises ->
  EmotionDetector.perform_analysis R remote text key d n =
  (Py.Return (EmotionDetector.last_emotion d), d, n).
Proof.
  intros H Hr.
  unfold EmotionDetector.perform_analysis, Py.bind, Py.get_self,
    Py.try_except, EmotionDetector._analyze_with_gemini.
  by rewrite H, Hr.
Qed.

(** A successful analysis: the call is recorded, the result becomes the
    last known one and is cached. *)
Lemma perform_analysis_remote_answers (R : Runtime) remote text key
    (d : EmotionDetector.t) n response r :
  EmotionDetector.client d = true ->
  remote (EmotionDetector._build_prompt text) = RemoteText response ->
  EmotionDetector._parse_response R response d n = (Py.Return r, d, S n) ->
  exists d',
    EmotionDetector.perform_analysis R remote text key d n =
      (Py.Return r, d', S (S (S (S n))))
    /\ EmotionDetector.last_emotion d' = r
    /\ EmotionDetector.last_analysis_time d' = time_at R (S (S n))
    /\ EmotionDetector.client d' = true
    /\ EmotionDetector.min_analysis_interval d' =
       EmotionDetector.min_analysis_interval d
    /\ EmotionDetector.rate_limiter d' =
       RateLimiter.set_calls
         (RateLimiter.calls (EmotionDetector.rate_limiter d)
            ++ [time_at R (S n)]) (EmotionDetector.rate_limiter d)
    /\ EmotionCache.cache (EmotionDetector.cache d') =
       <[key := {| EmotionCache.entry_emotion := r;
                   EmotionCache.entry_timestamp := time_at R (S (S (S n))) |}]>
         (EmotionCache.cache (EmotionDetector.cache d)).
Proof.
  intros H Hr Hp.
  unfold EmotionDetector.perform_analysis, Py.bind, Py.get_self,
    Py.try_except, EmotionDetector._analyze_with_gemini.
  rewrite H, Hr. simpl. rewrite Hp. simpl.
  eexists. split; [reflexivity|]. simpl. done.
Qed.

(** *** Debounce *)

(** C5, as stated, fails: two calls without [force], three seconds apart
    with a minimum interval of five, return happy and sad.  The earlier
    one is within the interval of the last analysis, the later one is
    not. *)
Lemma calls_close_together_may_differ :
  (time_at Sample.runtime 10 - time_at Sample.runtime 7
   < inject_Z MIN_ANALYSIS_INTERVAL)%Q
  /\ fst (fst Sample.second_call) =
     Py.Return {| emotion := "happy"; confidence := 0.9;
                  intensity := 0.7; valence := 8 # 10;
                  arousal := 6 # 10; detected_at := "1003" |}
  /\ fst (fst Sample.third_call) =
     Py.Return {| emotion := "sad"; confidence := 0.8;
                  intensity := 0.6; valence := - (7 # 10);
                  arousal := 3 # 10; detected_at := "1012" |}
  /\ fst (fst Sample.second_call) <> fst (fst Sample.third_call).
Proof.
  split; [by vm_compute|]. split; [by vm_compute|]. split; [by vm_compute|].
  vm_compute. discriminate.
Qed.

(** C5, as amended.  A call without [force] made less than the minimum
    interval after the last successful analysis returns the last known
    result and leaves the detector as it was, whatever the text and
    whatever the remote service would answer; two such calls return the
    same result. *)
Theorem detect_emotion_debounce (R : Runtime)
    (remote1 remote2 : string -> RemoteOutcome) (text1 text2 : string)
    (d : EmotionDetector.t) (n m : nat) :
  EmotionDetector.within_interval R d n ->
  EmotionDetector.within_interval R d m ->
  EmotionDetector.detect_emotion R remote1 text1 false d n =
    (Py.Return (EmotionDetector.last_emotion d), d, S n)
  /\ EmotionDetector.detect_emotion R remote2 text2 false d m =
    (Py.Return (EmotionDetector.last_emotion d), d, S m).
Proof.
  intros Hn Hm. split; by apply detect_emotion_too_soon.
Qed.

Lemma detect_emotion_debounce_witness :
  EmotionDetector.detect_emotion Sample.runtime Sample.remote_sad "oh no"
    false Sample.after_first 7 =
    (Py.Return (EmotionDetector.last_emotion Sample.after_first),
     Sample.after_first, 8%nat)
  /\ EmotionDetector.detect_emotion Sample.runtime Sample.remote_garbage
       "what is this?" false Sample.after_first 8 =
    (Py.Return (EmotionDetector.last_emotion Sample.after_first),
     Sample.after_first, 9%nat).
Proof.
  apply (detect_emotion_debounce Sample.runtime Sample.remote_sad
           Sample.remote_garbage "oh no" "what is this?"
           Sample.after_first 7 8); by vm_compute.
Defined.

(** *** Fallbacks *)

(** C3, as stated, fails: the last known result is happy, the answer of
    the remote service is not JSON, and the call returns neutral.  And a
    detector without a client returns a neutral result of its own, stamped
    at the call, not the one it keeps as last known. *)
Lemma malformed_response_returns_neutral :
  (emotion (EmotionDetector.last_emotion Sample.after_first) = "happy"
   /\ EmotionDetector.parse_fields Sample.runtime Sample.garbage_text = None
   /\ fst (fst Sample.garbage_call) =
      Py.Return (EmotionDetector.neutral_at "1008")
   /\ fst (fst Sample.garbage_call) <>
      Py.Return (EmotionDetector.last_emotion Sample.after_first))
  /\ (EmotionDetector.last_emotion (fst Sample.detector_without_client) =
        EmotionDetector.neutral_at "1000"
      /\ fst (fst Sample.call_without_client) =
         Py.Return (EmotionDetector.neutral_at "1003")
      /\ fst (fst Sample.call_without_client) <>
         Py.Return
           (EmotionDetector.last_emotion (fst Sample.detector_without_client))).
Proof.
  split.
  - split; [by vm_compute|]. split; [by vm_compute|]. split; [by vm_compute|].
    vm_compute. discriminate.
  - split; [by vm_compute|]. split; [by vm_compute|].
    vm_compute. discriminate.
Qed.

(** C3, as amended.  For a call that gets past the three checks: without
    a client it returns the neutral default and keeps the last known
    result; when the remote call raises it returns the last known result;
    in both cases the detector is as the checks left it: no call is
    recorded and nothing is cached.  When the answer cannot be parsed it
    returns the neutral default, and that is recorded as a successful
    analysis: one call is added to the limiter, the time of the last
    analysis is set, the neutral default becomes the last known result
    and is cached under the key of the text.  The checks themselves
    leave the last known result alone.  An answer that is not JSON, or
    not a JSON object, cannot be parsed. *)
Theorem analysis_fallbacks (R : Runtime) (remote : string -> RemoteOutcome)
    (text : string) (force : bool) (d : EmotionDetector.t) (n : nat)
    (d3 : EmotionDetector.t) (n3 : nat) :
  EmotionDetector.passes_checks R text force d n = Some (d3, n3) ->
  (EmotionDetector.client d = false ->
     EmotionDetector.detect_emotion R remote text force d n =
     (Py.Return (EmotionDetector.neutral_at (utcnow_at R n3)), d3, S n3))
  /\ (EmotionDetector.client d = true ->
      remote (EmotionDetector._build_prompt text) = RemoteRaises ->
      EmotionDetector.detect_emotion R remote text force d n =
      (Py.Return (EmotionDetector.last_emotion d), d3, n3))
  /\ (EmotionDetector.client d = true ->
      forall response,
        remote (EmotionDetector._build_prompt text) = RemoteText response ->
        EmotionDetector.parse_fields R response = None ->
        exists d4,
          EmotionDetector.detect_emotion R remote text force d n =
          (Py.Return (EmotionDetector.neutral_at (utcnow_at R n3)), d4,
           S (S (S (S n3))))
          /\ EmotionDetector.last_emotion d4 =
             EmotionDetector.neutral_at (utcnow_at R n3)
          /\ EmotionDetector.last_analysis_time d4 = time_at R (S (S n3))
          /\ RateLimiter.calls (EmotionDetector.rate_limiter d4) =
             RateLimiter.calls (EmotionDetector.rate_limiter d3)
               ++ [time_at R (S n3)]
          /\ EmotionCache.cache (EmotionDetector.cache d4) =
             <[EmotionDetector.text_hash_of R text :=
                 {| EmotionCache.entry_emotion :=
                      EmotionDetector.neutral_at (utcnow_at R n3);
                    EmotionCache.entry_timestamp :=
                      time_at R (S (S (S n3))) |}]>
               (EmotionCache.cache (EmotionDetector.cache d3)))
  /\ EmotionDetector.last_emotion d3 = EmotionDetector.last_emotion d
  /\ (forall response,
        json_loads R (EmotionDetector.strip_code_block response) = None
        \/ (exists v,
              json_loads R (EmotionDetector.strip_code_block response) = Some v
              /\ forall members, v <> JObj members) ->
        EmotionDetector.parse_fields R response = None).
Proof.
  intros Hp.
  destruct (passes_checks_frame _ _ _ _ _ _ _ Hp) as (Hc & Hl & _).
  rewrite (detect_emotion_analysis _ remote _ _ _ _ _ _ Hp).
  split; [|split; [|split; [|split; [exact Hl|]]]].
  - intros H. apply perform_analysis_no_client. congruence.
  - intros H Hr. rewrite <- Hl.
    apply perform_analysis_remote_raises; congruence.
  - intros H response Hr Hf.
    destruct (perform_analysis_remote_answers R remote text
                (EmotionDetector.text_hash_of R text) d3 n3 response
                (EmotionDetector.neutral_at (utcnow_at R n3)))
      as (d4 & E & Hl4 & Ht4 & _ & _ & Hr4 & Hc4); [congruence|done| |].
    + rewrite parse_response_run. by rewrite Hf.
    + exists d4. split; [exact E|]. split; [exact Hl4|].
      split; [exact Ht4|]. split; [by rewrite Hr4|exact Hc4].
  - intros response [Hj|(v & Hj & Hv)];
      unfold EmotionDetector.parse_fields; rewrite Hj; [done|].
    destruct v; try done. by destruct (Hv members).
Qed.

Lemma analysis_fallbacks_witness :
  EmotionDetector.detect_emotion Sample.runtime Sample.remote_down
    "what is this?" true Sample.after_first 7 =
  (Py.Return (EmotionDetector.last_emotion Sample.after_first),
   Sample.after_first, 8%nat).
Proof.
  refine (proj1 (proj2 (analysis_fallbacks Sample.runtime Sample.remote_down
            "what is this?" true Sample.after_first 7
            Sample.after_first 8 _)) _ _); by vm_compute.
Defined.

(** *** Never failing outward *)

Lemma time_until_next_call_run (R : Runtime) (l : RateLimiter.t) n :
  RateLimiter.time_until_next_call R l n =
  let kept := RateLimiter.in_window l (time_at R n) in
  let l' := RateLimiter.set_calls kept l in
  if (Z.of_nat (length kept) <? RateLimiter.max_calls l)%Z
  then (Py.Return 0%Q, l', S n)
  else match RateLimiter.py_min kept with
       | None => (Py.Raise ValueError, l', S n)
       | Some oldest =>
           (Py.Return (inject_Z (RateLimiter.time_window l)
                       - (time_at R (S n) - oldest))%Q, l', S (S n))
       end.
Proof.
  unfold RateLimiter.time_until_next_call, Py.bind. rewrite can_call_run.
  simpl. destruct (_ <? _)%Z; [done|].
  unfold Py.get_self. simpl. by destruct (RateLimiter.py_min _).
Qed.

(** C1.  A detector built with [rate_limit_calls = 0] raises [ValueError]
    on its first forced call, whatever the text, the client and the remote
    service: [can_call] is false with no call recorded, and
    [time_until_next_call] takes the minimum of an empty list outside the
    [try] block. *)
Theorem detect_emotion_raises_without_quota (R : Runtime)
    (remote : string -> RemoteOutcome) (text : string) (client_ok : bool)
    (rate_limit_window cache_ttl min_analysis_interval : Z) (n : nat) :
  EmotionDetector.detect_emotion R remote text true
    (fst (EmotionDetector.init R client_ok 0 rate_limit_window cache_ttl
            min_analysis_interval n))
    (S n) =
  (Py.Raise ValueError,
   fst (EmotionDetector.init R client_ok 0 rate_limit_window cache_ttl
          min_analysis_interval n),
   S (S (S n))).
Proof.
  unfold EmotionDetector.detect_emotion.
  unfold Py.bind at 1. rewrite too_soon_run.
  unfold Py.bind at 1. rewrite on_cache_run, cache_get_run.
  simpl. rewrite lookup_empty.
  unfold Py.bind at 1. rewrite on_rate_limiter_run, can_call_run. simpl.
  unfold Py.bind at 1. rewrite on_rate_limiter_run, time_until_next_call_run.
  reflexivity.
Qed.

(** The same detector, built and called with the defaults of the
    session handler apart from the quota. *)
Example detect_emotion_raises_by_default :
  fst (fst (EmotionDetector.detect_emotion Sample.runtime Sample.remote_happy
              "Hello there" false
              (fst (EmotionDetector.init Sample.runtime true 0
                      RATE_LIMIT_WINDOW EMOTION_CACHE_TTL
                      MIN_ANALYSIS_INTERVAL 0))
              1)) = Py.Raise ValueError.
Proof. by vm_compute. Qed.

Lemma py_min_nonempty (xs : list Q) :
  xs <> [] -> exists x, RateLimiter.py_min xs = Some x.
Proof. destruct xs; [done|]. simpl. eauto. Qed.

Lemma time_until_next_call_returns (R : Runtime) (l : RateLimiter.t) n :
  (0 < RateLimiter.max_calls l)%Z ->
  exists w l' n',
    RateLimiter.time_until_next_call R l n = (Py.Return w, l', n')
    /\ RateLimiter.max_calls l' = RateLimiter.max_calls l.
Proof.
  intros Hmax. rewrite time_until_next_call_run. simpl.
  destruct (Z.ltb_spec
              (Z.of_nat (length (RateLimiter.in_window l (time_at R n))))
              (RateLimiter.max_calls l)) as [Hlt|Hge].
  - eauto.
  - destruct (py_min_nonempty (RateLimiter.in_window l (time_at R n)))
      as [x ->]; [|eauto].
    intros E. rewrite E in Hge. simpl in Hge. lia.
Qed.

Lemma well_formed_set_rate_limiter (l : RateLimiter.t) (d : EmotionDetector.t) :
  EmotionDetector.well_formed d ->
  EmotionDetector.well_formed (EmotionDetector.set_rate_limiter l d).
Proof. done. Qed.

Lemma valid_neutral (now : string) :
  EmotionDetector.valid_result (EmotionDetector.neutral_at now).
Proof. by apply (bool_decide_unpack _). Qed.

Lemma init_well_formed (R : Runtime) client_ok calls window ttl interval n :
  EmotionDetector.well_formed
    (fst (EmotionDetector.init R client_ok calls window ttl interval n)).
Proof. split; [apply valid_neutral|apply map_Forall_empty]. Qed.

Lemma perform_analysis_returns (R : Runtime) remote text key
    (d : EmotionDetector.t) n :
  EmotionDetector.well_formed d ->
  exists r d' n',
    EmotionDetector.perform_analysis R remote text key d n
      = (Py.Return r, d', n')
    /\ EmotionDetector.valid_result r
    /\ EmotionDetector.well_formed d'
    /\ RateLimiter.max_calls (EmotionDetector.rate_limiter d') =
       RateLimiter.max_calls (EmotionDetector.rate_limiter d).
Proof.
  intros [Hl Hc].
  destruct (EmotionDetector.client d) eqn:Hcl.
  - destruct (remote (EmotionDetector._build_prompt text)) as [|response] eqn:Hr.
    + rewrite perform_analysis_remote_raises by done.
      do 3 eexists. by repeat split.
    + destruct (parse_response_valid R response d n) as (r & Hp & Hv).
      destruct (perform_analysis_remote_answers R remote text key d n
                  response r Hcl Hr Hp)
        as (d' & -> & Hl' & _ & _ & _ & Hrl & Hca).
      exists r, d', (S (S (S (S n)))). split; [done|]. split; [done|].
      split; [|by rewrite Hrl].
      split; [by rewrite Hl'|]. rewrite Hca.
      by apply map_Forall_insert_2.
  - rewrite perform_analysis_no_client by done.
    do 3 eexists. split; [done|]. split; [apply valid_neutral|done].
Qed.

(** With a quota of at least one call, [detect_emotion] returns, and what
    it returns and keeps carries one of the eight labels. *)
Theorem detect_emotion_returns_valid_label (R : Runtime)
    (remote : string -> RemoteOutcome) (text : string) (force : bool)
    (d : EmotionDetector.t) (n : nat) :
  EmotionDetector.well_formed d ->
  (0 < RateLimiter.max_calls (EmotionDetector.rate_limiter d))%Z ->
  exists r d' n',
    EmotionDetector.detect_emotion R remote text force d n
      = (Py.Return r, d', n')
    /\ is_valid_emotion (emotion r) = true
    /\ EmotionDetector.well_formed d'
    /\ RateLimiter.max_calls (EmotionDetector.rate_limiter d') =
       RateLimiter.max_calls (EmotionDetector.rate_limiter d).
Proof.
  intros Hwf Hmax.
  cut (exists r d' n',
    EmotionDetector.detect_emotion R remote text force d n
      = (Py.Return r, d', n')
    /\ EmotionDetector.valid_result r
    /\ EmotionDetector.well_formed d'
    /\ RateLimiter.max_calls (EmotionDetector.rate_limiter d') =
       RateLimiter.max_calls (EmotionDetector.rate_limiter d)).
  { intros (r & d' & n' & E & Hv & H). exists r, d', n'.
    split; [done|]. split; [|done]. by apply bool_decide_eq_true. }
  assert (Hrest : forall d2 n2,
    EmotionDetector.well_formed d2 ->
    RateLimiter.max_calls (EmotionDetector.rate_limiter d2) =
    RateLimiter.max_calls (EmotionDetector.rate_limiter d) ->
    exists r d' n',
      (Py.bind (EmotionDetector.on_rate_limiter (RateLimiter.can_call R))
         (fun ok : bool =>
            if negb ok then
              Py.bind (EmotionDetector.on_rate_limiter
                         (RateLimiter.time_until_next_call R))
                (fun _ => Py.bind Py.get_self
                   (fun self => Py.ret (EmotionDetector.last_emotion self)))
            else EmotionDetector.perform_analysis R remote text
                   (EmotionDetector.text_hash_of R text)) d2 n2)
      = (Py.Return r, d', n')
      /\ EmotionDetector.valid_result r
      /\ EmotionDetector.well_formed d'
      /\ RateLimiter.max_calls (EmotionDetector.rate_limiter d') =
         RateLimiter.max_calls (EmotionDetector.rate_limiter d)).
  { intros d2 n2 Hwf2 Hmax2.
    unfold Py.bind at 1. rewrite on_rate_limiter_run, can_call_run.
    destruct (_ <? _)%Z; cbn [negb]; cbv beta iota.
    - destruct (perform_analysis_returns R remote text
                  (EmotionDetector.text_hash_of R text)
                  (EmotionDetector.set_rate_limiter
                     (RateLimiter.set_calls
                        (RateLimiter.in_window
                           (EmotionDetector.rate_limiter d2) (time_at R n2))
                        (EmotionDetector.rate_limiter d2)) d2) (S n2))
        as (r & d' & n' & E & Hv & Hwf' & Hm'); [done|].
      exists r, d', n'. split; [done|]. split; [done|]. split; [done|].
      by rewrite Hm'.
    - unfold Py.bind at 1. rewrite on_rate_limiter_run.
      cbn [EmotionDetector.rate_limiter EmotionDetector.set_rate_limiter].
      destruct (time_until_next_call_returns R
                  (RateLimiter.set_calls
                     (RateLimiter.in_window
                        (EmotionDetector.rate_limiter d2) (time_at R n2))
                     (EmotionDetector.rate_limiter d2)) (S n2))
        as (w & l' & n' & -> & Hm'); [simpl; lia|].
      do 3 eexists. split; [reflexivity|]. simpl.
      split; [apply Hwf2|]. split; [done|]. by rewrite Hm'. }
  unfold EmotionDetector.detect_emotion.
  unfold Py.bind at 1. rewrite too_soon_run.
  assert (Hgo : forall n1,
    exists r d' n',
      (Py.bind (EmotionDetector.on_cache
                  (EmotionCache.get R (EmotionDetector.text_hash_of R text)))
         (fun cached_emotion =>
            match cached_emotion with
            | Some cached => Py.ret cached
            | None =>
                Py.bind (EmotionDetector.on_rate_limiter (RateLimiter.can_call R))
                  (fun ok : bool =>
                     if negb ok then
                       Py.bind (EmotionDetector.on_rate_limiter
                                  (RateLimiter.time_until_next_call R))
                         (fun _ => Py.bind Py.get_self
                            (fun self =>
                               Py.ret (EmotionDetector.last_emotion self)))
                     else EmotionDetector.perform_analysis R remote text
                            (EmotionDetector.text_hash_of R text))
            end) d n1)
      = (Py.Return r, d', n')
      /\ EmotionDetector.valid_result r
      /\ EmotionDetector.well_formed d'
      /\ RateLimiter.max_calls (EmotionDetector.rate_limiter d') =
         RateLimiter.max_calls (EmotionDetector.rate_limiter d)).
  { intros n1. unfold Py.bind at 1. rewrite on_cache_run, cache_get_run.
    destruct (EmotionCache.cache (EmotionDetector.cache d) !! _) as [e|] eqn:He.
    - destruct (Qltb _ _).
      + apply Hrest; [|done]. split; [apply Hwf|].
        apply map_Forall_delete, Hwf.
      + do 3 eexists. split; [reflexivity|].
        split; [|split; [|done]].
        * destruct Hwf as [_ Hc]. exact (Hc _ _ He).
        * by destruct d as [? ? []].
    - apply Hrest; [|done]. by destruct d as [? ? []]. }
  destruct force.
  - apply Hgo.
  - destruct (Qltb _ _).
    + do 3 eexists. split; [reflexivity|]. split; [apply Hwf|done].
    + apply Hgo.
Qed.

Lemma detect_emotion_returns_valid_label_witness :
  exists r d' n',
    EmotionDetector.detect_emotion Sample.runtime Sample.remote_garbage
      "what is this?" true Sample.after_first 7 = (Py.Return r, d', n')
    /\ is_valid_emotion (emotion r) = true
    /\ EmotionDetector.well_formed d'
    /\ RateLimiter.max_calls (EmotionDetector.rate_limiter d') =
       RateLimiter.max_calls (EmotionDetector.rate_limiter Sample.after_first).
Proof.
  apply (detect_emotion_returns_valid_label Sample.runtime
           Sample.remote_garbage "what is this?" true Sample.after_first 7).
  - split.
    + by apply (bool_decide_unpack _).
    + apply map_Forall_insert_2; [|apply map_Forall_empty].
      by apply (bool_decide_unpack _).
  - by vm_compute.
Defined.

(** *** Instances *)

Lemma should_check_in_spec_witness :
  PersonalityAdapter.should_check_in
    (Sample.adapter_with ["sad"; "angry"; "anxious"]) = true.
Proof.
  exact (proj1 (proj1 (proj2 should_check_in_spec)
                  (Sample.adapter_with ["sad"; "angry"; "anxious"]) []
                  (Sample.entry "sad") (Sample.entry "angry")
                  (Sample.entry "anxious") eq_refl eq_refl eq_refl)
               eq_refl).
Defined.

Lemma get_dominant_emotion_spec_witness :
  PersonalityAdapter.get_dominant_emotion
    (Sample.adapter_with ["happy"; "sad"; "happy"; "sad"]) = "happy"
  /\ PersonalityAdapter.get_dominant_emotion
       (Sample.adapter_with
          ["sad"; "sad"; "sad"; "sad"; "angry"; "angry"; "angry"]) = "angry".
Proof.
  split.
  - exact (proj1 (proj2 (proj2 get_dominant_emotion_spec))
                 (Sample.adapter_with ["happy"; "sad"; "happy"; "sad"])
                 eq_refl).
  - exact (proj2 (proj2 (proj2 get_dominant_emotion_spec))
                 (Sample.adapter_with
                    ["sad"; "sad"; "sad"; "sad"; "angry"; "angry"; "angry"])
                 eq_refl).
Defined.

Lemma adapt_instructions_gating_witness :
  fst (PersonalityAdapter.adapt_instructions
         (PersonalityAdapter.init "teacher") "You are a helpful teacher."
         Sample.unsure_data CONFIDENCE_THRESHOLD)
  = "You are a helpful teacher."
  /\ fst (PersonalityAdapter.adapt_instructions
            (PersonalityAdapter.init "consultant")
            "You are a helpful teacher."
            Sample.confused_data CONFIDENCE_THRESHOLD)
     = "You are a helpful teacher.

CURRENT USER EMOTIONAL STATE: CONFUSED (confidence: 80%)

ADAPT YOUR RESPONSE ACCORDINGLY:
The client needs clarity. Slow down, simplify your points, and ensure understanding before proceeding.

Remember to maintain your core personality while being sensitive to the user's emotional state.
".
Proof.
  split.
  - apply (proj1 (adapt_instructions_gating
                    (PersonalityAdapter.init "teacher")
                    "You are a helpful teacher." Sample.unsure_data
                    CONFIDENCE_THRESHOLD)).
    reflexivity.
  - destruct (proj1 (proj2 (adapt_instructions_gating
                    (PersonalityAdapter.init "consultant")
                    "You are a helpful teacher." Sample.confused_data
                    CONFIDENCE_THRESHOLD))
                "The client needs clarity. Slow down, simplify your points, and ensure understanding before proceeding.")
      as [H _].
    + reflexivity.
    + by vm_compute.
    + rewrite H. by vm_compute.
Defined.

(** *** The cache key *)

Lemma append_cons (c : ascii) (s t : string) :
  String c s +:+ t = String c (s +:+ t).
Proof. reflexivity. Qed.

Lemma length_append (s t : string) :
  String.length (s +:+ t) = (String.length s + String.length t)%nat.
Proof.
  induction s as [|c s IH]; [done|].
  rewrite append_cons. simpl. by rewrite IH.
Qed.

Lemma lower_upper_char (c : ascii) :
  PyStr.lower_char (PyStr.upper_char c) = PyStr.lower_char c.
Proof. by destruct c as [[] [] [] [] [] [] [] []]. Qed.

Lemma lower_lower_char (c : ascii) :
  PyStr.lower_char (PyStr.lower_char c) = PyStr.lower_char c.
Proof. by destruct c as [[] [] [] [] [] [] [] []]. Qed.

Lemma lower_space_char (c : ascii) :
  PyStr.isspace c = true -> PyStr.lower_char c = c.
Proof. by destruct c as [[] [] [] [] [] [] [] []]. Qed.

Lemma isspace_lower_char (c : ascii) :
  PyStr.isspace (PyStr.lower_char c) = PyStr.isspace c.
Proof. by destruct c as [[] [] [] [] [] [] [] []]. Qed.

Lemma lower_upper (s : string) : PyStr.lower (PyStr.upper s) = PyStr.lower s.
Proof.
  induction s as [|c s IH]; [done|].
  cbn. f_equal; [apply lower_upper_char|exact IH].
Qed.

Lemma lower_lower (s : string) : PyStr.lower (PyStr.lower s) = PyStr.lower s.
Proof.
  induction s as [|c s IH]; [done|].
  cbn. f_equal; [apply lower_lower_char|exact IH].
Qed.

Lemma lower_app (s t : string) :
  PyStr.lower (s +:+ t) = PyStr.lower s +:+ PyStr.lower t.
Proof.
  induction s as [|c s IH]; [done|].
  change (PyStr.lower (String c (s +:+ t)) =
          String (PyStr.lower_char c) (PyStr.lower s +:+ PyStr.lower t)).
  cbn. f_equal. exact IH.
Qed.

Lemma lower_all_space (s : string) :
  PyStr.all_space s = true -> PyStr.lower s = s.
Proof.
  induction s as [|c s IH]; [done|].
  cbn. intros [Hc Hs]%andb_true_iff.
  f_equal; [by apply lower_space_char|by apply IH].
Qed.

Lemma lstrip_all_space (s : string) :
  PyStr.all_space s = true -> PyStr.lstrip s = EmptyString.
Proof.
  induction s as [|c s IH]; [done|].
  cbn. intros [-> Hs]%andb_true_iff. by apply IH.
Qed.

Lemma rstrip_all_space (s : string) :
  PyStr.all_space s = true -> PyStr.rstrip s = EmptyString.
Proof.
  induction s as [|c s IH]; [done|].
  cbn. intros [-> Hs]%andb_true_iff. by rewrite IH.
Qed.

Lemma lstrip_app_space (ws s : string) :
  PyStr.all_space ws = true -> PyStr.lstrip (ws +:+ s) = PyStr.lstrip s.
Proof.
  induction ws as [|c ws IH]; [done|].
  rewrite append_cons. cbn. intros [-> Hs]%andb_true_iff. by apply IH.
Qed.

Lemma rstrip_app_space (s ws : string) :
  PyStr.all_space ws = true -> PyStr.rstrip (s +:+ ws) = PyStr.rstrip s.
Proof.
  intros Hws. induction s as [|c s IH].
  - by apply rstrip_all_space.
  - rewrite append_cons. cbn. by rewrite IH.
Qed.

Lemma lstrip_app (s t : string) :
  PyStr.lstrip (s +:+ t) =
  match PyStr.lstrip s with
  | EmptyString => PyStr.lstrip t
  | String c r => String c r +:+ t
  end.
Proof.
  induction s as [|c s IH]; [reflexivity|].
  rewrite append_cons. cbn. by destruct (PyStr.isspace c).
Qed.

Lemma strip_pad (pre s post : string) :
  PyStr.all_space pre = true -> PyStr.all_space post = true ->
  PyStr.strip (pre +:+ s +:+ post) = PyStr.strip s.
Proof.
  intros Hpre Hpost. unfold PyStr.strip.
  rewrite lstrip_app_space by done. rewrite lstrip_app.
  destruct (PyStr.lstrip s) as [|c r].
  - by rewrite lstrip_all_space.
  - by apply rstrip_app_space.
Qed.

(** The cache key ignores letter case and the white space around the
    text. *)
Theorem text_hash_ignores_case_and_padding (R : Runtime)
    (pre text post : string) :
  PyStr.all_space pre = true ->
  PyStr.all_space post = true ->
  EmotionDetector.text_hash_of R (pre +:+ text +:+ post) =
    EmotionDetector.text_hash_of R text
  /\ EmotionDetector.text_hash_of R (pre +:+ PyStr.upper text +:+ post) =
    EmotionDetector.text_hash_of R text
  /\ EmotionDetector.text_hash_of R (pre +:+ PyStr.lower text +:+ post) =
    EmotionDetector.text_hash_of R text.
Proof.
  intros Hpre Hpost.
  assert (H : forall t, PyStr.lower t = PyStr.lower text ->
    EmotionDetector.text_hash_of R (pre +:+ t +:+ post) =
    EmotionDetector.text_hash_of R text).
  { intros t Ht. unfold EmotionDetector.text_hash_of.
    rewrite !lower_app, Ht, (lower_all_space pre), (lower_all_space post)
      by done.
    by rewrite strip_pad. }
  split; [by apply H|]. split; apply H.
  - apply lower_upper.
  - apply lower_lower.
Qed.

Lemma text_hash_ignores_case_and_padding_witness :
  EmotionDetector.text_hash_of Sample.runtime "  HELLO  " =
  EmotionDetector.text_hash_of Sample.runtime "Hello".
Proof.
  exact (proj1 (proj2 (text_hash_ignores_case_and_padding Sample.runtime
                         "  " "Hello" "  " eq_refl eq_refl))).
Defined.

(** *** The cache *)

(** [get] serves an entry only while its age is within the time-to-live,
    and then leaves the cache as it is; otherwise the key is absent
    afterwards and no other key is touched.  It never raises. *)
Theorem cache_get_serves_only_fresh_entries (R : Runtime) (k : string)
    (c : EmotionCache.t) (n : nat) :
  (exists e,
      EmotionCache.cache c !! k = Some e
      /\ (time_at R n - EmotionCache.entry_timestamp e
          <= inject_Z (EmotionCache.ttl_seconds c))%Q
      /\ EmotionCache.get R k c n =
         (Py.Return (Some (EmotionCache.entry_emotion e)), c, S n))
  \/ (exists c' n',
      EmotionCache.get R k c n = (Py.Return None, c', n')
      /\ EmotionCache.cache c' !! k = None
      /\ EmotionCache.ttl_seconds c' = EmotionCache.ttl_seconds c
      /\ (forall k', k' <> k ->
            EmotionCache.cache c' !! k' = EmotionCache.cache c !! k')
      /\ (EmotionCache.cache c !! k = None -> c' = c /\ n' = n)).
Proof.
  rewrite cache_get_run.
  destruct (EmotionCache.cache c !! k) as [e|] eqn:He.
  - destruct (Qltb _ _) eqn:Hq.
    + right. do 2 eexists. split; [reflexivity|]. simpl.
      split; [apply lookup_delete_eq|]. split; [done|].
      split; [|done]. intros k' Hk. by apply lookup_delete_ne.
    + left. exists e. split; [done|]. split; [|done].
      by apply Qltb_false_iff.
  - right. exists c, n. by repeat split.
Qed.

(** What [set] stores under a key is what [get] returns for it until the
    time-to-live has passed; after that [get] returns nothing and drops
    the entry.  [set] touches no other key. *)
Theorem cache_set_then_get (R : Runtime) (k : string) (r : EmotionResult)
    (c : EmotionCache.t) (n m : nat) :
  let c' := snd (fst (EmotionCache.set R k r c n)) in
  ((time_at R m - time_at R n <= inject_Z (EmotionCache.ttl_seconds c))%Q ->
     EmotionCache.get R k c' m = (Py.Return (Some r), c', S m))
  /\ ((inject_Z (EmotionCache.ttl_seconds c) < time_at R m - time_at R n)%Q ->
      exists c'',
        EmotionCache.get R k c' m = (Py.Return None, c'', S m)
        /\ EmotionCache.cache c'' !! k = None
        /\ forall k', k' <> k ->
             EmotionCache.cache c'' !! k' = EmotionCache.cache c !! k')
  /\ (forall k', k' <> k ->
        EmotionCache.cache c' !! k' = EmotionCache.cache c !! k').
Proof.
  intros c'. unfold c'. rewrite cache_set_run. simpl.
  split; [|split].
  - intros H. apply Qltb_false_iff in H.
    rewrite cache_get_run. simpl. rewrite lookup_insert_eq. simpl.
    by rewrite H.
  - intros H. apply Qltb_true_iff in H.
    rewrite cache_get_run. simpl. rewrite lookup_insert_eq. simpl.
    rewrite H. eexists. split; [reflexivity|]. simpl.
    split; [apply lookup_delete_eq|].
    intros k' Hk. rewrite lookup_delete_ne, lookup_insert_ne by done. done.
  - intros k' Hk. by rewrite lookup_insert_ne.
Qed.

Lemma cache_set_then_get_witness :
  EmotionCache.get Sample.runtime "12"
    (snd (fst (EmotionCache.set Sample.runtime "12"
                 (EmotionDetector.neutral_at "1000")
                 (EmotionCache.init EMOTION_CACHE_TTL) 0))) 30
  = (Py.Return (Some (EmotionDetector.neutral_at "1000")),
     snd (fst (EmotionCache.set Sample.runtime "12"
                 (EmotionDetector.neutral_at "1000")
                 (EmotionCache.init EMOTION_CACHE_TTL) 0)), 31%nat)
  /\ exists c'',
       EmotionCache.get Sample.runtime "12"
         (snd (fst (EmotionCache.set Sample.runtime "12"
                      (EmotionDetector.neutral_at "1000")
                      (EmotionCache.init EMOTION_CACHE_TTL) 0))) 31
       = (Py.Return None, c'', 32%nat)
       /\ EmotionCache.cache c'' !! "12" = None
       /\ forall k', k' <> "12" ->
            EmotionCache.cache c'' !! k' =
            EmotionCache.cache (EmotionCache.init EMOTION_CACHE_TTL) !! k'.
Proof.
  split.
  - apply (proj1 (cache_set_then_get Sample.runtime "12"
                    (EmotionDetector.neutral_at "1000")
                    (EmotionCache.init EMOTION_CACHE_TTL) 0 30)).
    by vm_compute.
  - apply (proj1 (proj2 (cache_set_then_get Sample.runtime "12"
                    (EmotionDetector.neutral_at "1000")
                    (EmotionCache.init EMOTION_CACHE_TTL) 0 31))).
    by vm_compute.
Defined.

Lemma clear_old_fold (ks : list string) (c : EmotionCache.t) :
  fold_left
    (fun self key =>
       EmotionCache.set_cache (delete key (EmotionCache.cache self)) self)
    ks c =
  EmotionCache.set_cache
    (fold_left (fun m key => delete key m) ks (EmotionCache.cache c)) c.
Proof.
  revert c. induction ks as [|k ks IH]; intros c; [by destruct c|].
  simpl. by rewrite IH.
Qed.

Lemma lookup_fold_delete (ks : list string) (m : gmap string EmotionCache.entry)
    (k : string) :
  fold_left (fun m key => delete key m) ks m !! k =
  if decide (k ∈ ks) then None else m !! k.
Proof.
  revert m. induction ks as [|k0 ks IH]; intros m; [done|].
  simpl. rewrite IH.
  destruct (decide (k ∈ ks)) as [Hin|Hin].
  - rewrite decide_True; [done|by right].
  - destruct (decide (k = k0)) as [->|Hne].
    + rewrite decide_True by left. apply lookup_delete_eq.
    + rewrite decide_False; [by apply lookup_delete_ne|].
      intros [?|?]%elem_of_cons; done.
Qed.

Lemma clear_old_run (R : Runtime) (c : EmotionCache.t) (n : nat) :
  EmotionCache.clear_old R c n =
  (Py.Return tt,
   EmotionCache.set_cache
     (fold_left (fun m key => delete key m)
        (fst <$> List.filter
                   (fun kv => EmotionCache.expired c (time_at R n) (snd kv))
                   (map_to_list (EmotionCache.cache c)))
        (EmotionCache.cache c)) c,
   S n).
Proof.
  unfold EmotionCache.clear_old, Py.bind, Py.time_time, Py.get_self,
    Py.modify.
  by rewrite clear_old_fold.
Qed.

(** [clear_old] removes exactly the entries whose age exceeds the
    time-to-live at the time it reads, and keeps every other entry as it
    is. *)
Theorem clear_old_removes_exactly_the_expired (R : Runtime)
    (c : EmotionCache.t) (n : nat) :
  exists c',
    EmotionCache.clear_old R c n = (Py.Return tt, c', S n)
    /\ EmotionCache.ttl_seconds c' = EmotionCache.ttl_seconds c
    /\ (forall k e,
          EmotionCache.cache c' !! k = Some e <->
          EmotionCache.cache c !! k = Some e /\
          (time_at R n - EmotionCache.entry_timestamp e
           <= inject_Z (EmotionCache.ttl_seconds c))%Q).
Proof.
  rewrite clear_old_run. eexists. split; [reflexivity|]. split; [done|].
  intros k e. simpl. rewrite lookup_fold_delete.
  destruct (decide (k ∈ _)) as [Hin|Hin].
  - apply list_elem_of_fmap in Hin as ([k' e'] & -> & Hin).
    apply list_elem_of_In, filter_In in Hin as [Hin Hex].
    apply list_elem_of_In, elem_of_map_to_list in Hin. simpl in *.
    split; [done|]. intros [He Hage]. rewrite Hin in He. injection He as ->.
    unfold EmotionCache.expired in Hex. apply Qltb_true_iff in Hex.
    exfalso. eapply Qlt_not_le; eauto.
  - split; [|tauto]. intros He. split; [done|].
    apply Qltb_false_iff.
    destruct (Qltb _ _) eqn:Hq; [|done]. exfalso. apply Hin.
    apply list_elem_of_fmap. exists (k, e). split; [done|].
    apply list_elem_of_In, filter_In. split; [|exact Hq].
    by apply list_elem_of_In, elem_of_map_to_list.
Qed.

(** *** The limiter *)

Lemma filter_sublist {A} (f : A -> bool) (l : list A) :
  List.filter f l `sublist_of` l.
Proof.
  induction l as [|x l IH]; [constructor|].
  simpl. destruct (f x); by constructor.
Qed.

Lemma in_window_sublist (l : RateLimiter.t) (now : Q) :
  RateLimiter.in_window l now `sublist_of` RateLimiter.calls l.
Proof. apply filter_sublist. Qed.

Lemma py_min_fold_least (xs : list Q) (x : Q) :
  let m := fold_left (fun m y => if Qltb y m then y else m) xs x in
  m ∈ x :: xs /\ forall c, c ∈ x :: xs -> (m <= c)%Q.
Proof.
  revert x. induction xs as [|y xs IH]; intros x; simpl.
  - split; [left|]. intros c ->%list_elem_of_singleton. apply Qle_refl.
  - destruct (Qltb y x) eqn:Hyx.
    + destruct (IH y) as [Hin Hle]. split.
      * right. exact Hin.
      * intros c [->|Hc]%elem_of_cons; [|by apply Hle].
        apply Qle_trans with y; [apply Hle; left|].
        apply Qlt_le_weak. by apply Qltb_true_iff.
    + destruct (IH x) as [Hin Hle]. split.
      * apply elem_of_cons in Hin as [->|Hin]; [left|right; by right].
      * intros c [->|[->|Hc]%elem_of_cons]%elem_of_cons.
        -- apply Hle; left.
        -- apply Qle_trans with x; [apply Hle; left|].
           by apply Qltb_false_iff.
        -- apply Hle. by right.
Qed.

Lemma py_min_least (xs : list Q) (m : Q) :
  RateLimiter.py_min xs = Some m ->
  m ∈ xs /\ forall c, c ∈ xs -> (m <= c)%Q.
Proof.
  destruct xs as [|x xs]; [done|]. simpl. intros [= <-].
  apply py_min_fold_least.
Qed.

(** [time_until_next_call] first prunes like [can_call].  It raises
    exactly when nothing is admitted and no call is left in the window,
    which needs [max_calls <= 0]; it returns zero when a call is
    admitted; otherwise it returns the window less the age of the oldest
    call that is left. *)
Theorem time_until_next_call_spec (R : Runtime) (l : RateLimiter.t) (n : nat) :
  let kept := RateLimiter.in_window l (time_at R n) in
  let l' := RateLimiter.set_calls kept l in
  ((exists e l2 n2,
      RateLimiter.time_until_next_call R l n = (Py.Raise e, l2, n2))
     <-> (RateLimiter.max_calls l <= 0)%Z /\ kept = [])
  /\ ((Z.of_nat (length kept) < RateLimiter.max_calls l)%Z ->
      RateLimiter.time_until_next_call R l n = (Py.Return 0%Q, l', S n))
  /\ ((RateLimiter.max_calls l <= Z.of_nat (length kept))%Z ->
      kept <> [] ->
      exists oldest,
        oldest ∈ kept
        /\ (forall c, c ∈ kept -> (oldest <= c)%Q)
        /\ RateLimiter.time_until_next_call R l n =
           (Py.Return (inject_Z (RateLimiter.time_window l)
                       - (time_at R (S n) - oldest))%Q, l', S (S n))).
Proof.
  intros kept l'. rewrite time_until_next_call_run. cbv zeta.
  fold kept. fold l'.
  destruct (Z.ltb_spec (Z.of_nat (length kept)) (RateLimiter.max_calls l))
    as [Hlt|Hge].
  - split; [|split].
    + split.
      * intros (e & l2 & n2 & H). done.
      * intros [Hmax ->]. simpl in Hlt. lia.
    + done.
    + intros H. lia.
  - destruct (RateLimiter.py_min kept) as [oldest|] eqn:Hmin.
    + destruct (py_min_least _ _ Hmin) as [Hin Hle].
      split; [|split].
      * split.
        -- intros (e & l2 & n2 & H). done.
        -- intros [_ Hk]. rewrite Hk in Hin. by apply elem_of_nil in Hin.
      * intros H. lia.
      * intros _ _. by exists oldest.
    + assert (Hk : kept = []) by (by destruct kept).
      split; [|split].
      * split; [|intros _; by do 3 eexists].
        intros _. split; [|done]. rewrite Hk in Hge. simpl in Hge. lia.
      * intros H. lia.
      * intros _ H. done.
Qed.

Lemma time_until_next_call_spec_witness :
  RateLimiter.time_until_next_call Sample.runtime Sample.stale_limiter 0 =
  (Py.Return 0%Q,
   RateLimiter.set_calls
     (RateLimiter.in_window Sample.stale_limiter (time_at Sample.runtime 0))
     Sample.stale_limiter, 1%nat).
Proof.
  apply (proj1 (proj2 (time_until_next_call_spec Sample.runtime
                         Sample.stale_limiter 0))).
  by vm_compute.
Defined.

(** *** The paths of [detect_emotion] *)

Lemma pruned_refl (d : EmotionDetector.t) : EmotionDetector.pruned d d.
Proof. by repeat split. Qed.

Lemma pruned_trans (d1 d2 d3 : EmotionDetector.t) :
  EmotionDetector.pruned d1 d2 -> EmotionDetector.pruned d2 d3 ->
  EmotionDetector.pruned d1 d3.
Proof.
  intros (A1 & A2 & A3 & A4 & A5 & A6 & A7 & A8 & A9)
         (B1 & B2 & B3 & B4 & B5 & B6 & B7 & B8 & B9).
  repeat split; try congruence.
  - by etrans.
  - by etrans.
Qed.

Lemma too_soon_cases (R : Runtime) (force : bool) (d : EmotionDetector.t) n :
  (force = false /\ EmotionDetector.within_interval R d n
   /\ EmotionDetector.too_soon R force d n = (Py.Return true, d, S n))
  \/ ((force = true \/ ~ EmotionDetector.within_interval R d n)
      /\ EmotionDetector.too_soon R force d n =
         (Py.Return false, d, EmotionDetector.lookup_reading force n)).
Proof.
  rewrite too_soon_run. destruct force; [right; split; [by left|done]|].
  destruct (Qltb _ _) eqn:Hq.
  - left. split; [done|]. split; [by apply Qltb_true_iff|done].
  - right. split; [|done]. right. intros H%Qltb_true_iff.
    unfold EmotionDetector.within_interval in *. congruence.
Qed.

(** The cache stage: a hit leaves the detector as it is; a miss at most
    drops the expired entry of the key. *)
Lemma lookup_stage (R : Runtime) (k : string) (d : EmotionDetector.t) n :
  (exists e,
      EmotionCache.cache (EmotionDetector.cache d) !! k = Some e
      /\ (time_at R n - EmotionCache.entry_timestamp e
          <= inject_Z (EmotionCache.ttl_seconds (EmotionDetector.cache d)))%Q
      /\ EmotionDetector.on_cache (EmotionCache.get R k) d n =
         (Py.Return (Some (EmotionCache.entry_emotion e)), d, S n))
  \/ (exists d2 n2,
      EmotionDetector.on_cache (EmotionCache.get R k) d n =
        (Py.Return None, d2, n2)
      /\ EmotionDetector.pruned d d2
      /\ EmotionDetector.rate_limiter d2 = EmotionDetector.rate_limiter d
      /\ (n <= n2)%nat).
Proof.
  rewrite on_cache_run, cache_get_run.
  destruct (EmotionCache.cache (EmotionDetector.cache d) !! k) as [e|] eqn:He.
  - destruct (Qltb _ _) eqn:Hq.
    + right. do 2 eexists. split; [reflexivity|].
      split; [|split; [done|lia]].
      repeat split; try done. simpl. apply delete_subseteq.
    + left. exists e. split; [done|]. split; [by apply Qltb_false_iff|].
      by destruct d as [? ? []].
  - right. exists d, n. split; [by destruct d as [? ? []]|].
    split; [apply pruned_refl|]. split; [done|lia].
Qed.

(** The admission stage: the limiter is pruned, and the call is admitted
    exactly when fewer than [max_calls] calls are left. *)
Lemma admission_stage (R : Runtime) (d : EmotionDetector.t) n :
  let l := EmotionDetector.rate_limiter d in
  let kept := RateLimiter.in_window l (time_at R n) in
  let d3 := EmotionDetector.set_rate_limiter (RateLimiter.set_calls kept l) d in
  EmotionDetector.on_rate_limiter (RateLimiter.can_call R) d n =
    (Py.Return (Z.of_nat (length kept) <? RateLimiter.max_calls l)%Z, d3, S n)
  /\ EmotionDetector.pruned d d3.
Proof.
  intros l kept d3. split.
  - by rewrite on_rate_limiter_run, can_call_run.
  - repeat split; try done. apply in_window_sublist.
Qed.

(** The wait stage, entered when the call is not admitted. *)
Lemma wait_stage (R : Runtime) (d : EmotionDetector.t) n :
  exists o d4 n4,
    EmotionDetector.on_rate_limiter (RateLimiter.time_until_next_call R) d n =
      (o, d4, n4)
    /\ EmotionDetector.pruned d d4
    /\ (n <= n4)%nat
    /\ ((0 < RateLimiter.max_calls (EmotionDetector.rate_limiter d))%Z ->
        exists w, o = Py.Return w).
Proof.
  rewrite on_rate_limiter_run, time_until_next_call_run. cbv zeta.
  set (kept := RateLimiter.in_window (EmotionDetector.rate_limiter d)
                 (time_at R n)).
  assert (Hp : EmotionDetector.pruned d
                 (EmotionDetector.set_rate_limiter
                    (RateLimiter.set_calls kept (EmotionDetector.rate_limiter d))
                    d)).
  { repeat split; try done. apply in_window_sublist. }
  destruct (Z.ltb_spec (Z.of_nat (length kept))
              (RateLimiter.max_calls (EmotionDetector.rate_limiter d))).
  - do 3 eexists. split; [reflexivity|]. split; [done|]. split; [lia|eauto].
  - destruct (RateLimiter.py_min kept) eqn:Hmin.
    + do 3 eexists. split; [reflexivity|]. split; [done|]. split; [lia|eauto].
    + do 3 eexists. split; [reflexivity|]. split; [done|]. split; [lia|].
      intros Hmax. destruct kept; [simpl in *; lia|done].
Qed.

(** [detect_emotion], stage by stage. *)
Lemma detect_emotion_unfold (R : Runtime) remote text force
    (d : EmotionDetector.t) n :
  EmotionDetector.detect_emotion R remote text force d n =
  match EmotionDetector.too_soon R force d n with
  | (Py.Return true, d1, n1) =>
      (Py.Return (EmotionDetector.last_emotion d1), d1, n1)
  | (Py.Return false, d1, n1) =>
      match EmotionDetector.on_cache
              (EmotionCache.get R (EmotionDetector.text_hash_of R text))
              d1 n1 with
      | (Py.Return (Some cached), d2, n2) => (Py.Return cached, d2, n2)
      | (Py.Return None, d2, n2) =>
          match EmotionDetector.on_rate_limiter (RateLimiter.can_call R)
                  d2 n2 with
          | (Py.Return true, d3, n3) =>
              EmotionDetector.perform_analysis R remote text
                (EmotionDetector.text_hash_of R text) d3 n3
          | (Py.Return false, d3, n3) =>
              match EmotionDetector.on_rate_limiter
                      (RateLimiter.time_until_next_call R) d3 n3 with
              | (Py.Return _, d4, n4) =>
                  (Py.Return (EmotionDetector.last_emotion d4), d4, n4)
              | (Py.Raise e, d4, n4) => (Py.Raise e, d4, n4)
              end
          | (Py.Raise e, d3, n3) => (Py.Raise e, d3, n3)
          end
      | (Py.Raise e, d2, n2) => (Py.Raise e, d2, n2)
      end
  | (Py.Raise e, d1, n1) => (Py.Raise e, d1, n1)
  end.
Proof.
  unfold EmotionDetector.detect_emotion. unfold Py.bind at 1.
  destruct (EmotionDetector.too_soon R force d n) as [[[[]|] d1] n1]; try done.
  unfold Py.bind at 1.
  destruct (EmotionDetector.on_cache _ d1 n1) as [[[[]|] d2] n2]; try done.
  unfold Py.bind at 1.
  by destruct (EmotionDetector.on_rate_limiter _ d2 n2) as [[[[]|] d3] n3].
Qed.

(** A property of the outcome of [detect_emotion] holds when it holds on
    each of its four paths: the call comes too soon; the text is cached;
    the limiter does not admit the call; the analysis is performed. *)
Lemma detect_emotion_cases (R : Runtime) remote text force
    (d : EmotionDetector.t) n
    (Post : Py.outcome EmotionResult * EmotionDetector.t * nat -> Prop) :
  (force = false -> EmotionDetector.within_interval R d n ->
   Post (Py.Return (EmotionDetector.last_emotion d), d, S n)) ->
  (forall e,
     force = true \/ ~ EmotionDetector.within_interval R d n ->
     EmotionCache.cache (EmotionDetector.cache d)
       !! EmotionDetector.text_hash_of R text = Some e ->
     (time_at R (EmotionDetector.lookup_reading force n)
      - EmotionCache.entry_timestamp e
      <= inject_Z (EmotionCache.ttl_seconds (EmotionDetector.cache d)))%Q ->
     Post (Py.Return (EmotionCache.entry_emotion e), d,
        S (EmotionDetector.lookup_reading force n))) ->
  (forall o d4 n4,
     force = true \/ ~ EmotionDetector.within_interval R d n ->
     EmotionDetector.pruned d d4 -> (n <= n4)%nat ->
     ((0 < RateLimiter.max_calls (EmotionDetector.rate_limiter d))%Z ->
      exists w : Q, o = Py.Return w) ->
     Post (match o with
        | Py.Return _ => Py.Return (EmotionDetector.last_emotion d)
        | Py.Raise e => Py.Raise e
        end, d4, n4)) ->
  (forall d3 n3,
     EmotionDetector.passes_checks R text force d n = Some (d3, n3) ->
     EmotionDetector.pruned d d3 -> (n <= n3)%nat ->
     (Z.of_nat (length (RateLimiter.calls (EmotionDetector.rate_limiter d3)))
      < RateLimiter.max_calls (EmotionDetector.rate_limiter d))%Z ->
     Post (EmotionDetector.perform_analysis R remote text
          (EmotionDetector.text_hash_of R text) d3 n3)) ->
  Post (EmotionDetector.detect_emotion R remote text force d n).
Proof.
  intros Hsoon Hhit Hdenied Hanalysis.
  rewrite detect_emotion_unfold.
  destruct (too_soon_cases R force d n) as [(Hf & Hw & Ets)|(Hns & Ets)];
    [rewrite Ets; by apply Hsoon|].
  assert (Hn1 : (n <= EmotionDetector.lookup_reading force n)%nat)
    by (destruct force; simpl; lia).
  destruct (lookup_stage R (EmotionDetector.text_hash_of R text) d
              (EmotionDetector.lookup_reading force n))
    as [(e & He & Hage & Elk)|(d2 & n2 & Elk & Hp2 & Hl2 & Hn2)];
    [rewrite Ets, Elk; by apply Hhit|].
  destruct (admission_stage R d2 n2) as [Hrun Hp3]. cbv zeta in Hrun, Hp3.
  assert (Hmax2 : RateLimiter.max_calls (EmotionDetector.rate_limiter d2) =
                  RateLimiter.max_calls (EmotionDetector.rate_limiter d))
    by (by rewrite Hl2).
  destruct (Z.ltb_spec
              (Z.of_nat (length (RateLimiter.in_window
                                   (EmotionDetector.rate_limiter d2)
                                   (time_at R n2))))
              (RateLimiter.max_calls (EmotionDetector.rate_limiter d2)))
    as [Hlt|Hge].
  - rewrite Ets, Elk, Hrun. apply Hanalysis.
    + unfold EmotionDetector.passes_checks. by rewrite Ets, Elk, Hrun.
    + by eapply pruned_trans.
    + lia.
    + simpl. by rewrite <- Hmax2.
  - rewrite Ets, Elk, Hrun.
    set (d3 := EmotionDetector.set_rate_limiter _ d2) in *.
    destruct (wait_stage R d3 (S n2)) as (o & d4 & n4 & Ew & Hp4 & Hn4 & Hret).
    rewrite Ew.
    assert (Hp : EmotionDetector.pruned d d4).
    { eapply pruned_trans; [|exact Hp4]. by eapply pruned_trans. }
    assert (Hl : EmotionDetector.last_emotion d4 = EmotionDetector.last_emotion d)
      by apply Hp.
    assert (Hr : (0 < RateLimiter.max_calls (EmotionDetector.rate_limiter d))%Z ->
                 exists w : Q, o = Py.Return w).
    { intros Hmax. apply Hret. simpl. by rewrite Hmax2. }
    specialize (Hdenied o d4 n4 Hns Hp ltac:(lia) Hr).
    destruct o as [w|e]; by rewrite ?Hl.
Qed.

Lemma parse_response_parsed {St} (R : Runtime) (text : string) (s : St) n :
  EmotionDetector._parse_response R text s n =
  (Py.Return (EmotionDetector.parsed R text n), s, S n).
Proof. apply parse_response_run. Qed.

(** The analysis itself: a neutral result without a client, the last
    known result when the remote call raises, and otherwise the parsed
    answer, recorded as in [analysed]. *)
Lemma perform_analysis_run (R : Runtime) remote text key
    (d : EmotionDetector.t) n :
  EmotionDetector.perform_analysis R remote text key d n =
  if EmotionDetector.client d then
    match remote (EmotionDetector._build_prompt text) with
    | RemoteRaises => (Py.Return (EmotionDetector.last_emotion d), d, n)
    | RemoteText response =>
        (Py.Return (EmotionDetector.parsed R response n),
         EmotionDetector.analysed R key (EmotionDetector.parsed R response n)
           d n,
         S (S (S (S n))))
    end
  else (Py.Return (EmotionDetector.neutral_at (utcnow_at R n)), d, S n).
Proof.
  destruct (EmotionDetector.client d) eqn:Hc.
  - destruct (remote (EmotionDetector._build_prompt text)) as [|response] eqn:Hr.
    + by apply perform_analysis_remote_raises.
    + unfold EmotionDetector.perform_analysis, Py.bind, Py.get_self,
        Py.try_except, EmotionDetector._analyze_with_gemini.
      rewrite Hc, Hr. simpl. rewrite parse_response_parsed. reflexivity.
  - by apply perform_analysis_no_client.
Qed.

Lemma stored_pruned (P : EmotionResult -> Prop) (d d' : EmotionDetector.t) :
  EmotionDetector.pruned d d' ->
  EmotionDetector.stored P d -> EmotionDetector.stored P d'.
Proof.
  intros (_ & _ & _ & Hl & _ & _ & _ & _ & Hsub) [HP Hc]. split.
  - by rewrite Hl.
  - intros k e He. apply (Hc k). eapply lookup_weaken; eauto.
Qed.

Lemma stored_analysed (P : EmotionResult -> Prop) (R : Runtime) key r
    (d : EmotionDetector.t) n :
  P r -> EmotionDetector.stored P d ->
  EmotionDetector.stored P (EmotionDetector.analysed R key r d n).
Proof.
  intros Hr [_ Hc]. split; [done|]. simpl.
  by apply map_Forall_insert_2.
Qed.

(** Every outcome of [detect_emotion].  Either the detector is only
    pruned, and the call raises (which needs [max_calls <= 0]) or returns
    the last known result, a cached result, or a neutral one for want of
    a client; or the remote classifier answered, and its parsed answer is
    returned and recorded. *)
Lemma detect_emotion_outcomes (R : Runtime) remote text force
    (d : EmotionDetector.t) n :
  exists o d' n',
    EmotionDetector.detect_emotion R remote text force d n = (o, d', n')
    /\ (n <= n')%nat
    /\ ((EmotionDetector.pruned d d'
         /\ ((exists e, o = Py.Raise e
                /\ (RateLimiter.max_calls (EmotionDetector.rate_limiter d)
                    <= 0)%Z)
             \/ o = Py.Return (EmotionDetector.last_emotion d)
             \/ (exists e,
                   EmotionCache.cache (EmotionDetector.cache d)
                     !! EmotionDetector.text_hash_of R text = Some e
                   /\ o = Py.Return (EmotionCache.entry_emotion e))
             \/ (exists k, EmotionDetector.client d = false
                   /\ o = Py.Return
                            (EmotionDetector.neutral_at (utcnow_at R k)))))
        \/ (exists d3 n3 response,
              EmotionDetector.passes_checks R text force d n = Some (d3, n3)
              /\ EmotionDetector.pruned d d3
              /\ (Z.of_nat (length (RateLimiter.calls
                                      (EmotionDetector.rate_limiter d3)))
                  < RateLimiter.max_calls (EmotionDetector.rate_limiter d))%Z
              /\ EmotionDetector.client d = true
              /\ remote (EmotionDetector._build_prompt text)
                 = RemoteText response
              /\ o = Py.Return (EmotionDetector.parsed R response n3)
              /\ d' = EmotionDetector.analysed R
                        (EmotionDetector.text_hash_of R text)
                        (EmotionDetector.parsed R response n3) d3 n3
              /\ n' = S (S (S (S n3))))).
Proof.
  apply (detect_emotion_cases R remote text force d n
           (fun x => exists o d' n', x = (o, d', n') /\ _)).
  - intros Hf Hw. do 3 eexists. split; [reflexivity|]. split; [lia|].
    left. split; [apply pruned_refl|]. right. by left.
  - intros e Hns He Hage. do 3 eexists. split; [reflexivity|].
    split; [destruct force; simpl; lia|].
    left. split; [apply pruned_refl|]. right. right. left. eauto.
  - intros o d4 n4 Hns Hp Hn Hret. do 3 eexists. split; [reflexivity|].
    split; [done|]. left. split; [done|].
    destruct o as [w|e]; [right; by left|].
    left. exists e. split; [done|].
    destruct (Z.le_gt_cases
                (RateLimiter.max_calls (EmotionDetector.rate_limiter d)) 0)
      as [H|H]; [done|].
    destruct Hret as [w Hw]; [lia|done].
  - intros d3 n3 Hpass Hp Hn Hlen. rewrite perform_analysis_run.
    assert (Hc : EmotionDetector.client d3 = EmotionDetector.client d)
      by apply Hp.
    assert (Hl : EmotionDetector.last_emotion d3 =
                 EmotionDetector.last_emotion d) by apply Hp.
    rewrite Hc. destruct (EmotionDetector.client d) eqn:Hcl.
    + destruct (remote (EmotionDetector._build_prompt text))
        as [|response] eqn:Hr.
      * do 3 eexists. split; [reflexivity|]. split; [done|].
        left. split; [done|]. right. left. by rewrite Hl.
      * do 3 eexists. split; [reflexivity|]. split; [lia|].
        right. exists d3, n3, response. split_and!; done.
    + do 3 eexists. split; [reflexivity|]. split; [lia|].
      left. split; [done|]. right. right. right. eauto.
Qed.

(** *** What a call changes *)

(** A call changes the detector in one of two ways.  Either it only
    prunes: recorded calls outside the window and the expired cache entry
    of the text may go, and the last known result, the time of the last
    analysis and the configuration stay.  Or the remote classifier
    answered: then exactly one call is recorded on the pruned limiter, the
    parsed answer is returned and becomes the last known result, and it
    is cached under the key of the text. *)
Theorem detect_emotion_prunes_or_records (R : Runtime)
    (remote : string -> RemoteOutcome) (text : string) (force : bool)
    (d : EmotionDetector.t) (n : nat) :
  exists o d' n',
    EmotionDetector.detect_emotion R remote text force d n = (o, d', n')
    /\ (EmotionDetector.pruned d d'
        \/ exists d3 n3 response,
             EmotionDetector.pruned d d3
             /\ EmotionDetector.client d = true
             /\ remote (EmotionDetector._build_prompt text)
                = RemoteText response
             /\ o = Py.Return (EmotionDetector.parsed R response n3)
             /\ d' = EmotionDetector.analysed R
                       (EmotionDetector.text_hash_of R text)
                       (EmotionDetector.parsed R response n3) d3 n3).
Proof.
  destruct (detect_emotion_outcomes R remote text force d n)
    as (o & d' & n' & E & _ & [[Hp _]|H]).
  - exists o, d', n'. split; [done|]. by left.
  - destruct H as (d3 & n3 & response & _ & Hp & _ & Hc & Hr & Ho & Hd & _).
    exists o, d', n'. split; [done|]. right. exists d3, n3, response.
    split_and!; done.
Qed.

Lemma detect_emotion_quota (R : Runtime) remote text force
    (d : EmotionDetector.t) n :
  (Z.of_nat (length (RateLimiter.calls (EmotionDetector.rate_limiter d)))
   <= RateLimiter.max_calls (EmotionDetector.rate_limiter d))%Z ->
  RateLimiter.max_calls
    (EmotionDetector.rate_limiter
       (snd (fst (EmotionDetector.detect_emotion R remote text force d n)))) =
    RateLimiter.max_calls (EmotionDetector.rate_limiter d)
  /\ (Z.of_nat
        (length
           (RateLimiter.calls
              (EmotionDetector.rate_limiter
                 (snd (fst (EmotionDetector.detect_emotion R remote text
                              force d n))))))
      <= RateLimiter.max_calls (EmotionDetector.rate_limiter d))%Z.
Proof.
  intros Hb.
  destruct (detect_emotion_outcomes R remote text force d n)
    as (o & d2 & n' & -> & _ & [[Hp _]|H]); simpl.
  - destruct Hp as (_ & _ & _ & _ & Hmax & _ & Hsub & _).
    split; [done|]. apply sublist_length in Hsub. lia.
  - destruct H as (d3 & n3 & response & _ & Hp & Hlen & _ & _ & _ & -> & _).
    destruct Hp as (_ & _ & _ & _ & Hmax & _).
    simpl. split; [done|]. rewrite length_app. simpl. lia.
Qed.

(** The limiter never holds more than [max_calls] calls: a bound that
    holds before a call of [detect_emotion] holds after it, whatever the
    outcome. *)
Theorem detect_emotion_keeps_the_quota (R : Runtime)
    (remote : string -> RemoteOutcome) (text : string) (force : bool)
    (d : EmotionDetector.t) (n : nat) :
  (Z.of_nat (length (RateLimiter.calls (EmotionDetector.rate_limiter d)))
   <= RateLimiter.max_calls (EmotionDetector.rate_limiter d))%Z ->
  let d' := snd (fst (EmotionDetector.detect_emotion R remote text force d n)) in
  RateLimiter.max_calls (EmotionDetector.rate_limiter d') =
    RateLimiter.max_calls (EmotionDetector.rate_limiter d)
  /\ (Z.of_nat (length (RateLimiter.calls (EmotionDetector.rate_limiter d')))
      <= RateLimiter.max_calls (EmotionDetector.rate_limiter d'))%Z.
Proof.
  intros Hb d'. unfold d'.
  destruct (detect_emotion_quota R remote text force d n Hb) as [Hmax Hlen].
  split; [done|]. by rewrite Hmax.
Qed.

Lemma detect_emotion_keeps_the_quota_witness :
  RateLimiter.max_calls
    (EmotionDetector.rate_limiter (snd (fst Sample.third_call))) = 10%Z
  /\ (Z.of_nat (length (RateLimiter.calls
                          (EmotionDetector.rate_limiter
                             (snd (fst Sample.third_call)))))
      <= RateLimiter.max_calls
           (EmotionDetector.rate_limiter (snd (fst Sample.third_call))))%Z.
Proof.
  apply (detect_emotion_keeps_the_quota Sample.runtime Sample.remote_sad
           "oh no" false (snd (fst Sample.second_call)) 10).
  by vm_compute.
Defined.

(** *** What is kept and returned *)

(** A property of results that holds of the neutral result and of every
    parsed answer, and of what the detector keeps, holds of what a call
    returns and of what the detector keeps afterwards. *)
Lemma detect_emotion_stored (P : EmotionResult -> Prop) (R : Runtime)
    remote text force (d : EmotionDetector.t) n :
  (forall now, P (EmotionDetector.neutral_at now)) ->
  (forall response k, P (EmotionDetector.parsed R response k)) ->
  EmotionDetector.stored P d ->
  forall o d' n',
    EmotionDetector.detect_emotion R remote text force d n = (o, d', n') ->
    EmotionDetector.stored P d' /\ forall r, o = Py.Return r -> P r.
Proof.
  intros Hneutral Hparsed Hst o d' n' E.
  destruct (detect_emotion_outcomes R remote text force d n)
    as (o2 & d2 & n2 & E2 & _ & H).
  rewrite E in E2. injection E2 as <- <- <-.
  destruct H as [[Hp Ho]|(d3 & n3 & response & _ & Hp & _ & _ & _ & -> & -> & _)].
  - split; [by eapply stored_pruned|].
    intros r ->.
    destruct Ho as [(e & He & _)|[Ho|[(e & He & Ho)|(k & _ & Ho)]]].
    + done.
    + injection Ho as ->. apply Hst.
    + injection Ho as ->. destruct Hst as [_ Hc]. exact (Hc _ _ He).
    + injection Ho as ->. apply Hneutral.
  - split.
    + apply stored_analysed; [apply Hparsed|by eapply stored_pruned].
    + intros r [= <-]. apply Hparsed.
Qed.

Lemma valid_label_affect (label : string) :
  is_valid_emotion label = true ->
  (-1 <= va_valence (get_valence_arousal label) <= 1)%Q
  /\ (0 <= va_arousal (get_valence_arousal label) <= 1)%Q.
Proof.
  intros H. apply bool_decide_eq_true in H.
  unfold EMOTION_CATEGORIES in H.
  rewrite !elem_of_cons, elem_of_nil in H.
  destruct H as [->|[->|[->|[->|[->|[->|[->|[->|[]]]]]]]]];
    by vm_compute.
Qed.

Lemma affect_neutral (now : string) :
  EmotionDetector.affect_of_label (EmotionDetector.neutral_at now).
Proof. by vm_compute. Qed.

Lemma affect_parsed (R : Runtime) (response : string) (k : nat) :
  EmotionDetector.affect_of_label (EmotionDetector.parsed R response k).
Proof.
  unfold EmotionDetector.parsed.
  destruct (EmotionDetector.parse_fields R response) as [[[label c] i]|] eqn:E;
    [|apply affect_neutral].
  apply parse_fields_valid in E.
  destruct (valid_label_affect label E) as [Hv Ha].
  unfold EmotionDetector.affect_of_label. simpl.
  split; [apply Qeq_refl|]. split; [apply Qeq_refl|]. done.
Qed.

(** Whatever the remote classifier answers, the valence and arousal of
    every result that [detect_emotion] returns or keeps are those that
    the table gives for its label, and so lie in [[-1, 1]] and [[0, 1]]
    (the confidence and intensity need not). *)
Theorem detect_emotion_affect_follows_label (R : Runtime)
    (remote : string -> RemoteOutcome) (text : string) (force : bool)
    (d : EmotionDetector.t) (n : nat) :
  EmotionDetector.stored EmotionDetector.affect_of_label d ->
  EmotionDetector.stored EmotionDetector.affect_of_label
    (snd (fst (EmotionDetector.detect_emotion R remote text force d n)))
  /\ forall r,
       fst (fst (EmotionDetector.detect_emotion R remote text force d n))
         = Py.Return r ->
       EmotionDetector.affect_of_label r.
Proof.
  intros Hst.
  destruct (EmotionDetector.detect_emotion R remote text force d n)
    as [[o d'] n'] eqn:E.
  exact (detect_emotion_stored _ R remote text force d n
           affect_neutral (affect_parsed R) Hst o d' n' E).
Qed.

Lemma init_stored_affect (R : Runtime) client_ok calls window ttl interval n :
  EmotionDetector.stored EmotionDetector.affect_of_label
    (fst (EmotionDetector.init R client_ok calls window ttl interval n)).
Proof. split; [apply affect_neutral|apply map_Forall_empty]. Qed.

Lemma detect_emotion_affect_follows_label_witness :
  EmotionDetector.stored EmotionDetector.affect_of_label
    (snd (fst Sample.first_call))
  /\ forall r,
       fst (fst Sample.first_call) = Py.Return r ->
       EmotionDetector.affect_of_label r.
Proof.
  apply (detect_emotion_affect_follows_label Sample.runtime
           Sample.remote_happy "I feel great" false
           (fst Sample.detector0) (snd Sample.detector0)).
  apply init_stored_affect.
Defined.

(** *** Cache hits and the quota *)

(** A call that is forced, or made after the minimum interval, goes on to
    the cache, which it consults at the next clock reading. *)
Lemma detect_emotion_past_debounce (R : Runtime) remote text force
    (d : EmotionDetector.t) n :
  force = true \/ ~ EmotionDetector.within_interval R d n ->
  EmotionDetector.detect_emotion R remote text force d n =
  match EmotionDetector.on_cache
          (EmotionCache.get R (EmotionDetector.text_hash_of R text)) d
          (EmotionDetector.lookup_reading force n) with
  | (Py.Return (Some cached), d2, n2) => (Py.Return cached, d2, n2)
  | (Py.Return None, d2, n2) =>
      match EmotionDetector.on_rate_limiter (RateLimiter.can_call R)
              d2 n2 with
      | (Py.Return true, d3, n3) =>
          EmotionDetector.perform_analysis R remote text
            (EmotionDetector.text_hash_of R text) d3 n3
      | (Py.Return false, d3, n3) =>
          match EmotionDetector.on_rate_limiter
                  (RateLimiter.time_until_next_call R) d3 n3 with
          | (Py.Return _, d4, n4) =>
              (Py.Return (EmotionDetector.last_emotion d4), d4, n4)
          | (Py.Raise e, d4, n4) => (Py.Raise e, d4, n4)
          end
      | (Py.Raise e, d3, n3) => (Py.Raise e, d3, n3)
      end
  | (Py.Raise e, d2, n2) => (Py.Raise e, d2, n2)
  end.
Proof.
  intros Hns. rewrite detect_emotion_unfold, too_soon_run.
  destruct force; [done|].
  destruct (Qltb _ _) eqn:Hq; [|done].
  exfalso. destruct Hns as [?|Hns]; [done|]. apply Hns.
  by apply Qltb_true_iff.
Qed.

(** A cache hit costs nothing: when the call is not answered by the
    debounce and the cache holds an entry for the key of the text that is
    no older than the time-to-live, that entry is returned whatever the
    remote classifier would do, and the detector (limiter, last known
    result, cache) is exactly as before. *)
Theorem detect_emotion_cache_hit (R : Runtime)
    (remote : string -> RemoteOutcome) (text : string) (force : bool)
    (d : EmotionDetector.t) (n : nat) (e : EmotionCache.entry) :
  force = true \/ ~ EmotionDetector.within_interval R d n ->
  EmotionCache.cache (EmotionDetector.cache d)
    !! EmotionDetector.text_hash_of R text = Some e ->
  (time_at R (EmotionDetector.lookup_reading force n)
   - EmotionCache.entry_timestamp e
   <= inject_Z (EmotionCache.ttl_seconds (EmotionDetector.cache d)))%Q ->
  EmotionDetector.detect_emotion R remote text force d n =
  (Py.Return (EmotionCache.entry_emotion e), d,
   S (EmotionDetector.lookup_reading force n)).
Proof.
  intros Hns He Hage. rewrite detect_emotion_past_debounce by done.
  apply Qltb_false_iff in Hage.
  rewrite on_cache_run, cache_get_run, He. simpl in *. rewrite Hage.
  by destruct d as [? ? []].
Qed.

Lemma detect_emotion_cache_hit_witness :
  EmotionDetector.detect_emotion Sample.runtime Sample.remote_down
    "  I FEEL GREAT " true Sample.after_first 7 =
  (Py.Return
     {| emotion := "happy"; confidence := 0.9; intensity := 0.7;
        valence := 8 # 10; arousal := 6 # 10; detected_at := "1003" |},
   Sample.after_first, 8%nat).
Proof.
  apply (detect_emotion_cache_hit Sample.runtime Sample.remote_down
           "  I FEEL GREAT " true Sample.after_first 7
           {| EmotionCache.entry_emotion :=
                {| emotion := "happy"; confidence := 0.9;
                   intensity := 0.7; valence := 8 # 10;
                   arousal := 6 # 10; detected_at := "1003" |};
              EmotionCache.entry_timestamp := time_at Sample.runtime 6 |}).
  - by left.
  - by vm_compute.
  - by vm_compute.
Defined.



(** Over quota: when the call is not answered by the debounce, the text
    is not cached, and the calls recorded within the window are already
    [max_calls] (at least one), the last known result is returned
    whatever the remote classifier would do, and the detector is only
    pruned: no call is recorded and nothing is cached. *)
Theorem detect_emotion_over_quota (R : Runtime)
    (remote : string -> RemoteOutcome) (text : string) (force : bool)
    (d : EmotionDetector.t) (n : nat) :
  force = true \/ ~ EmotionDetector.within_interval R d n ->
  EmotionCache.cache (EmotionDetector.cache d)
    !! EmotionDetector.text_hash_of R text = None ->
  (0 < RateLimiter.max_calls (EmotionDetector.rate_limiter d))%Z ->
  (RateLimiter.max_calls (EmotionDetector.rate_limiter d)
   <= Z.of_nat (length (RateLimiter.in_window
                          (EmotionDetector.rate_limiter d)
                          (time_at R (EmotionDetector.lookup_reading force n)))))%Z ->
  exists d' n',
    EmotionDetector.detect_emotion R remote text force d n =
      (Py.Return (EmotionDetector.last_emotion d), d', n')
    /\ EmotionDetector.pruned d d'.
Proof.
  intros Hns Hmiss Hmax Hfull.
  rewrite detect_emotion_past_debounce by done.
  rewrite on_cache_run, cache_get_run, Hmiss.
  destruct (admission_stage R
              (EmotionDetector.set_cache (EmotionDetector.cache d) d)
              (EmotionDetector.lookup_reading force n)) as [-> Hp3].
  cbv zeta in Hp3. simpl in *.
  apply Z.ltb_ge in Hfull. rewrite Hfull.
  set (d3 := EmotionDetector.set_rate_limiter _ _) in *.
  destruct (wait_stage R d3 (S (EmotionDetector.lookup_reading force n)))
    as (o & d4 & n4 & -> & Hp4 & _ & Hret).
  destruct Hret as [w ->]; [done|].
  assert (Hp : EmotionDetector.pruned d d4).
  { eapply pruned_trans; [|exact Hp4].
    eapply pruned_trans; [|exact Hp3]. by destruct d as [? ? []]. }
  exists d4, n4. split; [|done]. f_equal. f_equal. f_equal. apply Hp.
Qed.

Lemma detect_emotion_over_quota_witness :
  exists d' n',
    EmotionDetector.detect_emotion Sample.runtime Sample.remote_sad "oh no"
      true Sample.small_quota_after_first 7 =
      (Py.Return (EmotionDetector.last_emotion Sample.small_quota_after_first),
       d', n')
    /\ EmotionDetector.pruned Sample.small_quota_after_first d'.
Proof.
  apply (detect_emotion_over_quota Sample.runtime Sample.remote_sad "oh no"
           true Sample.small_quota_after_first 7).
  - by left.
  - by vm_compute.
  - by vm_compute.
  - vm_compute. discriminate.
Defined.

(** *** The statistics of the detector *)

Lemma in_window_again (l : RateLimiter.t) (now now' : Q) :
  (length (RateLimiter.in_window
             (RateLimiter.set_calls (RateLimiter.in_window l now) l) now')
   <= length (RateLimiter.in_window l now))%nat.
Proof.
  unfold RateLimiter.in_window at 1. simpl. apply List.filter_length_le.
Qed.

(** [get_stats] never touches the cache or the last known result: it
    only prunes the limiter.  It counts the calls before pruning, so
    [calls_made] is at least the number of calls left.  When it reports
    that a call is admitted the wait it reports is zero.  With
    [max_calls] of at least one it returns. *)
Theorem detector_get_stats_spec (R : Runtime) (d : EmotionDetector.t)
    (n : nat) :
  exists o d' n',
    EmotionDetector.get_stats R d n = (o, d', n')
    /\ EmotionDetector.pruned d d'
    /\ EmotionDetector.cache d' = EmotionDetector.cache d
    /\ (forall s, o = Py.Return s ->
          EmotionDetector.stats_calls_made s =
            length (RateLimiter.calls (EmotionDetector.rate_limiter d))
          /\ (length (RateLimiter.calls (EmotionDetector.rate_limiter d'))
              <= EmotionDetector.stats_calls_made s)%nat
          /\ EmotionDetector.stats_can_call s =
             (Z.of_nat (length (RateLimiter.in_window
                                  (EmotionDetector.rate_limiter d)
                                  (time_at R n)))
              <? RateLimiter.max_calls (EmotionDetector.rate_limiter d))%Z
          /\ (EmotionDetector.stats_can_call s = true ->
              EmotionDetector.stats_wait_time s = 0%Q)
          /\ EmotionDetector.stats_cache_size s =
             size (EmotionCache.cache (EmotionDetector.cache d))
          /\ EmotionDetector.stats_last_emotion s =
             emotion (EmotionDetector.last_emotion d))
    /\ ((0 < RateLimiter.max_calls (EmotionDetector.rate_limiter d))%Z ->
        exists s, o = Py.Return s).
Proof.
  unfold EmotionDetector.get_stats.
  unfold Py.bind at 1. unfold Py.get_self at 1.
  unfold Py.bind at 1. rewrite on_rate_limiter_run, can_call_run.
  unfold Py.bind at 1.
  rewrite on_rate_limiter_run, time_until_next_call_run.
  cbn [EmotionDetector.rate_limiter EmotionDetector.set_rate_limiter
       RateLimiter.max_calls RateLimiter.set_calls RateLimiter.time_window].
  cbv zeta.
  set (l := EmotionDetector.rate_limiter d).
  set (kept := RateLimiter.in_window l (time_at R n)).
  set (kept2 := RateLimiter.in_window (RateLimiter.set_calls kept l)
                  (time_at R (S n))).
  assert (H2 : (length kept2 <= length kept)%nat) by apply in_window_again.
  assert (H1 : (length kept <= length (RateLimiter.calls l))%nat)
    by apply List.filter_length_le.
  assert (Hp : EmotionDetector.pruned d
                 (EmotionDetector.set_rate_limiter
                    (RateLimiter.set_calls kept2 (RateLimiter.set_calls kept l))
                    (EmotionDetector.set_rate_limiter
                       (RateLimiter.set_calls kept l) d))).
  { repeat split; try done. simpl.
    etrans; [apply in_window_sublist|]. apply in_window_sublist. }
  destruct (Z.ltb_spec (Z.of_nat (length kept2)) (RateLimiter.max_calls l))
    as [Hlt2|Hge2].
  - do 3 eexists. split; [reflexivity|]. split; [exact Hp|]. split; [done|].
    split; [|eauto].
    intros s [= <-]. simpl. split_and!; try done. lia.
  - destruct (RateLimiter.py_min kept2) as [oldest|] eqn:Hmin.
    + do 3 eexists. split; [reflexivity|]. split; [exact Hp|]. split; [done|].
      split; [|eauto].
      intros s [= <-]. simpl. split_and!; try done; [lia|].
      intros Hok%Z.ltb_lt. lia.
    + do 3 eexists. split; [reflexivity|]. split; [exact Hp|]. split; [done|].
      split; [done|].
      intros Hmax. destruct kept2; [simpl in *; lia|done].
Qed.

(** *** What the adapter keeps *)

Lemma last_n_last {A} (n : nat) (l : list A) (x : A) :
  (1 <= n)%nat -> last (PyStr.last_n n (l ++ [x])) = Some x.
Proof.
  intros Hn. unfold PyStr.last_n. rewrite length_app. simpl.
  rewrite drop_app_le by lia. by rewrite last_snoc.
Qed.

Lemma consistent_init (ty : string) :
  PersonalityAdapter.consistent (PersonalityAdapter.init ty).
Proof. split; [simpl; lia|done]. Qed.

Lemma consistent_adapt (a : PersonalityAdapter.t) base ed thr :
  PersonalityAdapter.consistent a ->
  PersonalityAdapter.consistent
    (snd (PersonalityAdapter.adapt_instructions a base ed thr)).
Proof.
  intros [Hlen Hcur].
  rewrite adapt_instructions_state. destruct (_ <? _)%float; [done|].
  split.
  - rewrite track_history, last_n_length. lia.
  - unfold PersonalityAdapter.last_label. rewrite track_history.
    rewrite last_n_fmap, fmap_app. simpl. by rewrite last_n_last by lia.
Qed.

(** The adapter never holds more than ten history entries, and
    [current_emotion] is always the label of the most recent one (neutral
    while there is none): both hold of a new adapter and are kept by
    every call of [adapt_instructions], and so hold after any sequence of
    calls. *)
Theorem adapt_instructions_keeps_consistent (a : PersonalityAdapter.t)
    (base : string) (ed : EmotionData) (thr : float)
    (calls : list PersonalityAdapter.call) :
  PersonalityAdapter.consistent a ->
  PersonalityAdapter.consistent
    (snd (PersonalityAdapter.adapt_instructions a base ed thr))
  /\ PersonalityAdapter.consistent (PersonalityAdapter.after_calls a calls)
  /\ PersonalityAdapter.consistent
       (PersonalityAdapter.after_calls
          (PersonalityAdapter.init (PersonalityAdapter.agent_type a)) calls).
Proof.
  intros Ha.
  assert (H : forall b, PersonalityAdapter.consistent b ->
    PersonalityAdapter.consistent (PersonalityAdapter.after_calls b calls)).
  { induction calls as [|c cs IH] using rev_ind; intros b Hb; [done|].
    rewrite after_calls_snoc. by apply consistent_adapt, IH. }
  split; [by apply consistent_adapt|]. split; [by apply H|].
  apply H, consistent_init.
Qed.

Lemma adapt_instructions_keeps_consistent_witness :
  PersonalityAdapter.consistent
    (snd (PersonalityAdapter.adapt_instructions
            (PersonalityAdapter.init "teacher") "You are a helpful teacher."
            Sample.confused_data CONFIDENCE_THRESHOLD))
  /\ PersonalityAdapter.consistent
       (PersonalityAdapter.after_calls (PersonalityAdapter.init "teacher")
          [Sample.confident_call; Sample.unsure_call])
  /\ PersonalityAdapter.consistent
       (PersonalityAdapter.after_calls
          (PersonalityAdapter.init
             (PersonalityAdapter.agent_type (PersonalityAdapter.init "teacher")))
          [Sample.confident_call; Sample.unsure_call]).
Proof.
  apply (adapt_instructions_keeps_consistent
           (PersonalityAdapter.init "teacher") "You are a helpful teacher."
           Sample.confused_data CONFIDENCE_THRESHOLD
           [Sample.confident_call; Sample.unsure_call]).
  split; [simpl; lia|reflexivity].
Defined.

Lemma recent_labels_last (a : PersonalityAdapter.t) :
  last (PersonalityAdapter.recent_labels a) =
  last (h_emotion <$> PersonalityAdapter.emotion_history a).
Proof.
  unfold PersonalityAdapter.recent_labels. rewrite last_n_fmap.
  unfold PyStr.last_n. rewrite length_fmap.
  set (l := h_emotion <$> PersonalityAdapter.emotion_history a).
  assert (Hl : length l = length (PersonalityAdapter.emotion_history a))
    by apply length_fmap.
  rewrite <- Hl. clearbody l. clear Hl.
  destruct l as [|x l _] using rev_ind; [done|].
  rewrite length_app. simpl. rewrite drop_app_le by lia. by rewrite !last_snoc.
Qed.

Lemma should_check_in_last (a : PersonalityAdapter.t) :
  PersonalityAdapter.should_check_in a = true ->
  exists e, last (h_emotion <$> PersonalityAdapter.emotion_history a) = Some e
            /\ e ∈ PersonalityAdapter.negative_emotions.
Proof.
  unfold PersonalityAdapter.should_check_in.
  destruct (Nat.ltb_spec (length (PersonalityAdapter.emotion_history a)) 3)
    as [|Hge]; [done|].
  rewrite last_n_fmap. unfold PyStr.last_n. rewrite length_fmap.
  set (l := h_emotion <$> PersonalityAdapter.emotion_history a).
  assert (Hl : length l = length (PersonalityAdapter.emotion_history a))
    by apply length_fmap.
  rewrite <- Hl in *. clearbody l. clear Hl.
  destruct l as [|x l _] using rev_ind; [simpl in Hge; lia|].
  rewrite length_app in *. simpl in *. rewrite drop_app_le by lia.
  rewrite forallb_app. intros [_ H]%andb_true_iff. simpl in H.
  rewrite andb_true_r in H. apply bool_decide_eq_true in H.
  exists x. by rewrite last_snoc.
Qed.

(** The statistics of a consistent adapter agree with one another: at
    most ten entries are counted; the recent emotions are the labels of
    the last five entries at most; the current emotion is the last of
    them and the dominant emotion is one of them (both neutral when there
    are none); and when a check-in is due the current emotion is one of
    the negative ones. *)
Theorem adapter_get_stats_spec (a : PersonalityAdapter.t) :
  PersonalityAdapter.consistent a ->
  let s := PersonalityAdapter.get_stats a in
  (PersonalityAdapter.stats_emotion_history_length s <= 10)%nat
  /\ length (PersonalityAdapter.stats_recent_emotions s) =
     Nat.min 5 (PersonalityAdapter.stats_emotion_history_length s)
  /\ PersonalityAdapter.stats_current_emotion s =
     default "neutral" (last (PersonalityAdapter.stats_recent_emotions s))
  /\ (PersonalityAdapter.stats_recent_emotions s = [] ->
      PersonalityAdapter.stats_dominant_emotion s = "neutral")
  /\ (PersonalityAdapter.stats_recent_emotions s <> [] ->
      PersonalityAdapter.stats_dominant_emotion s
        ∈ PersonalityAdapter.stats_recent_emotions s)
  /\ (PersonalityAdapter.stats_should_check_in s = true ->
      PersonalityAdapter.stats_current_emotion s
        ∈ PersonalityAdapter.negative_emotions).
Proof.
  intros [Hlen Hcur] s. unfold s, PersonalityAdapter.get_stats. simpl.
  split; [done|]. split.
  { unfold PersonalityAdapter.recent_labels.
    by rewrite length_fmap, last_n_length. }
  split.
  { rewrite Hcur. unfold PersonalityAdapter.last_label.
    by rewrite recent_labels_last. }
  split.
  { intros Hr. unfold PersonalityAdapter.get_dominant_emotion.
    destruct (PersonalityAdapter.emotion_history a); [done|]. by rewrite Hr. }
  split.
  { intros Hr.
    destruct (vote_winner _ Hr) as (r & before & after & Hmax & Hw & _).
    unfold PersonalityAdapter.get_dominant_emotion.
    destruct (PersonalityAdapter.emotion_history a) eqn:Hh.
    - exfalso. apply Hr. unfold PersonalityAdapter.recent_labels.
      by rewrite Hh.
    - rewrite Hmax. simpl. rewrite Hw. apply elem_of_app. right. left. }
  intros Hs. destruct (should_check_in_last a Hs) as (e & He & Hneg).
  rewrite Hcur. unfold PersonalityAdapter.last_label. by rewrite He.
Qed.

Lemma adapter_get_stats_spec_witness :
  PersonalityAdapter.stats_current_emotion
    (PersonalityAdapter.get_stats
       (snd (PersonalityAdapter.adapt_instructions
               (PersonalityAdapter.init "teacher")
               "You are a helpful teacher."
               Sample.confused_data CONFIDENCE_THRESHOLD))) =
  default "neutral"
    (last (PersonalityAdapter.stats_recent_emotions
             (PersonalityAdapter.get_stats
                (snd (PersonalityAdapter.adapt_instructions
                        (PersonalityAdapter.init "teacher")
                        "You are a helpful teacher."
                        Sample.confused_data CONFIDENCE_THRESHOLD))))).
Proof.
  apply (adapter_get_stats_spec
           (snd (PersonalityAdapter.adapt_instructions
                   (PersonalityAdapter.init "teacher")
                   "You are a helpful teacher."
                   Sample.confused_data CONFIDENCE_THRESHOLD))).
  split; [vm_compute; lia|reflexivity].
Defined.

(** *** The table of adaptations *)

Lemma known_agent_types :
  forall ty,
    ty ∈ ["teacher"; "consultant"; "coach"; "friend"] <->
    is_Some (EMOTION_ADAPTATIONS !! ty).
Proof.
  intros ty. split.
  - rewrite !elem_of_cons, elem_of_nil.
    intros [->|[->|[->|[->|[]]]]]; apply is_Some_alt; by vm_compute.
  - intros [m Hm]. unfold EMOTION_ADAPTATIONS in Hm.
    apply elem_of_list_to_map_2 in Hm.
    rewrite !elem_of_cons, elem_of_nil in Hm.
    rewrite !elem_of_cons.
    destruct Hm as [E|[E|[E|[E|[]]]]]; apply pair_equal_spec in E as [-> _];
      tauto.
Qed.

(** The table has a template for each of the four agent types and each of
    the eight emotions, and none for any other agent type.  So with a
    confidence that is not below the threshold a known agent type with a
    valid label always gets adapted instructions, which are longer than
    the base instructions, and an unknown agent type always gets the base
    instructions back. *)
Theorem adaptation_table_coverage (a : PersonalityAdapter.t) (base : string)
    (ed : EmotionData) (thr : float) :
  let emotion := default "neutral" (ed_emotion ed) in
  let confidence := default 0%float (ed_confidence ed) in
  (confidence <? thr)%float = false ->
  (PersonalityAdapter.agent_type a
     ∈ ["teacher"; "consultant"; "coach"; "friend"] ->
   is_valid_emotion emotion = true ->
   exists template,
     PersonalityAdapter._get_adaptation a emotion = Some template
     /\ fst (PersonalityAdapter.adapt_instructions a base ed thr) =
        PersonalityAdapter.adapted_text base emotion confidence template
     /\ (String.length base
         < String.length
             (fst (PersonalityAdapter.adapt_instructions a base ed thr)))%nat)
  /\ (PersonalityAdapter.agent_type a
        ∉ ["teacher"; "consultant"; "coach"; "friend"] ->
      fst (PersonalityAdapter.adapt_instructions a base ed thr) = base).
Proof.
  intros emotion confidence Hthr. split.
  - intros Hty Hval.
    assert (Ht : is_Some (PersonalityAdapter._get_adaptation a emotion)).
    { unfold PersonalityAdapter._get_adaptation.
      apply bool_decide_eq_true in Hval. unfold EMOTION_CATEGORIES in Hval.
      rewrite !elem_of_cons, elem_of_nil in Hty.
      rewrite !elem_of_cons, elem_of_nil in Hval.
      destruct Hty as [->|[->|[->|[->|[]]]]];
        destruct Hval as [->|[->|[->|[->|[->|[->|[->|[->|[]]]]]]]]];
        apply is_Some_alt; by vm_compute. }
    destruct Ht as [template Ht]. exists template. split; [done|].
    assert (E : fst (PersonalityAdapter.adapt_instructions a base ed thr) =
                PersonalityAdapter.adapted_text base emotion confidence template).
    { unfold PersonalityAdapter.adapt_instructions.
      fold emotion confidence. rewrite Hthr, get_adaptation_track, Ht.
      destruct (String.eqb_spec template EmptyString) as [->|_]; [|done].
      by apply adaptations_not_empty in Ht. }
    split; [done|]. rewrite E.
    unfold PersonalityAdapter.adapted_text.
    rewrite !length_append. simpl. lia.
  - intros Hty.
    unfold PersonalityAdapter.adapt_instructions.
    fold emotion confidence. rewrite Hthr, get_adaptation_track.
    unfold PersonalityAdapter._get_adaptation.
    destruct (EMOTION_ADAPTATIONS !! PersonalityAdapter.agent_type a)
      as [m|] eqn:Hm.
    + exfalso. apply Hty. apply known_agent_types. by eexists.
    + simpl. by rewrite lookup_empty.
Qed.

Lemma adaptation_table_coverage_witness :
  (String.length "You are a helpful teacher."
   < String.length
       (fst (PersonalityAdapter.adapt_instructions
               (PersonalityAdapter.init "teacher")
               "You are a helpful teacher."
               Sample.confused_data CONFIDENCE_THRESHOLD)))%nat
  /\ fst (PersonalityAdapter.adapt_instructions
            (PersonalityAdapter.init "assistant") "You are a helpful teacher."
            Sample.confused_data CONFIDENCE_THRESHOLD)
     = "You are a helpful teacher.".
Proof.
  split.
  - assert (Hthr : (0.8 <? CONFIDENCE_THRESHOLD)%float = false)
      by reflexivity.
    destruct (adaptation_table_coverage (PersonalityAdapter.init "teacher")
                "You are a helpful teacher." Sample.confused_data
                CONFIDENCE_THRESHOLD Hthr) as [H _].
    destruct H as (template & _ & _ & Hne).
    + apply (bool_decide_unpack _). by vm_compute.
    + reflexivity.
    + exact Hne.
  - assert (Hthr : (0.8 <? CONFIDENCE_THRESHOLD)%float = false)
      by reflexivity.
    destruct (adaptation_table_coverage (PersonalityAdapter.init "assistant")
                "You are a helpful teacher." Sample.confused_data
                CONFIDENCE_THRESHOLD Hthr) as [_ H].
    apply H. apply (bool_decide_unpack _). by vm_compute.
Defined.

(** *** The session handler *)

Lemma store_emotion_run (backend : StoreRequest -> PostOutcome)
    (r : EmotionResult) (text : string) (h : SessionHandler.t) n :
  SessionHandler._store_emotion backend r text h n =
  (Py.Return tt,
   if truthy (SessionHandler.auth_token h)
   then SessionHandler.note_post (SessionHandler.store_request h text) h
   else h,
   n).
Proof.
  unfold SessionHandler._store_emotion, Py.bind, Py.get_self.
  destruct (truthy (SessionHandler.auth_token h)); [|done].
  unfold Py.try_except, Py.modify. simpl.
  by destruct (backend _).
Qed.

(** [process_user_message] in terms of the outcome of [detect_emotion]. *)
Lemma process_user_message_run (R : Runtime) remote backend text
    (h : SessionHandler.t) n :
  SessionHandler.process_user_message R remote backend text h n =
  if SessionHandler.too_short text then (Py.Return None, h, n)
  else
    let h1 := SessionHandler.note_message text h in
    match EmotionDetector.detect_emotion R remote text false
            (SessionHandler.detector h) n with
    | (Py.Return r, d', n') =>
        let h2 := SessionHandler.set_detector d' h1 in
        (Py.Return (Some r),
         if SessionHandler.stores h r
         then SessionHandler.note_post (SessionHandler.store_request h2 text) h2
         else h2,
         n')
    | (Py.Raise _, d', n') =>
        (Py.Return None, SessionHandler.set_detector d' h1, n')
    end.
Proof.
  unfold SessionHandler.process_user_message.
  destruct (SessionHandler.too_short text); [done|].
  unfold Py.bind at 1. unfold Py.modify at 1.
  unfold Py.try_except, Py.bind at 1.
  unfold SessionHandler.on_detector, Py.zoom.
  cbn [SessionHandler.detector SessionHandler.note_message].
  destruct (EmotionDetector.detect_emotion R remote text false
              (SessionHandler.detector h) n) as [[[r|e] d'] n']; [|done].
  unfold Py.bind at 1. unfold Py.get_self at 1.
  unfold Py.bind at 1. unfold SessionHandler.stores.
  cbn [SessionHandler.session_id SessionHandler.set_detector
       SessionHandler.note_message SessionHandler.auth_token].
  destruct (truthy (SessionHandler.session_id h)); cbn [andb].
  - destruct (negb (String.eqb (emotion r) "neutral")); cbn [andb].
    + rewrite store_emotion_run.
      cbn [SessionHandler.auth_token SessionHandler.set_detector
           SessionHandler.note_message].
      by destruct (truthy (SessionHandler.auth_token h)).
    + done.
  - done.
Qed.

(** A message is too short when fewer than three characters are left of
    it once stripped; the empty message is. *)
Lemma too_short_spec (text : string) :
  SessionHandler.too_short text =
  (String.length (PyStr.strip text) <? 3)%nat.
Proof.
  unfold SessionHandler.too_short.
  destruct (String.eqb_spec text EmptyString) as [->|_]; done.
Qed.

(** [process_user_message] never raises.  A message of which fewer than
    three characters are left once stripped (the empty message is one) is
    ignored: nothing is returned and the handler is untouched.  Any other
    message is counted and remembered, and the handler returns what the
    detector returns for it, or nothing when the detector raises; the
    adapter is not involved. *)
Theorem process_user_message_spec (R : Runtime)
    (remote : string -> RemoteOutcome) (backend : StoreRequest -> PostOutcome)
    (text : string) (h : SessionHandler.t) (n : nat) :
  exists o h' n',
    SessionHandler.process_user_message R remote backend text h n =
      (Py.Return o, h', n')
    /\ ((String.length (PyStr.strip text) < 3)%nat ->
        o = None /\ h' = h /\ n' = n)
    /\ ((3 <= String.length (PyStr.strip text))%nat ->
        SessionHandler.message_count h' = S (SessionHandler.message_count h)
        /\ SessionHandler.last_user_message h' = text
        /\ SessionHandler.adapter h' = SessionHandler.adapter h
        /\ SessionHandler.detector h' =
           snd (fst (EmotionDetector.detect_emotion R remote text false
                       (SessionHandler.detector h) n))
        /\ o = match fst (fst (EmotionDetector.detect_emotion R remote text
                                 false (SessionHandler.detector h) n)) with
               | Py.Return r => Some r
               | Py.Raise _ => None
               end).
Proof.
  rewrite process_user_message_run, too_short_spec.
  destruct (Nat.ltb_spec (String.length (PyStr.strip text)) 3) as [Hs|Hs].
  - exists None, h, n. split; [done|]. split; [done|]. intros H. lia.
  - destruct (EmotionDetector.detect_emotion R remote text false
                (SessionHandler.detector h) n) as [[[r|e] d'] n'].
    + do 3 eexists. split; [reflexivity|]. split; [intros H; lia|].
      intros _. by destruct (SessionHandler.stores h r).
    + do 3 eexists. split; [reflexivity|]. split; [intros H; lia|].
      by intros _.
Qed.

(** What goes to the backend: a call of [process_user_message] sends at
    most one request, and sends it exactly when at least three characters
    are left of the message once stripped, the detector returned a result
    that is not neutral, and the handler has a session id and a token
    that are not empty.  The request carries the text, the session, the
    agent type, the count of the message and the token; its outcome
    changes nothing. *)
Theorem process_user_message_posts (R : Runtime)
    (remote : string -> RemoteOutcome) (backend : StoreRequest -> PostOutcome)
    (text : string) (h : SessionHandler.t) (n : nat) :
  let h' :=
    snd (fst (SessionHandler.process_user_message R remote backend text h n)) in
  let outcome :=
    fst (fst (EmotionDetector.detect_emotion R remote text false
                (SessionHandler.detector h) n)) in
  (forall r sid token,
      (3 <= String.length (PyStr.strip text))%nat ->
      outcome = Py.Return r -> emotion r <> "neutral" ->
      SessionHandler.session_id h = Some sid -> sid <> EmptyString ->
      SessionHandler.auth_token h = Some token -> token <> EmptyString ->
      SessionHandler.posted h' =
      SessionHandler.posted h ++
        [ {| req_url :=
               SessionHandler.backend_url h +:+ "/api/v1/emotions/analyze";
             req_text := text;
             req_session_id := Some sid;
             req_agent_type := SessionHandler.agent_type h;
             req_message_count := S (SessionHandler.message_count h);
             req_authorization := "Bearer " +:+ token |} ])
  /\ ((String.length (PyStr.strip text) < 3)%nat
      \/ (exists e, outcome = Py.Raise e)
      \/ (exists r, outcome = Py.Return r /\ emotion r = "neutral")
      \/ SessionHandler.session_id h = None
      \/ SessionHandler.session_id h = Some EmptyString
      \/ SessionHandler.auth_token h = None
      \/ SessionHandler.auth_token h = Some EmptyString ->
      SessionHandler.posted h' = SessionHandler.posted h).
Proof.
  intros h' outcome. unfold h', outcome.
  rewrite process_user_message_run, too_short_spec.
  split.
  - intros r sid token Hlen Ho Hne Hsid Hs Htok Ht.
    destruct (Nat.ltb_spec (String.length (PyStr.strip text)) 3) as [|_];
      [lia|].
    destruct (EmotionDetector.detect_emotion R remote text false
                (SessionHandler.detector h) n) as [[o d'] n'].
    simpl in Ho. subst o. cbv zeta.
    assert (Hst : SessionHandler.stores h r = true).
    { unfold SessionHandler.stores. rewrite Hsid, Htok. simpl.
      apply String.eqb_neq in Hne, Hs, Ht. by rewrite Hne, Hs, Ht. }
    rewrite Hst. simpl. unfold SessionHandler.store_request. simpl.
    by rewrite Hsid, Htok.
  - intros Hno.
    destruct (Nat.ltb_spec (String.length (PyStr.strip text)) 3) as [|Hlen];
      [done|].
    destruct (EmotionDetector.detect_emotion R remote text false
                (SessionHandler.detector h) n) as [[[r|e] d'] n'];
      [|done].
    cbv zeta.
    assert (Hst : SessionHandler.stores h r = false).
    { unfold SessionHandler.stores.
      destruct Hno as [Hno|[(e & He)|[(r' & Hr & Hn)|[Hs|[Hs|[Ht|Ht]]]]]].
      - lia.
      - done.
      - simpl in Hr. injection Hr as <-. rewrite Hn. simpl.
        by rewrite andb_false_r.
      - by rewrite Hs.
      - by rewrite Hs.
      - rewrite Ht. by rewrite andb_false_r.
      - rewrite Ht. by rewrite andb_false_r. }
    by rewrite Hst.
Qed.

(** *** The worker's hook *)

Lemma adapt_instructions_text_cases (a : PersonalityAdapter.t) base ed thr :
  fst (PersonalityAdapter.adapt_instructions a base ed thr) = base
  \/ exists template,
       fst (PersonalityAdapter.adapt_instructions a base ed thr) =
       PersonalityAdapter.adapted_text base (default "neutral" (ed_emotion ed))
         (default 0%float (ed_confidence ed)) template.
Proof.
  unfold PersonalityAdapter.adapt_instructions.
  destruct (_ <? thr)%float; [by left|].
  destruct (PersonalityAdapter._get_adaptation _ _) as [t|]; [|by left].
  destruct (String.eqb t EmptyString); [by left|]. right. by exists t.
Qed.

(** [on_user_speech] in terms of the outcome of [process_user_message]. *)
Lemma on_user_speech_run (R : Runtime) remote backend base text
    (w : Worker.t) n :
  Worker.on_user_speech R remote backend base text w n =
  if SessionHandler.too_short text then (Py.Return tt, w, n)
  else
    match SessionHandler.process_user_message R remote backend text
            (Worker.emotion_handler w) n with
    | (Py.Return (Some r), h', n') =>
        if negb (String.eqb (emotion r) "neutral") then
          (Py.Return tt,
           {| Worker.emotion_handler :=
                SessionHandler.set_adapter
                  (snd (PersonalityAdapter.adapt_instructions
                          (SessionHandler.adapter h') base
                          (as_emotion_data r) CONFIDENCE_THRESHOLD)) h';
              Worker.instructions :=
                fst (PersonalityAdapter.adapt_instructions
                       (SessionHandler.adapter h') base
                       (as_emotion_data r) CONFIDENCE_THRESHOLD) |},
           n')
        else (Py.Return tt, Worker.set_emotion_handler h' w, n')
    | (_, h', n') => (Py.Return tt, Worker.set_emotion_handler h' w, n')
    end.
Proof.
  unfold Worker.on_user_speech, Py.try_except.
  destruct (SessionHandler.too_short text); [done|].
  unfold Py.bind at 1. unfold Worker.on_handler at 1. unfold Py.zoom at 1.
  destruct (SessionHandler.process_user_message R remote backend text
              (Worker.emotion_handler w) n) as [[[[r|]|e] h'] n']; [|done|done].
  destruct (negb (String.eqb (emotion r) "neutral")); [|done].
  unfold Py.bind, Worker.on_handler, Py.zoom,
    SessionHandler.get_adapted_instructions, Py.modify.
  cbn [Worker.emotion_handler Worker.set_emotion_handler].
  by destruct (PersonalityAdapter.adapt_instructions _ _ _ _).
Qed.

(** The hook [on_user_speech] never raises.  A message of which fewer
    than three characters are left once stripped changes nothing.  For any
    other message the detector is asked once: when it returns a label
    other than neutral, the instructions of the agent become what
    [adapt_instructions] returns for the base instructions and that
    result, and the adapter is the one [adapt_instructions] leaves; in
    particular a result below the confidence threshold sets the
    instructions back to the base instructions and leaves the adapter as
    it was.  A neutral result, or a detector that raises, leaves both the
    instructions and the adapter as they were.  So the instructions are
    always the previous ones, the base instructions, or the base
    instructions followed by one block: blocks are never stacked. *)
Theorem on_user_speech_spec (R : Runtime) (remote : string -> RemoteOutcome)
    (backend : StoreRequest -> PostOutcome) (base text : string)
    (w : Worker.t) (n : nat) :
  let h := Worker.emotion_handler w in
  let a := SessionHandler.adapter h in
  exists w' n',
    Worker.on_user_speech R remote backend base text w n =
      (Py.Return tt, w', n')
    /\ ((String.length (PyStr.strip text) < 3)%nat -> w' = w /\ n' = n)
    /\ ((3 <= String.length (PyStr.strip text))%nat ->
        match fst (fst (EmotionDetector.detect_emotion R remote text false
                          (SessionHandler.detector h) n)) with
        | Py.Return r =>
            if String.eqb (emotion r) "neutral" then
              Worker.instructions w' = Worker.instructions w
              /\ SessionHandler.adapter (Worker.emotion_handler w') = a
            else
              Worker.instructions w' =
                fst (PersonalityAdapter.adapt_instructions a base
                       (as_emotion_data r) CONFIDENCE_THRESHOLD)
              /\ SessionHandler.adapter (Worker.emotion_handler w') =
                 snd (PersonalityAdapter.adapt_instructions a base
                        (as_emotion_data r) CONFIDENCE_THRESHOLD)
              /\ ((confidence r <? CONFIDENCE_THRESHOLD)%float = true ->
                  Worker.instructions w' = base
                  /\ SessionHandler.adapter (Worker.emotion_handler w') = a)
        | Py.Raise _ =>
            Worker.instructions w' = Worker.instructions w
            /\ SessionHandler.adapter (Worker.emotion_handler w') = a
        end)
    /\ (Worker.instructions w' = Worker.instructions w
        \/ Worker.instructions w' = base
        \/ exists label c template,
             Worker.instructions w' =
             base +:+ "

CURRENT USER EMOTIONAL STATE: " +:+ PyStr.upper label
             +:+ " (confidence: " +:+ format_percent0 c +:+ ")

ADAPT YOUR RESPONSE ACCORDINGLY:
" +:+ template +:+ "

Remember to maintain your core personality while being sensitive to the user's emotional state.
").
Proof.
  intros h a. unfold a, h. clear a h.
  rewrite on_user_speech_run, process_user_message_run, too_short_spec.
  destruct (Nat.ltb_spec (String.length (PyStr.strip text)) 3) as [Hs|Hs].
  { exists w, n. split; [done|]. split; [done|].
    split; [intros H; lia|by left]. }
  assert (Hshort : (String.length (PyStr.strip text) < 3)%nat ->
                   forall P : Prop, P) by (intros H P; lia).
  destruct (EmotionDetector.detect_emotion R remote text false
              (SessionHandler.detector (Worker.emotion_handler w)) n)
    as [[[r|e] d'] n'] eqn:Hdet; cbn [fst snd].
  - cbv zeta.
    assert (Had : forall h2 : SessionHandler.t,
      SessionHandler.adapter
        (if SessionHandler.stores (Worker.emotion_handler w) r
         then SessionHandler.note_post (SessionHandler.store_request h2 text) h2
         else h2) = SessionHandler.adapter h2).
    { intros h2. by destruct (SessionHandler.stores _ r). }
    destruct (String.eqb (emotion r) "neutral") eqn:Hne; cbn [negb].
    + do 2 eexists. split; [reflexivity|]. split; [intros H; by apply Hshort|]. split.
      * intros _. split; [done|]. cbn [Worker.set_emotion_handler
          Worker.emotion_handler]. by rewrite Had.
      * by left.
    + do 2 eexists. split; [reflexivity|]. split; [intros H; by apply Hshort|].
      cbn [Worker.instructions Worker.emotion_handler SessionHandler.adapter
           SessionHandler.set_adapter].
      rewrite Had.
      cbn [SessionHandler.adapter SessionHandler.set_detector
           SessionHandler.note_message].
      split.
      * intros _. split; [done|]. split; [done|].
        intros Hlow. by rewrite adapt_instructions_below.
      * right.
        destruct (adapt_instructions_text_cases
                    (SessionHandler.adapter (Worker.emotion_handler w)) base
                    (as_emotion_data r) CONFIDENCE_THRESHOLD)
          as [->|[t ->]]; [by left|right; do 3 eexists; reflexivity].
  - do 2 eexists. split; [reflexivity|]. split; [intros H; by apply Hshort|]. split.
    + by intros _.
    + by left.
Qed.

(** *** What holds of the agent all along *)

Lemma valid_parsed (R : Runtime) (response : string) (k : nat) :
  EmotionDetector.valid_result (EmotionDetector.parsed R response k).
Proof.
  unfold EmotionDetector.parsed.
  destruct (EmotionDetector.parse_fields R response) as [[[label c] i]|] eqn:E.
  - apply parse_fields_valid in E. by apply bool_decide_eq_true in E.
  - apply valid_neutral.
Qed.

Lemma detect_emotion_well_formed (R : Runtime) remote text force
    (d : EmotionDetector.t) n o d' n' :
  EmotionDetector.well_formed d ->
  EmotionDetector.detect_emotion R remote text force d n = (o, d', n') ->
  EmotionDetector.well_formed d'
  /\ forall r, o = Py.Return r -> EmotionDetector.valid_result r.
Proof.
  intros Hd E.
  exact (detect_emotion_stored EmotionDetector.valid_result R remote text
           force d n valid_neutral (valid_parsed R) Hd o d' n' E).
Qed.

Lemma Forall_last_n {A} (P : A -> Prop) (k : nat) (l : list A) :
  Forall P l -> Forall P (PyStr.last_n k l).
Proof. unfold PyStr.last_n. apply Forall_drop. Qed.

Lemma recorded_adapt (a : PersonalityAdapter.t) (base : string)
    (r : EmotionResult) :
  EmotionDetector.valid_result r ->
  emotion r <> "neutral" ->
  Forall Worker.recorded_ok (PersonalityAdapter.emotion_history a) ->
  Forall Worker.recorded_ok
    (PersonalityAdapter.emotion_history
       (snd (PersonalityAdapter.adapt_instructions a base (as_emotion_data r)
               CONFIDENCE_THRESHOLD))).
Proof.
  intros Hval Hne Ha. rewrite adapt_instructions_state.
  destruct (_ <? _)%float eqn:Hq; [done|].
  rewrite track_history. apply Forall_last_n, Forall_app. split; [done|].
  apply Forall_singleton. by split_and!.
Qed.

Lemma healthy_step (R : Runtime) remote backend base text (w : Worker.t) n :
  Worker.healthy w ->
  Worker.healthy
    (snd (fst (Worker.on_user_speech R remote backend base text w n))).
Proof.
  intros (Hd & [Hmax Hlen] & Hc & Hh).
  rewrite on_user_speech_run, process_user_message_run.
  destruct (SessionHandler.too_short text); [by split_and!|].
  assert (Hq : Worker.within_quota
                 (snd (fst (EmotionDetector.detect_emotion R remote text false
                              (SessionHandler.detector
                                 (Worker.emotion_handler w)) n)))).
  { destruct (detect_emotion_quota R remote text false
                (SessionHandler.detector (Worker.emotion_handler w)) n)
      as [Hmax' Hlen']; [by rewrite Hmax|].
    split; [by rewrite Hmax'|by rewrite <- Hmax]. }
  destruct (EmotionDetector.detect_emotion R remote text false
              (SessionHandler.detector (Worker.emotion_handler w)) n)
    as [[[r|e] d'] n'] eqn:Hdet.
  - destruct (detect_emotion_well_formed _ _ _ _ _ _ _ _ _ Hd Hdet)
      as [Hd' Hr]. specialize (Hr r eq_refl). cbv beta iota zeta.
    destruct (String.eqb_spec (emotion r) "neutral") as [Hn|Hn]; cbn [negb].
    + destruct (SessionHandler.stores _ r); cbn [fst snd];
        (split; [exact Hd'|]); (split; [exact Hq|]);
        (split; [exact Hc|exact Hh]).
    + destruct (SessionHandler.stores _ r); cbn [fst snd];
        (split; [exact Hd'|]); (split; [exact Hq|]);
        (split; [by apply consistent_adapt|]);
        by apply recorded_adapt.
  - destruct (detect_emotion_well_formed _ _ _ _ _ _ _ _ _ Hd Hdet)
      as [Hd' _].
    split; [exact Hd'|]. split; [exact Hq|]. split; [exact Hc|exact Hh].
Qed.

(** The agent is healthy when the hook is installed, and stays so under
    [on_user_speech], whatever the message, the remote classifier and the
    backend do; so it is healthy after any sequence of messages.  Healthy
    means: the detector keeps results with a valid label only, its
    limiter has the configured quota of calls and never holds more calls
    than that, the adapter holds at most ten entries and its current
    emotion is the label of the last one, and every entry of the history
    has a valid label other than neutral and a confidence that the gate
    did not find below the configured threshold (at or above it, or
    NaN). *)
Theorem worker_stays_healthy (R : Runtime)
    (backend : StoreRequest -> PostOutcome) (base : string) :
  (forall client_ok agent_type session_id auth_token n,
      Worker.healthy
        (fst (Worker.init R client_ok agent_type session_id auth_token
                base n)))
  /\ (forall remote text w n,
         Worker.healthy w ->
         Worker.healthy
           (snd (fst (Worker.on_user_speech R remote backend base text w n))))
  /\ (forall messages w n,
         Worker.healthy w ->
         Worker.healthy
           (fst (Worker.after_speech R backend base messages w n))).
Proof.
  split; [|split].
  - intros client_ok agent_type session_id auth_token n.
    unfold Worker.init, SessionHandler.init.
    pose proof (init_well_formed R client_ok RATE_LIMIT_CALLS
                  RATE_LIMIT_WINDOW EMOTION_CACHE_TTL MIN_ANALYSIS_INTERVAL n)
      as Hd.
    destruct (EmotionDetector.init R client_ok RATE_LIMIT_CALLS
                RATE_LIMIT_WINDOW EMOTION_CACHE_TTL MIN_ANALYSIS_INTERVAL n)
      as [d n0] eqn:E.
    split; [exact Hd|].
    split; [|split; [apply consistent_init|apply Forall_nil_2]].
    unfold EmotionDetector.init in E. injection E as <- _.
    split; [done|]. by vm_compute.
  - intros remote text w n Hw. by apply healthy_step.
  - intros messages. unfold Worker.after_speech.
    induction messages as [|[remote text] ms IH]; intros w n Hw; [done|].
    simpl.
    pose proof (healthy_step R remote backend base text w n Hw) as Hs.
    destruct (Worker.on_user_speech R remote backend base text w n)
      as [[o w'] n']. by apply IH.
Qed.

Lemma recorded_label (l : list HistoryEntry) (e : string) :
  Forall Worker.recorded_ok l ->
  e ∈ h_emotion <$> l ->
  e ∈ EMOTION_CATEGORIES /\ e <> "neutral".
Proof.
  intros Hl (x & -> & Hx)%list_elem_of_fmap.
  rewrite List.Forall_forall in Hl.
  apply list_elem_of_In in Hx. destruct (Hl x Hx) as (? & ? & _). done.
Qed.

Lemma dominant_recorded (a : PersonalityAdapter.t) :
  PersonalityAdapter.emotion_history a <> [] ->
  PersonalityAdapter.get_dominant_emotion a
    ∈ h_emotion <$> PersonalityAdapter.emotion_history a.
Proof.
  intros Hh.
  destruct (vote_winner _ (recent_labels_nonempty a Hh))
    as (r & before & after & Hmax & Hw & _).
  unfold PersonalityAdapter.get_dominant_emotion.
  destruct (PersonalityAdapter.emotion_history a) as [|x l] eqn:E; [done|].
  rewrite Hmax. simpl default.
  assert (Hr : r ∈ PersonalityAdapter.recent_labels a).
  { rewrite Hw. apply elem_of_app. right. left. }
  unfold PersonalityAdapter.recent_labels in Hr. rewrite E in Hr.
  rewrite last_n_fmap in Hr. by apply last_n_subseteq in Hr.
Qed.

(** In a healthy agent the adapter reports valid labels only: the current
    emotion and the dominant emotion are labels of the configuration, and
    each of them is neutral exactly when nothing has been recorded yet.
    So once a confident result other than neutral has been recorded, the
    adapter never reports neutral again. *)
Theorem healthy_worker_reports (w : Worker.t) :
  Worker.healthy w ->
  let a := SessionHandler.adapter (Worker.emotion_handler w) in
  is_valid_emotion (PersonalityAdapter.current_emotion a) = true
  /\ is_valid_emotion (PersonalityAdapter.get_dominant_emotion a) = true
  /\ (PersonalityAdapter.current_emotion a = "neutral" <->
      PersonalityAdapter.emotion_history a = [])
  /\ (PersonalityAdapter.get_dominant_emotion a = "neutral" <->
      PersonalityAdapter.emotion_history a = []).
Proof.
  intros (_ & _ & [_ Hcur] & Hh) a. fold a in Hcur, Hh.
  assert (Hlast : PersonalityAdapter.emotion_history a <> [] ->
    PersonalityAdapter.current_emotion a
      ∈ h_emotion <$> PersonalityAdapter.emotion_history a).
  { intros Hne. rewrite Hcur. unfold PersonalityAdapter.last_label.
    destruct (PersonalityAdapter.emotion_history a) as [|x l _] using rev_ind;
      [done|].
    rewrite fmap_app. simpl. rewrite last_snoc. simpl.
    apply elem_of_app. right. left. }
  assert (Hnil : PersonalityAdapter.emotion_history a = [] ->
    PersonalityAdapter.current_emotion a = "neutral"
    /\ PersonalityAdapter.get_dominant_emotion a = "neutral").
  { intros E. rewrite Hcur.
    unfold PersonalityAdapter.last_label,
      PersonalityAdapter.get_dominant_emotion. by rewrite E. }
  destruct (decide (PersonalityAdapter.emotion_history a = [])) as [E|E].
  - destruct (Hnil E) as [-> ->]. by split_and!.
  - destruct (recorded_label _ _ Hh (Hlast E)) as [Hv1 Hn1].
    destruct (recorded_label _ _ Hh (dominant_recorded a E)) as [Hv2 Hn2].
    split; [by apply bool_decide_eq_true|].
    split; [by apply bool_decide_eq_true|].
    split; split; done.
Qed.

Lemma healthy_worker_reports_witness :
  let w :=
    snd (fst (Worker.on_user_speech Sample.runtime Sample.remote_happy
                Sample.backend_ok "You are a helpful teacher." "I feel great"
                (fst Sample.worker0) (snd Sample.worker0))) in
  PersonalityAdapter.emotion_history
    (SessionHandler.adapter (Worker.emotion_handler w)) <> []
  /\ PersonalityAdapter.get_dominant_emotion
       (SessionHandler.adapter (Worker.emotion_handler w)) <> "neutral".
Proof.
  intros w.
  assert (Hw : Worker.healthy w).
  { split; [split|split; [split|split; [split|]]].
    - apply (bool_decide_unpack _). by vm_compute.
    - unfold EmotionDetector.valid_result.
      apply (bool_decide_unpack _). by vm_compute.
    - reflexivity.
    - by vm_compute.
    - vm_compute. lia.
    - reflexivity.
    - set (l := PersonalityAdapter.emotion_history _). vm_compute in l.
      subst l. apply Forall_singleton. split; [|split].
      + apply (bool_decide_unpack _). by vm_compute.
      + discriminate.
      + reflexivity. }
  pose proof (healthy_worker_reports w Hw) as (_ & _ & _ & Hdom).
  assert (Hne : PersonalityAdapter.emotion_history
                  (SessionHandler.adapter (Worker.emotion_handler w)) <> []).
  { vm_compute. discriminate. }
  split; [exact Hne|]. intros E. by apply Hne, Hdom.
Defined.

(** *** Code fences around the answer *)

Lemma split_nonempty (sep : ascii) (s : string) : PyStr.split sep s <> [].
Proof.
  destruct s as [|c s]; [done|]. simpl.
  destruct (Ascii.eqb c sep); [done|]. by destruct (PyStr.split sep s).
Qed.

Lemma split_app (sep : ascii) (a b : string) :
  PyStr.split sep (a +:+ String sep b) =
  PyStr.split sep a ++ PyStr.split sep b.
Proof.
  induction a as [|c a IH].
  - change (EmptyString +:+ String sep b) with (String sep b).
    simpl. by rewrite Ascii.eqb_refl.
  - rewrite append_cons. simpl. rewrite IH.
    destruct (Ascii.eqb c sep); [done|].
    pose proof (split_nonempty sep a) as Hne.
    by destruct (PyStr.split sep a).
Qed.

Lemma concat_cons_cons (sep x y : string) (l : list string) :
  String.concat sep (x :: y :: l) = x +:+ sep +:+ String.concat sep (y :: l).
Proof. reflexivity. Qed.

Lemma concat_head (sep : string) (c : ascii) (p : string) (l : list string) :
  String.concat sep (String c p :: l) = String c (String.concat sep (p :: l)).
Proof. by destruct l. Qed.

Lemma join_split (s : string) :
  PyStr.join PyStr.nl (PyStr.split PyStr.newline s) = s.
Proof.
  unfold PyStr.join. induction s as [|c s IH]; [done|]. simpl.
  pose proof (split_nonempty PyStr.newline s) as Hne.
  destruct (Ascii.eqb_spec c PyStr.newline) as [->|_].
  - destruct (PyStr.split PyStr.newline s) as [|p rest]; [done|].
    rewrite concat_cons_cons, IH. reflexivity.
  - destruct (PyStr.split PyStr.newline s) as [|p rest]; [done|].
    by rewrite concat_head, IH.
Qed.

Lemma slice_1_m1_inner {A} (x z : A) (l : list A) :
  PyStr.slice_1_m1 (x :: l ++ [z]) = l.
Proof.
  unfold PyStr.slice_1_m1.
  replace (length (x :: l ++ [z]) - 2)%nat with (length l)
    by (simpl; rewrite length_app; simpl; lia).
  change (drop 1 (x :: l ++ [z])) with (l ++ [z]).
  by rewrite take_app_length.
Qed.

Lemma slice_1_m1_short {A} (l : list A) :
  (length l <= 2)%nat -> PyStr.slice_1_m1 l = [].
Proof.
  unfold PyStr.slice_1_m1. intros H.
  replace (length l - 2)%nat with 0%nat by lia. done.
Qed.

Lemma rstrip_app (s t : string) :
  PyStr.rstrip t <> EmptyString ->
  PyStr.rstrip (s +:+ t) = s +:+ PyStr.rstrip t.
Proof.
  intros Ht. induction s as [|c s IH]; [done|].
  rewrite !append_cons. simpl. rewrite IH.
  destruct (s +:+ PyStr.rstrip t) eqn:E; [|done].
  destruct s; [done|]. by rewrite append_cons in E.
Qed.

Lemma append_assoc (a b c : string) : (a +:+ b) +:+ c = a +:+ (b +:+ c).
Proof.
  induction a as [|x a IH]; [done|]. by rewrite !append_cons, IH.
Qed.

Lemma split_fence (lang : string) :
  PyStr.split PyStr.newline lang = [lang] ->
  PyStr.split PyStr.newline ("```" +:+ lang) = ["```" +:+ lang].
Proof.
  intros H. rewrite !append_cons.
  change (EmptyString +:+ lang) with lang. simpl. by rewrite H.
Qed.

Lemma startswith_fence (s : string) :
  PyStr.startswith "```" ("```" +:+ s) = true.
Proof.
  unfold PyStr.startswith. rewrite !append_cons.
  change (EmptyString +:+ s) with s. simpl. by destruct s.
Qed.

(** What "remove markdown code blocks" does.  An answer that does not
    start with three backquotes once stripped is only stripped.  One that
    does loses its first and its last line, whatever they hold: a fenced
    answer of three lines or more is reduced to what is between its first
    and last line, whatever the text after the opening backquotes and
    whatever the white space around the answer; an answer of one or two
    lines is reduced to the empty string, so a fenced answer written on
    one line, or with the closing fence on the line of the content, is
    parsed as nothing when the empty string is not JSON. *)
Theorem strip_code_block_drops_first_and_last_line :
  (forall pad1 pad2 lang body last : string,
      PyStr.all_space pad1 = true -> PyStr.all_space pad2 = true ->
      PyStr.split PyStr.newline lang = [lang] ->
      PyStr.split PyStr.newline last = [last] ->
      PyStr.rstrip last = last -> last <> EmptyString ->
      EmotionDetector.strip_code_block
        (pad1
         +:+ ("```" +:+ lang +:+ PyStr.nl +:+ body +:+ PyStr.nl +:+ last)
         +:+ pad2) = body)
  /\ (forall s : string,
         PyStr.startswith "```" (PyStr.strip s) = true ->
         (length (PyStr.split PyStr.newline (PyStr.strip s)) <= 2)%nat ->
         EmotionDetector.strip_code_block s = EmptyString
         /\ forall R : Runtime,
              json_loads R EmptyString = None ->
              EmotionDetector.parse_fields R s = None)
  /\ (forall s : string,
         PyStr.startswith "```" (PyStr.strip s) = false ->
         EmotionDetector.strip_code_block s = PyStr.strip s).
Proof.
  split; [|split].
  - intros pad1 pad2 lang body last Hp1 Hp2 Hlang Hlast Hr Hne.
    unfold EmotionDetector.strip_code_block.
    rewrite strip_pad by done.
    set (F := "```" +:+ lang +:+ PyStr.nl +:+ body +:+ PyStr.nl +:+ last).
    assert (HF : PyStr.strip F = F).
    { unfold PyStr.strip.
      assert (Hl : PyStr.lstrip F = F) by reflexivity. rewrite Hl.
      unfold F. rewrite <- !append_assoc.
      rewrite rstrip_app by (by rewrite Hr). by rewrite Hr. }
    rewrite HF.
    assert (Hs : PyStr.startswith "```" F = true) by apply startswith_fence.
    rewrite Hs.
    assert (Hsplit : PyStr.split PyStr.newline F =
                     ("```" +:+ lang)
                       :: PyStr.split PyStr.newline body ++ [last]).
    { unfold F.
      change ("```" +:+ lang +:+ PyStr.nl +:+ body +:+ PyStr.nl +:+ last)
        with ("```" +:+ lang +:+ String PyStr.newline
                (body +:+ String PyStr.newline last)).
      rewrite <- append_assoc.
      rewrite split_app, split_app, split_fence, Hlast by done. done. }
    rewrite Hsplit, slice_1_m1_inner. apply join_split.
  - intros s Hs Hlen.
    assert (E : EmotionDetector.strip_code_block s = EmptyString).
    { unfold EmotionDetector.strip_code_block.
      rewrite Hs, slice_1_m1_short by done. done. }
    split; [done|]. intros R HR.
    unfold EmotionDetector.parse_fields. by rewrite E, HR.
  - intros s Hs. unfold EmotionDetector.strip_code_block. by rewrite Hs.
Qed.

Lemma strip_code_block_drops_first_and_last_line_witness :
  EmotionDetector.strip_code_block
    (" " +:+ ("```" +:+ "json" +:+ PyStr.nl +:+ Sample.happy_text
              +:+ PyStr.nl +:+ "```") +:+ PyStr.nl) = Sample.happy_text.
Proof.
  destruct strip_code_block_drops_first_and_last_line as [H _].
  apply (H " " PyStr.nl "json" Sample.happy_text "```");
    [reflexivity|reflexivity|reflexivity|reflexivity|reflexivity|discriminate].
Defined.
